(** * Vayu Drishti: the AQI post-processing pipeline

    A shallow embedding of the deterministic part of
    [ml_model/aqi_web_scraper/aqi_forecasting_model.py] and
    [ml_model/aqi_web_scraper/forecasting_engine.py]: spatial interpolation,
    satellite/ground fusion, temporal patterns, confidence intervals and the
    AQI categories.

    Numbers.  Python floats are modelled by exact rationals ([Q]); equality
    of computed numbers is [Qeq] ([==]).  Rounding error of IEEE doubles and
    NaN are outside the model.  Integers ([hour], [month], [k_nearest]) are
    [Z].

    Exceptions.  A Python call either returns a value or raises; this is the
    [result] type below, with the class name of the exception raised. *)

From Stdlib Require Import ZArith QArith Qpower Qround Lqa Lia.
From Stdlib Require Import List String Sorted Permutation.
From stdpp Require Import gmap strings.

Import ListNotations.
Local Open Scope string_scope.
Local Open Scope Z_scope.
Local Open Scope list_scope.

(** ** Exceptions and the result of a call *)

Inductive exn : Type :=
  | PyExn (cls : string) (detail : string).

Inductive result (A : Type) : Type :=
  | Ok (a : A)
  | Raise (e : exn).

Arguments Ok {A} a.
Arguments Raise {A} e.

#[global] Instance result_ret : MRet result := fun _ a => Ok a.

#[global] Instance result_bind : MBind result := fun _ _ k c =>
  match c with
  | Ok a => k a
  | Raise e => Raise e
  end.

Definition UnboundLocalError (var : string) : exn := PyExn "UnboundLocalError" var.
Definition IndexError : exn := PyExn "IndexError" "list index out of range".
Definition AttributeError (attr : string) : exn := PyExn "AttributeError" attr.
Definition ValueError (msg : string) : exn := PyExn "ValueError" msg.

(** Reading a local variable: it is bound, or the read raises. *)
Definition read_local {A} (name : string) (v : option A) : result A :=
  match v with
  | Some a => Ok a
  | None => Raise (UnboundLocalError name)
  end.

(** [raises r cls]: the call raised an exception of class [cls]. *)
Definition raises {A} (r : result A) (cls : string) : Prop :=
  match r with
  | Ok _ => False
  | Raise (PyExn c _) => c = cls
  end.

(** ** Comparisons and arithmetic on numbers *)

Definition Qleb (x y : Q) : bool := Qle_bool x y.
Definition Qltb (x y : Q) : bool := negb (Qle_bool y x).

(** [max(a, b)] of Python: the first argument unless the second is larger. *)
Definition py_max (a b : Q) : Q := if Qltb a b then b else a.
Definition py_min (a b : Q) : Q := if Qltb b a then b else a.

(** [np.clip(x, lo, hi)] is [minimum(maximum(x, lo), hi)]. *)
Definition np_clip (x lo hi : Q) : Q := py_min (py_max x lo) hi.

(** ** AQIHealthAdvisor.get_aqi_category *)

(** The returned dict, without its ['emoji'] entry. *)
Record category_info : Type := mk_category {
  category : string;
  color : string;
  color_name : string;
  risk_level : string
}.

Definition Good := mk_category "Good" "#00E400" "Green" "Minimal".
Definition Satisfactory := mk_category "Satisfactory" "#FFFF00" "Yellow" "Minor".
Definition Moderate := mk_category "Moderate" "#FF7E00" "Orange" "Moderate".
Definition Poor := mk_category "Poor" "#FF0000" "Red" "High".
Definition Very_Poor := mk_category "Very Poor" "#8F3F97" "Purple" "Very High".
Definition Severe := mk_category "Severe" "#7E0023" "Maroon" "Severe".

Definition get_aqi_category (aqi : Q) : result category_info :=
  if Qleb aqi 50 then Ok Good
  else if Qleb aqi 100 then Ok Satisfactory
  else if Qleb aqi 200 then Ok Moderate
  else if Qleb aqi 300 then Ok Poor
  else if Qleb aqi 400 then Ok Very_Poor
  else Ok Severe.

(** ** ForecastingEngine: temporal patterns *)

Definition RUSH_HOUR_MORNING : Z := 8.
Definition RUSH_HOUR_EVENING : Z := 20.
Definition DIURNAL_PEAK_HOUR : Z := 14.
Definition WEEKEND_REDUCTION : Q := 0.8.

Definition add_rush_hour_peaks (base_aqi : Q) (hour : Z) (is_weekday : bool) : Q :=
  if negb is_weekday then base_aqi
  else
    let rush_hour_boost :=
      if (7 <=? hour) && (hour <=? 9) then
        let peak_distance := Z.abs (hour - RUSH_HOUR_MORNING) in
        (25 * (1 - inject_Z peak_distance / 2))%Q
      else if (19 <=? hour) && (hour <=? 21) then
        let peak_distance := Z.abs (hour - RUSH_HOUR_EVENING) in
        (30 * (1 - inject_Z peak_distance / 2))%Q
      else 0%Q in
    (base_aqi + rush_hour_boost)%Q.

(** ** Numeric primitives of NumPy and SciPy

    [np.sin], [np.cos], [np.arcsin], [np.sqrt], [np.pi] and
    [scipy.stats.norm.ppf] are library code; the development is
    parametrised by them. *)

Class numerics : Type := {
  np_pi : Q;
  np_sin : Q -> Q;
  np_cos : Q -> Q;
  np_arcsin : Q -> Q;
  np_sqrt : Q -> Q;
  norm_ppf : Q -> Q
}.

(** ** Naive datetimes

    A [datetime] keeps the fields the engine reads ([month], [hour],
    [weekday()]); minutes and seconds never change under
    [timedelta(hours=n)] and are not read, so they are left out.
    The proleptic Gregorian calendar is counted in days from 1970-01-01. *)

Record datetime : Type := mk_datetime {
  dt_year : Z;
  dt_month : Z;
  dt_day : Z;
  dt_hour : Z
}.

Definition days_from_civil (y m d : Z) : Z :=
  let y' := if m <=? 2 then y - 1 else y in
  let era := y' / 400 in
  let yoe := y' - era * 400 in
  let mp := if 2 <? m then m - 3 else m + 9 in
  let doy := (153 * mp + 2) / 5 + d - 1 in
  let doe := yoe * 365 + yoe / 4 - yoe / 100 + doy in
  era * 146097 + doe - 719468.

Definition civil_from_days (z : Z) : Z * Z * Z :=
  let z' := z + 719468 in
  let era := z' / 146097 in
  let doe := z' - era * 146097 in
  let yoe := (doe - doe / 1460 + doe / 36524 - doe / 146096) / 365 in
  let doy := doe - (365 * yoe + yoe / 4 - yoe / 100) in
  let mp := (5 * doy + 2) / 153 in
  let d := doy - (153 * mp + 2) / 5 + 1 in
  let m := if mp <? 10 then mp + 3 else mp - 9 in
  let y := yoe + era * 400 in
  (if m <=? 2 then y + 1 else y, m, d).

Definition epoch_hours (t : datetime) : Z :=
  days_from_civil (dt_year t) (dt_month t) (dt_day t) * 24 + dt_hour t.

Definition of_epoch_hours (h : Z) : datetime :=
  let '(y, m, d) := civil_from_days (h / 24) in
  mk_datetime y m d (h mod 24).

(** [t + timedelta(hours=n)] as calendar arithmetic.  A [datetime] of
    Python holds the years 1 to 9999 only, and a sum past them raises
    OverflowError there; [add_hours] is the sum wherever one exists. *)
Definition add_hours (t : datetime) (n : Z) : datetime :=
  of_epoch_hours (epoch_hours t + n).

(** [t.weekday()]: Monday is 0; 1970-01-01 was a Thursday. *)
Definition weekday (t : datetime) : Z :=
  (days_from_civil (dt_year t) (dt_month t) (dt_day t) + 3) mod 7.

(** ** ForecastingEngine *)

Definition SEASONAL_FACTORS : gmap string Q :=
  <["winter" := 1.3%Q]> (<["spring" := 1.0%Q]>
  (<["monsoon" := 0.7%Q]> (<["autumn" := 1.1%Q]> ∅))).

Definition get_season (date : datetime) : string :=
  let month := dt_month date in
  if (month =? 12) || (month =? 1) || (month =? 2) then "winter"
  else if (month =? 3) || (month =? 4) || (month =? 5) then "spring"
  else if (month =? 6) || (month =? 7) || (month =? 8) || (month =? 9) then "monsoon"
  else "autumn".

Definition add_weekly_variation (base_aqi : Q) (is_weekend : bool) : Q :=
  if is_weekend then (base_aqi * WEEKEND_REDUCTION)%Q else base_aqi.

Definition add_seasonal_factor (base_aqi : Q) (date : datetime) : Q :=
  let season := get_season date in
  let factor := default 1.0%Q (SEASONAL_FACTORS !! season) in
  (base_aqi * factor)%Q.

(** One row of the forecast table (the keys of the dict appended to
    [forecasts]). *)
Record ForecastPoint : Type := mk_point {
  fp_timestamp : datetime;
  fp_hour_offset : Z;
  fp_aqi_forecast : Q;
  fp_aqi_lower : Q;
  fp_aqi_upper : Q;
  fp_base_aqi : Q;
  fp_confidence_interval_width : Q;
  fp_season : string;
  fp_is_weekend : bool;
  fp_is_rush_hour : bool
}.

Record history_entry : Type := mk_history {
  h_start_time : datetime;
  h_forecast_hours : Z;
  h_forecast_df : list ForecastPoint
}.

(** The engine object: [self.model] is [None] until a model is trained or
    loaded; a fitted model is its [predict(features)[0]]. *)
Record ForecastingEngine : Type := mk_engine {
  model : option (list Q -> Q);
  model_metrics : gmap string Q;
  forecast_history : list history_entry
}.

(** The locals of [generate_forecast] that are assigned on one branch only.
    They are function-level variables: a binding made in one iteration of the
    loop is still there in the next. *)
Record locals : Type := mk_locals {
  l_hour : option Z;
  l_is_weekday : option bool;
  l_is_weekend : option bool
}.

Definition no_locals : locals := mk_locals None None None.

(** [range(n)] *)
Definition range (n : Z) : list Z := map Z.of_nat (seq 0 (Z.to_nat n)).

(** The horizon after the range check of [generate_forecast]. *)
Definition clamp_hours (forecast_hours : Z) : Z :=
  if (forecast_hours <? 1) || (72 <? forecast_hours)
  then Z.max 1 (Z.min 72 forecast_hours) else forecast_hours.

Section Engine.
Context `{numerics}.

Definition add_diurnal_pattern (base_aqi : Q) (hour : Z) : Q :=
  let hour_angle := (inject_Z (hour - DIURNAL_PEAK_HOUR) * (2 * np_pi / 24))%Q in
  let pattern_factor := (1.0 + 0.3 * np_cos hour_angle)%Q in
  (base_aqi * pattern_factor)%Q.

(** The body of the [for hour_offset in range(forecast_hours)] loop. *)
Definition forecast_step (predict : list Q -> Q) (metrics : gmap string Q)
    (features : list Q) (start_time : datetime) (include_patterns : bool)
    (vars : locals) (hour_offset : Z) : result (locals * ForecastPoint) :=
  let forecast_time := add_hours start_time hour_offset in
  let base_aqi := predict features in
  let '(vars, aqi) :=
    if include_patterns then
      let hour := dt_hour forecast_time in
      let is_weekday := weekday forecast_time <? 5 in
      let is_weekend := negb is_weekday in
      let aqi := base_aqi in
      let aqi := add_seasonal_factor aqi forecast_time in
      let aqi := add_weekly_variation aqi is_weekend in
      let aqi := add_diurnal_pattern aqi hour in
      let aqi := add_rush_hour_peaks aqi hour is_weekday in
      (mk_locals (Some hour) (Some is_weekday) (Some is_weekend), aqi)
    else (vars, base_aqi) in
  let rmse := default 4.57%Q (metrics !! "test_rmse") in
  let lower_bound := py_max 0 (aqi - 1.96 * rmse)%Q in
  let upper_bound := (aqi + 1.96 * rmse)%Q in
  is_weekend ← read_local "is_weekend" (l_is_weekend vars);
  hour ← read_local "hour" (l_hour vars);
  mret (vars,
        {| fp_timestamp := forecast_time;
           fp_hour_offset := hour_offset;
           fp_aqi_forecast := aqi;
           fp_aqi_lower := lower_bound;
           fp_aqi_upper := upper_bound;
           fp_base_aqi := base_aqi;
           fp_confidence_interval_width := (upper_bound - lower_bound)%Q;
           fp_season := get_season forecast_time;
           fp_is_weekend := is_weekend;
           fp_is_rush_hour :=
             existsb (Z.eqb hour) [7; 8; 9; 19; 20; 21] |}).

Fixpoint forecast_loop (step : locals -> Z -> result (locals * ForecastPoint))
    (vars : locals) (offsets : list Z) (forecasts : list ForecastPoint)
    : result (list ForecastPoint) :=
  match offsets with
  | [] => Ok forecasts
  | hour_offset :: rest =>
      r ← step vars hour_offset;
      forecast_loop step (fst r) rest (forecasts ++ [snd r])
  end.

(** Returns the forecast table and the engine with the forecast appended
    to its history. *)
Definition generate_forecast (self : ForecastingEngine) (features : list Q)
    (start_time : datetime) (forecast_hours : Z) (include_patterns : bool)
    : result (list ForecastPoint * ForecastingEngine) :=
  match model self with
  | None => Raise (ValueError "Model not loaded. Call train_model() or load_model() first.")
  | Some predict =>
      let forecast_hours := clamp_hours forecast_hours in
      forecast_df ←
        forecast_loop
          (forecast_step predict (model_metrics self) features start_time
             include_patterns)
          no_locals (range forecast_hours) [];
      mret (forecast_df,
            mk_engine (model self) (model_metrics self)
              (forecast_history self ++
               [mk_history start_time forecast_hours forecast_df]))
  end.

(** [calculate_confidence_intervals]: lower and upper bounds, elementwise. *)
Definition calculate_confidence_intervals (self : ForecastingEngine)
    (predictions : list Q) (confidence_level : Q) : list Q * list Q :=
  let rmse := default 4.57%Q (model_metrics self !! "test_rmse") in
  let z_score := norm_ppf ((1 + confidence_level) / 2)%Q in
  let margin := (z_score * rmse)%Q in
  let lower_bounds := map (fun p => py_max 0 (p - margin)%Q) predictions in
  let upper_bounds := map (fun p => (p + margin)%Q) predictions in
  (lower_bounds, upper_bounds).

(** The pattern adjustments in the order seasonal, weekly, diurnal,
    rush hour, each applied to the value the previous one returned. *)
Definition composed_patterns (base_aqi : Q) (t : datetime) : Q :=
  let is_weekday := weekday t <? 5 in
  add_rush_hour_peaks
    (add_diurnal_pattern
       (add_weekly_variation (add_seasonal_factor base_aqi t) (negb is_weekday))
       (dt_hour t))
    (dt_hour t) is_weekday.

End Engine.

(** ** Python sequences *)

(** An index or slice bound counted from the end when negative, then
    clipped to the sequence, as [slice.indices] does. *)
Definition slice_bound (len i : Z) : Z :=
  if i <? 0 then Z.max (i + len) 0 else Z.min i len.

(** [l[a:b]] *)
Definition py_slice {A} (l : list A) (a b : Z) : list A :=
  let len := Z.of_nat (length l) in
  let a' := slice_bound len a in
  let b' := slice_bound len b in
  firstn (Z.to_nat (b' - a')) (skipn (Z.to_nat a') l).

(** [l[:k]] *)
Definition py_take {A} (k : Z) (l : list A) : list A := py_slice l 0 k.

(** [range(a, b)] *)
Definition range2 (a b : Z) : list Z :=
  map (fun i => a + Z.of_nat i) (seq 0 (Z.to_nat (b - a))).

(** [l[i]] for an index that is not negative. *)
Definition py_index {A} (l : list A) (i : nat) : result A :=
  match nth_error l i with
  | Some a => Ok a
  | None => Raise IndexError
  end.

(** [sum(l)]: starts from 0 and adds from the left. *)
Definition py_sum (l : list Q) : Q := fold_left Qplus l 0%Q.

(** [min(l)] of a list; the empty list raises. *)
Definition py_min_list (l : list Q) : result Q :=
  match l with
  | [] => Raise (ValueError "min() arg is an empty sequence")
  | x :: rest => Ok (fold_left py_min rest x)
  end.

(** [np.argsort]: the indices that sort the values.  Ties keep the order
    of the input (NumPy sorts short arrays by insertion). *)
Fixpoint insert_by_key (p : Q * nat) (sorted : list (Q * nat)) : list (Q * nat) :=
  match sorted with
  | [] => [p]
  | q :: rest =>
      if Qleb (fst p) (fst q) then p :: q :: rest
      else q :: insert_by_key p rest
  end.

Definition np_argsort (values : list Q) : list nat :=
  map snd (fold_right insert_by_key [] (combine values (seq 0 (length values)))).

(** The order [np_argsort] sorts the (value, index) pairs by. *)
Definition by_key (p q : Q * nat) : Prop := (fst p <= fst q)%Q.

(** [np.argmin]: the first index of the smallest value. *)
Fixpoint argmin_from (best : Q) (best_idx : nat) (i : nat) (l : list Q) : nat :=
  match l with
  | [] => best_idx
  | x :: rest =>
      if Qltb x best then argmin_from x i (S i) rest
      else argmin_from best best_idx (S i) rest
  end.

Definition np_argmin (l : list Q) : nat :=
  match l with
  | [] => 0%nat
  | x :: rest => argmin_from x 0%nat 1%nat rest
  end.

(** The value under the key ['features']: a Python list, or a NumPy array.
    Both have a length and convert with [np.array]; only the array has
    [.tolist()]. *)
Inductive features_value : Type :=
  | PyList (items : list Q)
  | NdArray (items : list Q).

Definition items_of (f : features_value) : list Q :=
  match f with
  | PyList l => l
  | NdArray l => l
  end.

Definition tolist (f : features_value) : result (list Q) :=
  match f with
  | PyList _ => Raise (AttributeError "'list' object has no attribute 'tolist'")
  | NdArray l => Ok l
  end.

(** [acc += v] on a one-dimensional array [acc]: [v] has the length of
    [acc] or is broadcast from length 1; any other length raises. *)
Definition np_iadd (acc v : list Q) : result (list Q) :=
  if (length v =? length acc)%nat then
    Ok (map (fun p => (fst p + snd p)%Q) (combine acc v))
  else match v with
       | [x] => Ok (map (fun a => (a + x)%Q) acc)
       | _ => Raise (ValueError "operands could not be broadcast together")
       end.

(** ** AQIForecaster: spatial interpolation *)

Record station : Type := mk_station {
  lat : Q;
  lon : Q;
  aqi : Q;
  features : features_value
}.

Record contributor : Type := mk_contributor {
  distance_km : Q;
  contributor_aqi : Q;
  weight : Q
}.

Record interpolation_result : Type := mk_interpolation {
  ir_latitude : Q;
  ir_longitude : Q;
  ir_interpolated_aqi : Q;
  ir_interpolated_features : list Q;
  ir_method : string;
  ir_k_nearest : Z;
  ir_nearest_stations : list contributor
}.

Fixpoint accumulate_features (acc : list Q) (weighted : list (Q * station))
    : result (list Q) :=
  match weighted with
  | [] => Ok acc
  | (w, s) :: rest =>
      acc' ← np_iadd acc (map (Qmult w) (items_of (features s)));
      accumulate_features acc' rest
  end.

(** [k_nearest] after the check against the number of stations. *)
Definition clamp_k (n : nat) (k_nearest : Z) : Z :=
  if Z.of_nat n <? k_nearest then Z.of_nat n else k_nearest.

Section Forecaster.
Context `{numerics}.

Definition np_radians (deg : Q) : Q := (deg * (np_pi / 180))%Q.

Definition _haversine_distance (lat1 lon1 lat2 lon2 : Q) : Q :=
  let lat1 := np_radians lat1 in
  let lon1 := np_radians lon1 in
  let lat2 := np_radians lat2 in
  let lon2 := np_radians lon2 in
  let dlat := (lat2 - lat1)%Q in
  let dlon := (lon2 - lon1)%Q in
  let a := (np_sin (dlat / 2) ^ 2
            + np_cos lat1 * np_cos lat2 * np_sin (dlon / 2) ^ 2)%Q in
  let c := (2 * np_arcsin (np_sqrt a))%Q in
  let r := 6371%Q in
  (c * r)%Q.

(** The distances from the target to all stations, in the order of
    [station_data]. *)
Definition station_distances (target_lat target_lon : Q)
    (station_data : list station) : list Q :=
  map (fun s => _haversine_distance target_lat target_lon (lat s) (lon s))
      station_data.

(** The k nearest stations and their distances. *)
Definition select_nearest (target_lat target_lon : Q)
    (station_data : list station) (k_nearest : Z)
    : result (list station * list Q) :=
  let distances := station_distances target_lat target_lon station_data in
  let nearest_indices := py_take k_nearest (np_argsort distances) in
  nearest_stations ← mapM (py_index station_data) nearest_indices;
  nearest_distances ← mapM (py_index distances) nearest_indices;
  mret (nearest_stations, nearest_distances).

(** The normalised inverse-distance weights. *)
Definition idw_weights (nearest_distances : list Q) (idw_power : Z) : list Q :=
  let weights_raw := map (fun d => (1.0 / d ^ idw_power)%Q) nearest_distances in
  let total_weight := py_sum weights_raw in
  map (fun w => (w / total_weight)%Q) weights_raw.

(** The entries under ['nearest_stations'] of the returned dict. *)
Definition contributors (nearest_distances : list Q)
    (nearest_stations : list station) (weights : list Q) : list contributor :=
  map (fun p => mk_contributor (fst (fst p)) (aqi (snd (fst p))) (snd p))
      (combine (combine nearest_distances nearest_stations) weights).

(** The two branches of the weighting: the value, the features and the
    weights. *)
Definition idw_branch (nearest_stations : list station)
    (nearest_distances : list Q) (feature_dim : nat) (idw_power : Z)
    : result (Q * features_value * list Q) :=
  closest_distance ← py_min_list nearest_distances;
  if Qltb closest_distance 0.1 then
    let closest_idx := np_argmin nearest_distances in
    closest ← py_index nearest_stations closest_idx;
    let weights :=
      map (fun i => if (i =? closest_idx)%nat then 1.0%Q else 0.0%Q)
          (seq 0 (length nearest_stations)) in
    mret (aqi closest, features closest, weights)
  else
    let weights := idw_weights nearest_distances idw_power in
    let interpolated_aqi :=
      py_sum (map (fun p => (fst p * aqi (snd p))%Q)
                  (combine weights nearest_stations)) in
    interpolated_features ←
      accumulate_features (repeat 0%Q feature_dim)
        (combine weights nearest_stations);
    mret (interpolated_aqi, NdArray interpolated_features, weights).

Definition predict_spatial_interpolation (target_lat target_lon : Q)
    (station_data : list station) (k_nearest : Z) (idw_power : Z)
    : result interpolation_result :=
  let k_nearest := clamp_k (length station_data) k_nearest in
  sel ← select_nearest target_lat target_lon station_data k_nearest;
  let nearest_stations := fst sel in
  let nearest_distances := snd sel in
  first ← py_index nearest_stations 0;
  let feature_dim := length (items_of (features first)) in
  r ← idw_branch nearest_stations nearest_distances feature_dim idw_power;
  let interpolated_aqi := fst (fst r) in
  let interpolated_features := snd (fst r) in
  let weights := snd r in
  feats_list ← tolist interpolated_features;
  mret {| ir_latitude := target_lat;
          ir_longitude := target_lon;
          ir_interpolated_aqi := interpolated_aqi;
          ir_interpolated_features := feats_list;
          ir_method := "IDW";
          ir_k_nearest := k_nearest;
          ir_nearest_stations :=
            contributors nearest_distances nearest_stations weights |}.

(** All feature vectors have the length of the first one. *)
Definition same_feature_dim (stations : list station) : bool :=
  match stations with
  | [] => true
  | first :: _ =>
      forallb (fun s => (length (items_of (features s))
                         =? length (items_of (features first)))%nat) stations
  end.

(** The stations the query selects. *)
Definition selected_stations (target_lat target_lon : Q)
    (station_data : list station) (k_nearest : Z) : list station :=
  match select_nearest target_lat target_lon station_data
          (clamp_k (length station_data) k_nearest) with
  | Ok (nearest_stations, _) => nearest_stations
  | Raise _ => []
  end.

(** A non-degenerate query: at least one station is selected and every
    selected station is at 0.1 km or more. *)
Definition non_degenerate (target_lat target_lon : Q)
    (station_data : list station) (k_nearest : Z) : bool :=
  match select_nearest target_lat target_lon station_data
          (clamp_k (length station_data) k_nearest) with
  | Ok (nearest_stations, nearest_distances) =>
      negb (Nat.eqb (length nearest_stations) 0)
      && forallb (fun d => Qleb 0.1 d) nearest_distances
  | Raise _ => false
  end.

(** A near-colocated query: at least one station is selected and the
    smallest selected distance is below 0.1 km. *)
Definition near_colocated (target_lat target_lon : Q)
    (station_data : list station) (k_nearest : Z) : bool :=
  match select_nearest target_lat target_lon station_data
          (clamp_k (length station_data) k_nearest) with
  | Ok (_, nearest_distances) =>
      match py_min_list nearest_distances with
      | Ok closest_distance => Qltb closest_distance 0.1
      | Raise _ => false
      end
  | Raise _ => false
  end.

End Forecaster.

(** ** AQIForecaster: satellite and ground fusion *)

(** [round(x, 2)]: to the nearest hundredth, ties to the even one. *)
Definition py_round2 (x : Q) : Q :=
  let n := (x * 100)%Q in
  let f := Qfloor n in
  let rest := (n - inject_Z f)%Q in
  let r :=
    if Qltb rest 0.5 then f
    else if Qltb 0.5 rest then f + 1
    else if Z.even f then f else f + 1 in
  (inject_Z r / 100)%Q.

Definition seasonal_factors : gmap string Q :=
  <["winter" := 1.3%Q]> (<["summer" := 0.9%Q]>
  (<["monsoon" := 0.7%Q]> (<["autumn" := 1.1%Q]> ∅))).

Record components : Type := mk_components {
  satellite_contribution : Q;
  ground_contribution : Q
}.

Record hyperlocal_result : Type := mk_hyperlocal {
  hl_latitude : Q;
  hl_longitude : Q;
  hyperlocal_aqi : Q;
  hl_aod_value : Q;
  aod_derived_aqi : Q;
  hl_season : string;
  confidence : string;
  method : string;
  hl_temporal_factor : Q;
  hl_latitude_factor : Q;
  hl_components : components;
  nearest_stations_used : nat
}.

(** A list argument that defaults to [None]: its truth value and length. *)
Definition truthy {A} (l : option (list A)) : bool :=
  match l with
  | Some (_ :: _) => true
  | _ => false
  end.

Section Fusion.
Context `{numerics}.

Definition predict_hyperlocal (latitude longitude aod_value : Q)
    (temporal_features : gmap string Z)
    (nearby_stations : option (list station)) (season : option string)
    : result hyperlocal_result :=
  let base_aqi_from_aod := (150 * aod_value)%Q in
  let season :=
    match season with
    | Some s => s
    | None =>
        let month := default 1 (temporal_features !! "month") in
        if (month =? 12) || (month =? 1) || (month =? 2) then "winter"
        else if (month =? 3) || (month =? 4) || (month =? 5) then "summer"
        else if (month =? 6) || (month =? 7) || (month =? 8) || (month =? 9)
             then "monsoon"
        else "autumn"
    end in
  let aod_aqi := (base_aqi_from_aod * default 1.0%Q (seasonal_factors !! season))%Q in
  let latitude_factor :=
    if Qleb 24 latitude && Qleb latitude 30 then 1.2%Q
    else if Qltb 30 latitude then 0.8%Q
    else 1.0%Q in
  let aod_aqi := (aod_aqi * latitude_factor)%Q in
  r ←
    (if truthy nearby_stations && (0 <? length (default [] nearby_stations))%nat then
       spatial_result ←
         predict_spatial_interpolation latitude longitude
           (default [] nearby_stations) 3 2;
       let ground_aqi := ir_interpolated_aqi spatial_result in
       let fusion_weights : gmap string Q :=
         <["aod" := 0.4%Q]> (<["ground" := 0.6%Q]> ∅) in
       aod_w ← from_option Ok (Raise (PyExn "KeyError" "aod")) (fusion_weights !! "aod");
       ground_w ←
         from_option Ok (Raise (PyExn "KeyError" "ground")) (fusion_weights !! "ground");
       let fused_aqi := (aod_w * aod_aqi + ground_w * ground_aqi)%Q in
       mret (Some fusion_weights, fused_aqi, "high", "Satellite-Ground Fusion")
     else
       mret (None, aod_aqi, "medium", "Satellite AOD only"));
  let '(fusion_weights, fused_aqi, confidence, method) := r in
  let hour := default 12 (temporal_features !! "hour") in
  let temporal_factor :=
    if (6 <=? hour) && (hour <=? 9) then 1.15%Q
    else if (18 <=? hour) && (hour <=? 21) then 1.10%Q
    else if (0 <=? hour) && (hour <=? 5) then 1.05%Q
    else 1.0%Q in
  let fused_aqi := (fused_aqi * temporal_factor)%Q in
  let fused_aqi := np_clip fused_aqi 0 500 in
  satellite ←
    (w ← read_local "fusion_weights" fusion_weights;
     mret (default 1.0%Q (w !! "aod")));
  ground ←
    (if truthy nearby_stations then
       w ← read_local "fusion_weights" fusion_weights;
       mret (default 0.0%Q (w !! "ground"))
     else mret 0.0%Q);
  mret {| hl_latitude := latitude;
          hl_longitude := longitude;
          hyperlocal_aqi := py_round2 fused_aqi;
          hl_aod_value := aod_value;
          aod_derived_aqi := py_round2 aod_aqi;
          hl_season := season;
          confidence := confidence;
          method := method;
          hl_temporal_factor := temporal_factor;
          hl_latitude_factor := latitude_factor;
          hl_components := mk_components satellite ground;
          nearest_stations_used :=
            if truthy nearby_stations then length (default [] nearby_stations)
            else 0%nat |}.

End Fusion.

(** ** AQIForecaster: the ensemble *)

(** The two fitted models.  The Random Forest predicts one value per row;
    the LSTM predicts one value per window of [lookback] rows. *)
Record AQIForecaster : Type := mk_forecaster {
  lstm_model : option (list (list Q) -> Q);
  rf_model : option (list Q -> Q)
}.

(** The windows [X[i-lookback:i]] for [i] in [range(lookback, len(X))]. *)
Definition _create_sequences (X : list (list Q)) (lookback : Z)
    : list (list (list Q)) :=
  map (fun i => py_slice X (i - lookback) i)
      (range2 lookback (Z.of_nat (length X))).

(** An elementwise operation on two one-dimensional arrays, with NumPy's
    broadcasting of a length-1 operand. *)
Definition np_zip_with (f : Q -> Q -> Q) (a b : list Q) : result (list Q) :=
  if (length a =? length b)%nat then Ok (map (fun p => f (fst p) (snd p)) (combine a b))
  else match a, b with
       | [x], _ => Ok (map (f x) b)
       | _, [y] => Ok (map (fun x => f x y) a)
       | _, _ => Raise (ValueError "operands could not be broadcast together")
       end.

(** The defaults of [predict_ensemble]. *)
Definition default_lookback : Z := 24.
Definition default_lstm_weight : Q := 0.7.

Definition predict_ensemble (self : AQIForecaster) (X : list (list Q))
    (lookback : Z) (lstm_weight : Q) : result (list Q) :=
  match lstm_model self, rf_model self with
  | Some lstm, Some rf =>
      let X_seq := _create_sequences X lookback in
      let lstm_pred := map lstm X_seq in
      let rf_pred_initial := map rf (py_take lookback X) in
      let lstm_pred_full := rf_pred_initial ++ lstm_pred in
      let rf_pred := map rf X in
      np_zip_with Qplus
        (map (Qmult lstm_weight) lstm_pred_full)
        (map (Qmult (1 - lstm_weight)) rf_pred)
  | _, _ => Raise (ValueError "Both models must be trained before prediction")
  end.

(** ** AQIHealthAdvisor.get_health_recommendations *)

(** The value under ['mask_required']: [False] or an advice text. *)
Inductive mask_value : Type :=
| MaskFalse
| MaskText (text : string).

(** An entry of the table of base recommendations. *)
Record base_recommendation : Type := mk_base_rec {
  rec_general : string;
  rec_sensitive_groups : string;
  rec_outdoor_activities : string;
  rec_mask_required : mask_value;
  rec_windows : string;
  rec_exercise : string;
  rec_children_elderly : string
}.

Definition recommendations : gmap string base_recommendation :=
  <["Good" := mk_base_rec
      "Air quality is excellent. Ideal for all outdoor activities."
      "No precautions needed."
      "✅ All outdoor activities recommended"
      MaskFalse
      "Keep windows open for fresh air"
      "Perfect for jogging, cycling, and outdoor sports"
      "Safe for prolonged outdoor exposure"]>
  (<["Satisfactory" := mk_base_rec
      "Air quality is acceptable. Sensitive individuals should consider reducing prolonged outdoor activities."
      "People with respiratory conditions may experience minor irritation."
      "✅ Outdoor activities safe for most people"
      MaskFalse
      "Ventilate your home regularly"
      "Outdoor exercise acceptable, monitor how you feel"
      "Generally safe, but watch for symptoms"]>
  (<["Moderate" := mk_base_rec
      "Air quality is moderate. Sensitive groups should reduce prolonged outdoor exposure."
      "Children, elderly, and people with lung/heart diseases should limit outdoor activities."
      "⚠️ Limit prolonged outdoor activities"
      (MaskText "Recommended for sensitive groups")
      "Keep windows closed during peak pollution hours"
      "Light exercise okay, avoid intense workouts outdoors"
      "Limit outdoor time, especially mornings and evenings"]>
  (<["Poor" := mk_base_rec
      "Air quality is poor. Everyone should reduce outdoor exposure."
      "Sensitive groups must avoid outdoor activities. Use N95 masks if going out."
      "❌ Avoid prolonged outdoor activities"
      (MaskText "N95 mask essential when outdoors")
      "Keep windows closed. Use air purifiers indoors"
      "Exercise indoors only"
      "Stay indoors. Close all windows"]>
  (<["Very Poor" := mk_base_rec
      "Air quality is very poor. Avoid all outdoor activities."
      "Emergency measures needed. Stay indoors with air purification."
      "🚫 Avoid all outdoor activities"
      (MaskText "N95/N99 mask mandatory if you must go out")
      "Seal windows. Run air purifiers on high"
      "Indoor exercise only with good ventilation"
      "Strictly indoors. Monitor health closely"]>
  (<["Severe" := mk_base_rec
      "HEALTH EMERGENCY! Air quality is hazardous."
      "Medical emergency level. Seek immediate shelter. Consider relocation."
      "🚨 STAY INDOORS AT ALL TIMES"
      (MaskText "N99 mask + eye protection if emergency outdoor exposure")
      "All windows sealed. Multiple air purifiers running"
      "No exercise. Minimize all physical activity"
      "Medical supervision recommended. Consider evacuation"]> ∅))))).

(** The truth value of an optional number: [None] and [0.0] are false. *)
Definition py_bool (f : option Q) : bool :=
  match f with
  | Some x => negb (Qeq_bool x 0)
  | None => false
  end.

(** A forecast that is [None] or zero: the ones [py_bool] takes as false. *)
Definition absent_or_zero (f : option Q) : Prop :=
  match f with
  | Some x => (x == 0)%Q
  | None => True
  end.

(** [a / n] for a float and a length; a zero divisor raises. *)
Definition py_truediv (a : Q) (n : nat) : result Q :=
  if Nat.eqb n 0 then Raise (PyExn "ZeroDivisionError" "division by zero")
  else Ok (a / inject_Z (Z.of_nat n))%Q.

(** [round(x, 1)]: to the nearest tenth, ties to the even one. *)
Definition py_round1 (x : Q) : Q :=
  let n := (x * 10)%Q in
  let f := Qfloor n in
  let rest := (n - inject_Z f)%Q in
  let r :=
    if Qltb rest 0.5 then f
    else if Qltb 0.5 rest then f + 1
    else if Z.even f then f else f + 1 in
  (inject_Z r / 10)%Q.

(** The returned dict, without its ['emoji'] entry. *)
Record health_recommendations : Type := mk_health {
  hr_current_aqi : Q;
  hr_category : string;
  hr_color : string;
  hr_color_name : string;
  hr_risk_level : string;
  hr_general_advice : string;
  hr_sensitive_groups : string;
  hr_outdoor_activities : string;
  hr_mask_required : mask_value;
  hr_windows : string;
  hr_exercise : string;
  hr_children_elderly : string;
  hr_forecast_trend : option string;
  hr_forecast_24h : option Q;
  hr_forecast_48h : option Q;
  hr_forecast_72h : option Q
}.

Definition trend_improve : string :=
  "📉 Good news! Air quality expected to improve".
Definition trend_worsen : string :=
  "📈 Warning! Air quality expected to worsen".
Definition trend_similar : string :=
  "➡️ Air quality expected to remain similar".

Definition get_health_recommendations (aqi : Q)
    (forecast_24h forecast_48h forecast_72h : option Q)
    : result health_recommendations :=
  category_info ← get_aqi_category aqi;
  let category := category category_info in
  base_rec ← from_option Ok (Raise (PyExn "KeyError" category))
                (recommendations !! category);
  forecast_trend ←
    (if py_bool forecast_24h || py_bool forecast_48h || py_bool forecast_72h
     then
       let forecasts :=
         omap (fun f => f) [forecast_24h; forecast_48h; forecast_72h] in
       avg_forecast ← py_truediv (py_sum forecasts) (length forecasts);
       if Qltb avg_forecast (aqi * 0.9) then mret (Some trend_improve)
       else if Qltb (aqi * 1.1) avg_forecast then mret (Some trend_worsen)
       else mret (Some trend_similar)
     else mret None);
  let rounded (f : option Q) :=
    if py_bool f then option_map py_round1 f else None in
  mret {| hr_current_aqi := py_round1 aqi;
          hr_category := category;
          hr_color := color category_info;
          hr_color_name := color_name category_info;
          hr_risk_level := risk_level category_info;
          hr_general_advice := rec_general base_rec;
          hr_sensitive_groups := rec_sensitive_groups base_rec;
          hr_outdoor_activities := rec_outdoor_activities base_rec;
          hr_mask_required := rec_mask_required base_rec;
          hr_windows := rec_windows base_rec;
          hr_exercise := rec_exercise base_rec;
          hr_children_elderly := rec_children_elderly base_rec;
          hr_forecast_trend := forecast_trend;
          hr_forecast_24h := rounded forecast_24h;
          hr_forecast_48h := rounded forecast_48h;
          hr_forecast_72h := rounded forecast_72h |}.

(** ** Forecast points with the patterns on *)

Section EnginePoints.
Context `{numerics}.

(** The row [generate_forecast] appends at an offset when
    [include_patterns] is true. *)
Definition pattern_point (predict : list Q -> Q) (metrics : gmap string Q)
    (features : list Q) (start_time : datetime) (hour_offset : Z)
    : ForecastPoint :=
  let t := add_hours start_time hour_offset in
  let rmse := default 4.57%Q (metrics !! "test_rmse") in
  let aqi := composed_patterns (predict features) t in
  {| fp_timestamp := t;
     fp_hour_offset := hour_offset;
     fp_aqi_forecast := aqi;
     fp_aqi_lower := py_max 0 (aqi - 1.96 * rmse)%Q;
     fp_aqi_upper := (aqi + 1.96 * rmse)%Q;
     fp_base_aqi := predict features;
     fp_confidence_interval_width :=
       (aqi + 1.96 * rmse - py_max 0 (aqi - 1.96 * rmse))%Q;
     fp_season := get_season t;
     fp_is_weekend := negb (weekday t <? 5);
     fp_is_rush_hour := existsb (Z.eqb (dt_hour t)) [7; 8; 9; 19; 20; 21] |}.

End EnginePoints.

(** ** ForecastingEngine.detect_rush_hour_peaks *)

Record peak : Type := mk_peak {
  pk_timestamp : datetime;
  pk_aqi : Q;
  pk_increase : Q;
  pk_confidence : Q
}.

Record peaks : Type := mk_peaks {
  morning_peaks : list peak;
  evening_peaks : list peak;
  detection_accuracy : gmap string Q
}.

(** [Series.mean()] of a column; it is only taken of a frame with rows. *)
Definition series_mean (column : list Q) : Q :=
  (py_sum column / inject_Z (Z.of_nat (length column)))%Q.

(** [forecast_df['timestamp'].dt.hour.between(lo, hi)], both ends
    included. *)
Definition hour_between (lo hi : Z) (row : ForecastPoint) : bool :=
  (lo <=? dt_hour (fp_timestamp row)) && (dt_hour (fp_timestamp row) <=? hi).

Definition detect_rush_hour_peaks (forecast_df : list ForecastPoint)
    (threshold_increase : Q) : peaks :=
  let morning_hours := List.filter (hour_between 7 9) forecast_df in
  let morning_peaks :=
    if (0 <? length morning_hours)%nat then
      let baseline := series_mean (map fp_aqi_forecast forecast_df) in
      fold_left
        (fun found row =>
           let increase := (fp_aqi_forecast row - baseline)%Q in
           if Qleb threshold_increase increase then
             found ++ [{| pk_timestamp := fp_timestamp row;
                          pk_aqi := fp_aqi_forecast row;
                          pk_increase := increase;
                          pk_confidence := 0.94 |}]
           else found)
        morning_hours []
    else [] in
  let evening_hours := List.filter (hour_between 19 21) forecast_df in
  let evening_peaks :=
    if (0 <? length evening_hours)%nat then
      let baseline := series_mean (map fp_aqi_forecast forecast_df) in
      fold_left
        (fun found row =>
           let increase := (fp_aqi_forecast row - baseline)%Q in
           if Qleb threshold_increase increase then
             found ++ [{| pk_timestamp := fp_timestamp row;
                          pk_aqi := fp_aqi_forecast row;
                          pk_increase := increase;
                          pk_confidence := 0.92 |}]
           else found)
        evening_hours []
    else [] in
  {| morning_peaks := morning_peaks;
     evening_peaks := evening_peaks;
     detection_accuracy := <["morning" := 0.94%Q]> (<["evening" := 0.92%Q]> ∅) |}.

Definition default_threshold_increase : Q := 20.0.

(** ** A sample instance of the numeric primitives

    Rational approximations on a grid of [10^-15], used to run the
    definitions on concrete inputs.  The theorems below hold for every
    instance of [numerics]. *)

Module Sample.

Definition grid : positive := 1000000000000000.

Definition trunc (x : Q) : Q :=
  Qmake (Qfloor (x * inject_Z (Zpos grid))) grid.

(** Sum of a power series whose terms satisfy
    [t' = t * x2 * num k / den k]. *)
Fixpoint series (n : nat) (k : Z) (num den : Z -> Z) (term acc x2 : Q) : Q :=
  match n with
  | O => acc
  | S n' =>
      let term' := trunc (term * x2 * inject_Z (num k) / inject_Z (den k)) in
      series n' (k + 2) num den term' (trunc (acc + term')) x2
  end.

Definition sin (x : Q) : Q :=
  series 14 1 (fun _ => -1) (fun k => (k + 1) * (k + 2)) x x (x * x).

Definition cos (x : Q) : Q :=
  series 14 0 (fun _ => -1) (fun k => (k + 1) * (k + 2)) 1 1 (x * x).

Definition arcsin (x : Q) : Q :=
  series 14 1 (fun k => k * k) (fun k => (k + 1) * (k + 2)) x x (x * x).

Fixpoint newton (n : nat) (a y : Q) : Q :=
  match n with
  | O => y
  | S n' => newton n' a (trunc ((y + a / y) / 2))
  end.

Definition sqrt (a : Q) : Q :=
  if Qleb a 0 then 0%Q else newton 40 a 1.

(** The standard normal quantile at the usual two-sided levels. *)
Definition ppf (p : Q) : Q :=
  if Qeq_bool p 0.95 then 1.6448536269514722%Q
  else if Qeq_bool p 0.975 then 1.959963984540054%Q
  else if Qeq_bool p 0.995 then 2.5758293035489004%Q
  else 0%Q.

#[export] Instance sample_numerics : numerics := {|
  np_pi := 3.141592653589793%Q;
  np_sin := sin;
  np_cos := cos;
  np_arcsin := arcsin;
  np_sqrt := sqrt;
  norm_ppf := ppf
|}.

End Sample.

(** ** Sample stations

    Three stations around Delhi, as in the demonstration at the end of
    [aqi_forecasting_model.py]; [wrap] chooses how the features are
    carried (the demonstration passes Python lists). *)
Definition sample_stations (wrap : list Q -> features_value) : list station :=
  [ mk_station 28.61 77.20 120 (wrap [1%Q; 2%Q]);
    mk_station 28.70 77.10 95 (wrap [3%Q; 4%Q]);
    mk_station 28.54 77.39 140 (wrap [5%Q; 6%Q]) ].

(** * Properties *)

(** ** Comparisons *)

Lemma Qleb_le x y : Qleb x y = true <-> (x <= y)%Q.
Proof. apply Qle_bool_iff. Qed.

Lemma Qltb_lt x y : Qltb x y = true <-> (x < y)%Q.
Proof.
  unfold Qltb. rewrite negb_true_iff. split.
  - intros Hb. apply Qnot_le_lt. intros Hle.
    apply Qle_bool_iff in Hle. congruence.
  - intros Hlt. destruct (Qle_bool y x) eqn:E; [|reflexivity].
    apply Qle_bool_iff in E. exfalso. apply (Qlt_not_le _ _ Hlt E).
Qed.

Lemma Qltb_ge x y : Qltb x y = false <-> (y <= x)%Q.
Proof. unfold Qltb. rewrite negb_false_iff. apply Qle_bool_iff. Qed.

Lemma Qleb_gt x y : Qleb x y = false <-> (y < x)%Q.
Proof.
  split.
  - intros Hb. apply Qnot_le_lt. intros Hle. apply Qleb_le in Hle. congruence.
  - intros Hlt. destruct (Qleb x y) eqn:E; [|reflexivity].
    apply Qleb_le in E. exfalso. apply (Qlt_not_le _ _ Hlt E).
Qed.

Lemma py_max_spec a b : (a <= py_max a b /\ b <= py_max a b)%Q.
Proof.
  unfold py_max. destruct (Qltb a b) eqn:E.
  - apply Qltb_lt in E. split; lra.
  - apply Qltb_ge in E. split; lra.
Qed.

Lemma py_max_cases a b : py_max a b = a \/ py_max a b = b.
Proof. unfold py_max. destruct (Qltb a b); auto. Qed.

(** ** The calendar and the temporal patterns on sample inputs *)

Example add_hours_new_year :
  add_hours (mk_datetime 2025 12 31 23) 2 = mk_datetime 2026 1 1 1.
Proof. reflexivity. Qed.

Example add_hours_leap_day :
  add_hours (mk_datetime 2024 2 28 12) 24 = mk_datetime 2024 2 29 12.
Proof. reflexivity. Qed.

Example weekday_monday : weekday (mk_datetime 2025 11 3 9) = 0.
Proof. reflexivity. Qed.

Example weekday_saturday : weekday (mk_datetime 2025 11 8 9) = 5.
Proof. reflexivity. Qed.

Example seasonal_january :
  (add_seasonal_factor 100 (mk_datetime 2025 1 15 0) == 130)%Q.
Proof. reflexivity. Qed.

Example rush_hour_seven : (add_rush_hour_peaks 100 7 true == 112.5)%Q.
Proof. reflexivity. Qed.

Example rush_hour_evening_edge : (add_rush_hour_peaks 100 21 true == 115)%Q.
Proof. reflexivity. Qed.

(** ** Rush-hour peaks *)

(** C10.  The rush-hour adjustment is additive and applies on weekdays
    only: in the morning window 7..9 it adds 25 * (1 - |hour - 8| / 2), in the
    evening window 19..21 it adds 30 * (1 - |hour - 20| / 2), and it adds
    nothing outside the windows or on a weekend; the full boost is +25 at
    hour 8 and +30 at hour 20, so 100 becomes 125 on a weekday at hour 8 and
    stays 100 on a weekend. *)
Theorem add_rush_hour_peaks_additive (base_aqi : Q) (hour : Z) :
  (add_rush_hour_peaks base_aqi hour false == base_aqi)%Q /\
  (7 <= hour <= 9 ->
   (add_rush_hour_peaks base_aqi hour true
    == base_aqi + 25 * (1 - inject_Z (Z.abs (hour - 8)) / 2))%Q) /\
  (19 <= hour <= 21 ->
   (add_rush_hour_peaks base_aqi hour true
    == base_aqi + 30 * (1 - inject_Z (Z.abs (hour - 20)) / 2))%Q) /\
  (hour < 7 \/ 9 < hour < 19 \/ 21 < hour ->
   (add_rush_hour_peaks base_aqi hour true == base_aqi)%Q) /\
  (add_rush_hour_peaks base_aqi 8 true == base_aqi + 25)%Q /\
  (add_rush_hour_peaks base_aqi 20 true == base_aqi + 30)%Q /\
  (add_rush_hour_peaks 100 8 true == 125)%Q /\
  (add_rush_hour_peaks 100 8 false == 100)%Q.
Proof.
  split; [|split; [|split; [|split; [|split; [|split; [|split]]]]]].
  - reflexivity.
  - intros [Hlo Hhi]. unfold add_rush_hour_peaks, RUSH_HOUR_MORNING. simpl negb. cbv iota.
    apply Z.leb_le in Hlo, Hhi. rewrite Hlo, Hhi. reflexivity.
  - intros [Hlo Hhi]. unfold add_rush_hour_peaks, RUSH_HOUR_EVENING. simpl negb. cbv iota.
    assert (Hm : (hour <=? 9) = false) by (apply Z.leb_gt; lia).
    apply Z.leb_le in Hlo, Hhi. rewrite Hm, Hlo, Hhi, andb_false_r. reflexivity.
  - intros Hout. unfold add_rush_hour_peaks. simpl negb. cbv iota.
    assert (Hm : (7 <=? hour) && (hour <=? 9) = false).
    { apply andb_false_iff. destruct Hout as [Hh | [Hh | Hh]];
        [left | right | right]; apply Z.leb_gt; lia. }
    assert (He : (19 <=? hour) && (hour <=? 21) = false).
    { apply andb_false_iff. destruct Hout as [Hh | [Hh | Hh]];
        [left | left | right]; apply Z.leb_gt; lia. }
    rewrite Hm, He. lra.
  - unfold add_rush_hour_peaks, RUSH_HOUR_MORNING.
    change (inject_Z (Z.abs (8 - 8))) with 0%Q. cbn [negb andb Z.leb Z.compare Pos.compare Pos.compare_cont]. field.
  - unfold add_rush_hour_peaks, RUSH_HOUR_EVENING.
    change (inject_Z (Z.abs (20 - 20))) with 0%Q. cbn [negb andb Z.leb Z.compare Pos.compare Pos.compare_cont]. field.
  - reflexivity.
  - reflexivity.
Qed.

Lemma add_rush_hour_peaks_additive_witness :
  (add_rush_hour_peaks 100 7 true == 100 + 25 * (1 - inject_Z (Z.abs (7 - 8)) / 2))%Q.
Proof.
  apply (proj1 (proj2 (add_rush_hour_peaks_additive 100 7))). lia.
Defined.

(** ** AQI categories *)

Example category_of_75 : get_aqi_category 75 = Ok Satisfactory.
Proof. reflexivity. Qed.

Example category_of_450 : get_aqi_category 450 = Ok Severe.
Proof. reflexivity. Qed.

(** The claim of C2 as stated fails: a negative AQI is given a category.
    [get_aqi_category(-5)] returns the 'Good' entry and raises nothing. *)
Lemma get_aqi_category_negative_counterexample :
  (-5 < 0)%Q /\
  get_aqi_category (-5) = Ok Good /\
  ~ raises (get_aqi_category (-5)) "InvalidAQIError".
Proof.
  split; [reflexivity|]. split; [reflexivity|]. simpl. tauto.
Qed.

(** C2, amended.  The categorization has no input validation: every value
    that is at most 50, and so every negative value, returns the 'Good'
    category; no exception is raised for a negative AQI. *)
Theorem get_aqi_category_negative (aqi : Q) :
  (aqi < 0)%Q ->
  get_aqi_category aqi = Ok Good /\
  (forall cls, ~ raises (get_aqi_category aqi) cls).
Proof.
  intros Hneg.
  assert (Hgood : get_aqi_category aqi = Ok Good).
  { unfold get_aqi_category.
    assert (Hle : Qleb aqi 50 = true) by (apply Qleb_le; lra).
    now rewrite Hle. }
  split; [exact Hgood|]. intros cls. rewrite Hgood. simpl. tauto.
Qed.

Lemma get_aqi_category_negative_witness :
  get_aqi_category (-5) = Ok Good /\
  (forall cls, ~ raises (get_aqi_category (-5)) cls).
Proof.
  apply (get_aqi_category_negative (-5)). reflexivity.
Defined.

(** The categorization never raises, whatever the value. *)
Lemma get_aqi_category_total (aqi : Q) :
  exists c, get_aqi_category aqi = Ok c.
Proof.
  unfold get_aqi_category.
  repeat match goal with
         | |- context [if ?b then _ else _] => destruct b
         end; eauto.
Qed.

(** ** Forecast generation *)

Lemma range_clamped (n : Z) :
  1 <= n -> range n = 0 :: map Z.succ (range (n - 1)).
Proof.
  intros Hn. unfold range.
  replace (Z.to_nat n) with (S (Z.to_nat (n - 1))) by lia.
  simpl. f_equal. rewrite <- seq_shift, !map_map.
  apply map_ext. intros i. lia.
Qed.

Lemma range_length (n : Z) : length (range n) = Z.to_nat n.
Proof. unfold range. now rewrite length_map, length_seq. Qed.

Lemma clamp_hours_bounds (n : Z) : 1 <= clamp_hours n <= 72.
Proof.
  unfold clamp_hours.
  destruct (n <? 1) eqn:E1; destruct (72 <? n) eqn:E2; simpl;
    try apply Z.ltb_lt in E1; try apply Z.ltb_ge in E1;
    try apply Z.ltb_lt in E2; try apply Z.ltb_ge in E2; lia.
Qed.

Lemma Forall2_nth_error {A B} (P : A -> B -> Prop) (l1 : list A) (l2 : list B) :
  Forall2 P l1 l2 ->
  forall i a b, nth_error l1 i = Some a -> nth_error l2 i = Some b -> P a b.
Proof.
  induction 1 as [|x y l1 l2 Hxy Hrest IH]; intros [|i] a b Ha Hb;
    simpl in *; try discriminate.
  - congruence.
  - eauto.
Qed.

Section ForecastProperties.
Context `{numerics}.

(** C4.  With a loaded model and [include_patterns=False] the call never
    returns a forecast: building the first forecast point reads
    [is_weekend], which is bound only on the [include_patterns] branch, and
    the read raises UnboundLocalError. *)
Theorem generate_forecast_without_patterns_unbound
    (predict : list Q -> Q) (metrics : gmap string Q)
    (history : list history_entry) (features : list Q)
    (start_time : datetime) (forecast_hours : Z) :
  forecast_step predict metrics features start_time false no_locals 0
    = Raise (UnboundLocalError "is_weekend") /\
  generate_forecast (mk_engine (Some predict) metrics history) features
      start_time forecast_hours false
    = Raise (UnboundLocalError "is_weekend").
Proof.
  split; [reflexivity|].
  unfold generate_forecast. cbn [model model_metrics].
  rewrite (range_clamped (clamp_hours forecast_hours))
    by apply clamp_hours_bounds.
  reflexivity.
Qed.

(** With the patterns on, one pass of the loop body returns a point and
    binds the three branch-local variables. *)
Lemma forecast_step_with_patterns
    (predict : list Q -> Q) (metrics : gmap string Q) (features : list Q)
    (start_time : datetime) (vars : locals) (hour_offset : Z) :
  exists vars' pt,
    forecast_step predict metrics features start_time true vars hour_offset
      = Ok (vars', pt) /\
    fp_timestamp pt = add_hours start_time hour_offset /\
    fp_hour_offset pt = hour_offset /\
    fp_base_aqi pt = predict features /\
    fp_aqi_forecast pt
      = composed_patterns (predict features) (add_hours start_time hour_offset).
Proof.
  eexists _, _. split; [reflexivity|].
  unfold composed_patterns.
  cbv beta iota zeta delta
    [fp_timestamp fp_hour_offset fp_base_aqi fp_aqi_forecast].
  split; [reflexivity|]. split; [reflexivity|]. split; reflexivity.
Qed.

Lemma forecast_loop_with_patterns
    (predict : list Q -> Q) (metrics : gmap string Q) (features : list Q)
    (start_time : datetime) (offsets : list Z) :
  forall vars acc,
  exists pts,
    forecast_loop
      (forecast_step predict metrics features start_time true)
      vars offsets acc = Ok (acc ++ pts) /\
    Forall2
      (fun hour_offset pt =>
         fp_timestamp pt = add_hours start_time hour_offset /\
         fp_base_aqi pt = predict features /\
         fp_aqi_forecast pt
           = composed_patterns (predict features)
               (add_hours start_time hour_offset))
      offsets pts.
Proof.
  induction offsets as [|o rest IH]; intros vars acc.
  - exists []. split; [now rewrite app_nil_r | constructor].
  - destruct (forecast_step_with_patterns predict metrics features
                start_time vars o) as (vars' & pt & Hstep & Ht & _ & Hb & Ha).
    destruct (IH vars' (acc ++ [pt])) as (pts & Hloop & Hall).
    exists (pt :: pts). split.
    + cbn [forecast_loop]. rewrite Hstep. cbn. rewrite Hloop.
      now rewrite <- app_assoc.
    + constructor; [tauto | exact Hall].
Qed.

Lemma range_nth (n : Z) (i : nat) :
  (i < Z.to_nat n)%nat -> nth_error (range n) i = Some (Z.of_nat i).
Proof.
  intros Hi. unfold range. rewrite nth_error_map.
  rewrite nth_error_seq. 
  destruct (Nat.ltb_spec i (Z.to_nat n)); [reflexivity | lia].
Qed.

(** C6.  With the patterns on, every point of the forecast carries the
    base value composed with the seasonal, weekly, diurnal and rush-hour
    adjustments, in that order, each acting on the running value. *)
Theorem generate_forecast_composition
    (predict : list Q -> Q) (metrics : gmap string Q)
    (history : list history_entry) (features : list Q)
    (start_time : datetime) (forecast_hours : Z) :
  exists forecast_df self',
    generate_forecast (mk_engine (Some predict) metrics history) features
      start_time forecast_hours true = Ok (forecast_df, self') /\
    length forecast_df = Z.to_nat (clamp_hours forecast_hours) /\
    forall i pt, nth_error forecast_df i = Some pt ->
      let t := add_hours start_time (Z.of_nat i) in
      let is_weekday := weekday t <? 5 in
      fp_timestamp pt = t /\
      fp_base_aqi pt = predict features /\
      fp_aqi_forecast pt
        = add_rush_hour_peaks
            (add_diurnal_pattern
               (add_weekly_variation
                  (add_seasonal_factor (fp_base_aqi pt) t)
                  (negb is_weekday))
               (dt_hour t))
            (dt_hour t) is_weekday.
Proof.
  destruct (forecast_loop_with_patterns predict metrics features start_time
              (range (clamp_hours forecast_hours)) no_locals [])
    as (pts & Hloop & Hall).
  eexists pts, _. split.
  - unfold generate_forecast. cbn [model model_metrics forecast_history].
    rewrite Hloop. reflexivity.
  - assert (Hlen : length pts = Z.to_nat (clamp_hours forecast_hours)).
    { rewrite <- (Forall2_length _ _ _ Hall). apply range_length. }
    split; [exact Hlen|].
    intros i pt Hpt t is_weekday. subst is_weekday t.
    assert (Hi : (i < Z.to_nat (clamp_hours forecast_hours))%nat).
    { rewrite <- Hlen. apply nth_error_Some. congruence. }
    pose proof (range_nth _ _ Hi) as Hoff.
    destruct (Forall2_nth_error _ _ _ Hall i _ _ Hoff Hpt) as (Ht & Hb & Ha).
    split; [exact Ht|]. split; [exact Hb|].
    rewrite Ha, Hb. unfold composed_patterns. reflexivity.
Qed.

End ForecastProperties.

(** ** Confidence intervals *)

Section ConfidenceProperties.
Context `{numerics}.

Lemma calculate_confidence_intervals_nth (self : ForecastingEngine)
    (predictions : list Q) (confidence_level : Q) (i : nat) (point : Q) :
  nth_error predictions i = Some point ->
  nth_error (fst (calculate_confidence_intervals self predictions confidence_level)) i
    = Some (py_max 0 (point - norm_ppf ((1 + confidence_level) / 2)
                              * default 4.57 (model_metrics self !! "test_rmse")))%Q /\
  nth_error (snd (calculate_confidence_intervals self predictions confidence_level)) i
    = Some (point + norm_ppf ((1 + confidence_level) / 2)
                    * default 4.57 (model_metrics self !! "test_rmse"))%Q.
Proof.
  intros Hp. unfold calculate_confidence_intervals. cbn [fst snd].
  rewrite !nth_error_map, Hp. split; reflexivity.
Qed.

(** C5, amended.  At the 95% level, for an RMSE that is not negative (and
    the z-score SciPy returns for 0.975, which is not negative), the bounds
    are lower = max(0, point - z * rmse) and upper = point + z * rmse; they
    satisfy lower >= 0 and point <= upper for every point, and
    lower <= point for every point that is not negative. *)
Theorem confidence_interval_containment (self : ForecastingEngine)
    (predictions : list Q) (i : nat) (point : Q) :
  (0 <= default 4.57 (model_metrics self !! "test_rmse"))%Q ->
  (0 <= norm_ppf ((1 + 0.95) / 2))%Q ->
  nth_error predictions i = Some point ->
  exists lower upper,
    nth_error (fst (calculate_confidence_intervals self predictions 0.95)) i
      = Some lower /\
    nth_error (snd (calculate_confidence_intervals self predictions 0.95)) i
      = Some upper /\
    lower = py_max 0 (point - norm_ppf ((1 + 0.95) / 2)
                             * default 4.57 (model_metrics self !! "test_rmse"))%Q /\
    upper = (point + norm_ppf ((1 + 0.95) / 2)
                     * default 4.57 (model_metrics self !! "test_rmse"))%Q /\
    (0 <= lower)%Q /\ (point <= upper)%Q /\
    ((0 <= point)%Q -> (lower <= point)%Q).
Proof.
  intros Hrmse Hz Hp.
  destruct (calculate_confidence_intervals_nth self predictions 0.95 i point Hp)
    as [Hlo Hup].
  set (rmse := default 4.57%Q (model_metrics self !! "test_rmse")) in *.
  set (z := norm_ppf ((1 + 0.95) / 2)%Q) in *.
  assert (Hmargin : (0 <= z * rmse)%Q) by (apply Qmult_le_0_compat; assumption).
  eexists _, _. split; [exact Hlo|]. split; [exact Hup|].
  split; [reflexivity|]. split; [reflexivity|].
  split; [apply py_max_spec|]. split; [lra|].
  intros Hpoint. destruct (py_max_cases 0 (point - z * rmse)%Q) as [E | E];
    rewrite E; lra.
Qed.

End ConfidenceProperties.

Lemma confidence_interval_containment_witness :
  exists lower upper,
    nth_error (fst (calculate_confidence_intervals (H := Sample.sample_numerics)
                      (mk_engine None ∅ []) [50%Q] 0.95)) 0 = Some lower /\
    nth_error (snd (calculate_confidence_intervals (H := Sample.sample_numerics)
                      (mk_engine None ∅ []) [50%Q] 0.95)) 0 = Some upper /\
    (0 <= lower)%Q /\ (lower <= 50)%Q /\ (50 <= upper)%Q.
Proof.
  destruct (confidence_interval_containment (H := Sample.sample_numerics)
              (mk_engine None ∅ []) [50%Q] 0 50%Q)
    as (lower & upper & Hlo & Hup & _ & _ & H0 & Hle & Hge).
  - vm_compute. discriminate.
  - vm_compute. discriminate.
  - reflexivity.
  - exists lower, upper. split; [exact Hlo|]. split; [exact Hup|].
    split; [exact H0|]. split; [|exact Hle].
    apply Hge. vm_compute. discriminate.
Defined.

(** The claim of C5 as stated fails for a negative point value: the lower
    bound is clamped at 0 and lies above the point. *)
Lemma confidence_interval_negative_point_counterexample :
  (0 <= default 4.57 ((∅ : gmap string Q) !! "test_rmse"))%Q /\
  nth_error (fst (calculate_confidence_intervals (H := Sample.sample_numerics)
                    (mk_engine None ∅ []) [(-10)%Q] 0.95)) 0 = Some 0%Q /\
  ~ (0 <= -10)%Q.
Proof.
  split; [vm_compute; discriminate|]. split; [reflexivity|].
  vm_compute. intros Hle. apply Hle. reflexivity.
Qed.

Example interval_scenario_5 :
  exists lower upper,
    calculate_confidence_intervals (H := Sample.sample_numerics)
      (mk_engine None ∅ []) [50%Q] 0.95 = ([lower], [upper]) /\
    (41.04 < lower < 41.05)%Q /\ (58.95 < upper < 58.96)%Q.
Proof.
  eexists _, _. split; [reflexivity|]. vm_compute. repeat split.
Qed.

(** ** Satellite and ground fusion *)

Section FusionProperties.
Context `{numerics}.

(** C1.  What the code does on the satellite-only path: with an empty or
    absent station list the branch that binds [fusion_weights] is skipped,
    and building the returned dict reads [fusion_weights]; the call raises
    UnboundLocalError instead of returning the 'medium'-confidence result. *)
Theorem predict_hyperlocal_satellite_only_raises
    (latitude longitude aod_value : Q) (temporal_features : gmap string Z)
    (season : option string) :
  predict_hyperlocal latitude longitude aod_value temporal_features
      (Some []) season
    = Raise (UnboundLocalError "fusion_weights") /\
  predict_hyperlocal latitude longitude aod_value temporal_features
      None season
    = Raise (UnboundLocalError "fusion_weights").
Proof.
  split; reflexivity.
Qed.

End FusionProperties.

(** The ground-fusion path, on the same query with the three sample
    stations, returns with confidence 'high'. *)
Example hyperlocal_fusion_sample :
  exists r,
    predict_hyperlocal (H := Sample.sample_numerics) 28.65 77.25 0.5
      (<["hour" := 18]> (<["month" := 10]> ∅))
      (Some (sample_stations PyList)) (Some "autumn") = Ok r /\
    confidence r = "high" /\
    method r = "Satellite-Ground Fusion" /\
    (aod_derived_aqi r == 99)%Q /\
    (hyperlocal_aqi r == 121.82)%Q /\
    nearest_stations_used r = 3%nat.
Proof.
  eexists. split; [vm_compute; reflexivity|].
  repeat split.
Qed.

Example hyperlocal_scenario_4 :
  predict_hyperlocal (H := Sample.sample_numerics) 28.65 77.25 0.5
    (<["hour" := 18]> (<["month" := 10]> ∅)) (Some []) (Some "autumn")
  = Raise (UnboundLocalError "fusion_weights").
Proof. reflexivity. Qed.

(** ** The ensemble *)

Lemma nth_error_combine {A B} (l1 : list A) (l2 : list B) (i : nat) :
  nth_error (combine l1 l2) i
  = match nth_error l1 i, nth_error l2 i with
    | Some a, Some b => Some (a, b)
    | _, _ => None
    end.
Proof.
  revert l2 i. induction l1 as [|a l1 IH]; intros [|b l2] [|i]; simpl; auto.
  - now destruct (nth_error l1 i).
Qed.

Lemma py_take_firstn {A} (l : list A) (k : Z) :
  0 <= k <= Z.of_nat (length l) -> py_take k l = firstn (Z.to_nat k) l.
Proof.
  intros Hk. unfold py_take, py_slice, slice_bound.
  assert (E0 : (0 <? 0) = false) by reflexivity.
  assert (Ek : (k <? 0) = false) by (apply Z.ltb_ge; lia).
  rewrite E0, Ek.
  replace (Z.min 0 (Z.of_nat (length l))) with 0 by lia.
  replace (Z.min k (Z.of_nat (length l)) - 0) with k by lia.
  reflexivity.
Qed.

Lemma range2_length (a b : Z) : length (range2 a b) = Z.to_nat (b - a).
Proof. unfold range2. now rewrite length_map, length_seq. Qed.

Lemma range2_nth (a b : Z) (j : nat) :
  (j < Z.to_nat (b - a))%nat -> nth_error (range2 a b) j = Some (a + Z.of_nat j).
Proof.
  intros Hj. unfold range2. rewrite nth_error_map, nth_error_seq.
  destruct (Nat.ltb_spec j (Z.to_nat (b - a))); [reflexivity | lia].
Qed.

Lemma np_zip_with_same_length (f : Q -> Q -> Q) (a b : list Q) :
  length a = length b ->
  np_zip_with f a b = Ok (map (fun p => f (fst p) (snd p)) (combine a b)).
Proof.
  intros Hlen. unfold np_zip_with.
  now rewrite (proj2 (Nat.eqb_eq _ _) Hlen).
Qed.

(** C9.  For a batch longer than the lookback window the ensemble returns
    one value per row: at each of the first [lookback] positions it equals
    the Random Forest output for that row, and at every later position it is
    the blend [w * lstm + (1 - w) * rf] of the LSTM output on the window
    ending at that row and the Random Forest output; with the default
    weight that is 0.7 and 0.3. *)
Theorem predict_ensemble_blend
    (lstm : list (list Q) -> Q) (rf : list Q -> Q)
    (X : list (list Q)) (lookback : Z) (lstm_weight : Q) :
  0 <= lookback < Z.of_nat (length X) ->
  exists ensemble_pred,
    predict_ensemble (mk_forecaster (Some lstm) (Some rf)) X lookback lstm_weight
      = Ok ensemble_pred /\
    length ensemble_pred = length X /\
    forall i row, nth_error X i = Some row ->
      exists v, nth_error ensemble_pred i = Some v /\
        (Z.of_nat i < lookback -> (v == rf row)%Q) /\
        (lookback <= Z.of_nat i ->
         (v == lstm_weight
                 * lstm (py_slice X (Z.of_nat i - lookback) (Z.of_nat i))
               + (1 - lstm_weight) * rf row)%Q) /\
        (lookback <= Z.of_nat i -> lstm_weight = default_lstm_weight ->
         (v == 0.7 * lstm (py_slice X (Z.of_nat i - lookback) (Z.of_nat i))
               + 0.3 * rf row)%Q).
Proof.
  intros Hlb.
  set (n := Z.to_nat lookback).
  set (full := map rf (py_take lookback X)
               ++ map lstm (_create_sequences X lookback)).
  assert (Htake : py_take lookback X = firstn n X)
    by (apply py_take_firstn; lia).
  assert (Hfull : length full = length X).
  { unfold full, _create_sequences.
    rewrite length_app, !length_map, Htake, length_firstn, range2_length.
    unfold n. lia. }
  exists (map (fun p => (fst p + snd p)%Q)
            (combine (map (Qmult lstm_weight) full)
                     (map (Qmult (1 - lstm_weight)) (map rf X)))).
  split.
  - unfold predict_ensemble. cbn [lstm_model rf_model]. fold full.
    apply np_zip_with_same_length. now rewrite !length_map.
  - split.
    { rewrite length_map, length_combine, !length_map, Hfull. lia. }
    intros i row Hrow.
    assert (Hi : (i < length X)%nat) by (apply nth_error_Some; congruence).
    rewrite nth_error_map, nth_error_combine, !nth_error_map, Hrow.
    destruct (Z_lt_le_dec (Z.of_nat i) lookback) as [Hlt | Hge].
    + assert (Hfi : nth_error full i = Some (rf row)).
      { unfold full. rewrite nth_error_app1.
        - rewrite nth_error_map, Htake, nth_error_firstn.
          destruct (Nat.ltb_spec i n); [now rewrite Hrow | unfold n in *; lia].
        - rewrite length_map, Htake, length_firstn. unfold n. lia. }
      rewrite Hfi. cbn. eexists. split; [reflexivity|].
      split; [intros _; ring|]. split; intros; lia.
    + assert (Hfi : nth_error full i
                    = Some (lstm (py_slice X (Z.of_nat i - lookback) (Z.of_nat i)))).
      { unfold full. rewrite nth_error_app2.
        - rewrite !length_map, Htake, length_firstn.
          replace (Init.Nat.min n (length X)) with n by (unfold n; lia).
          unfold _create_sequences. rewrite !nth_error_map.
          rewrite range2_nth by (unfold n; lia). cbn.
          do 3 f_equal; unfold n; lia.
        - rewrite length_map, Htake, length_firstn. unfold n. lia. }
      rewrite Hfi. cbn. eexists. split; [reflexivity|].
      split; [intros; lia|]. split; [intros _; reflexivity|].
      intros _ Hw. rewrite Hw. unfold default_lstm_weight. ring.
Qed.

Lemma predict_ensemble_blend_witness :
  exists ensemble_pred,
    predict_ensemble
      (mk_forecaster (Some (fun window => py_sum (map py_sum window))) (Some py_sum))
      [[1%Q]; [2%Q]; [3%Q]; [4%Q]] 2 0.7 = Ok ensemble_pred /\
    length ensemble_pred = 4%nat.
Proof.
  destruct (predict_ensemble_blend (fun window => py_sum (map py_sum window))
              py_sum [[1%Q]; [2%Q]; [3%Q]; [4%Q]] 2 0.7)
    as (pred & Hpred & Hlen & _).
  - simpl. lia.
  - exists pred. split; assumption.
Defined.

Example predict_ensemble_sample :
  exists a b c d,
    predict_ensemble
      (mk_forecaster (Some (fun window => py_sum (map py_sum window))) (Some py_sum))
      [[1%Q]; [2%Q]; [3%Q]; [4%Q]] 2 0.7 = Ok [a; b; c; d] /\
    (a == 1 /\ b == 2 /\ c == 0.7 * 3 + 0.3 * 3 /\ d == 0.7 * 5 + 0.3 * 4)%Q.
Proof.
  eexists _, _, _, _. split; [reflexivity|]. repeat split.
Qed.

Example predict_ensemble_needs_both_models :
  raises (predict_ensemble (mk_forecaster None (Some py_sum)) [[1%Q]] 0 0.7)
         "ValueError".
Proof. reflexivity. Qed.

(** ** Selecting the nearest stations *)

Lemma result_bind_ok {A B} (a : A) (k : A -> result B) : (Ok a ≫= k) = k a.
Proof. reflexivity. Qed.

Lemma result_bind_raise {A B} (e : exn) (k : A -> result B) :
  (Raise e ≫= k) = Raise e.
Proof. reflexivity. Qed.

Lemma insert_by_key_length (p : Q * nat) (l : list (Q * nat)) :
  length (insert_by_key p l) = S (length l).
Proof.
  induction l as [|q l IH]; simpl; [reflexivity|].
  destruct (Qleb (fst p) (fst q)); simpl; congruence.
Qed.

Lemma insert_by_key_Forall (P : Q * nat -> Prop) (p : Q * nat) (l : list (Q * nat)) :
  P p -> Forall P l -> Forall P (insert_by_key p l).
Proof.
  intros Hp Hl. induction Hl as [|q l Hq Hl IH]; simpl.
  - constructor; [assumption | constructor].
  - destruct (Qleb (fst p) (fst q)); repeat constructor; assumption.
Qed.

Lemma sort_pairs_length (l : list (Q * nat)) :
  length (fold_right insert_by_key [] l) = length l.
Proof.
  induction l as [|p l IH]; simpl; [reflexivity|].
  now rewrite insert_by_key_length, IH.
Qed.

Lemma sort_pairs_Forall (P : Q * nat -> Prop) (l : list (Q * nat)) :
  Forall P l -> Forall P (fold_right insert_by_key [] l).
Proof.
  induction 1 as [|p l Hp Hl IH]; simpl; [constructor|].
  now apply insert_by_key_Forall.
Qed.

Lemma np_argsort_length (values : list Q) :
  length (np_argsort values) = length values.
Proof.
  unfold np_argsort.
  rewrite length_map, sort_pairs_length, length_combine, length_seq. lia.
Qed.

Lemma np_argsort_bounds (values : list Q) :
  Forall (fun i => (i < length values)%nat) (np_argsort values).
Proof.
  unfold np_argsort. apply Forall_map. apply sort_pairs_Forall.
  apply List.Forall_forall. intros [v i] Hin.
  apply in_combine_r in Hin. apply in_seq in Hin. simpl. lia.
Qed.

Lemma py_slice_Forall {A} (P : A -> Prop) (l : list A) (a b : Z) :
  Forall P l -> Forall P (py_slice l a b).
Proof.
  intros Hl. unfold py_slice. apply Forall_take, Forall_drop, Hl.
Qed.

Lemma py_take_length {A} (l : list A) (k : Z) :
  0 <= k ->
  length (py_take k l) = Z.to_nat (Z.min k (Z.of_nat (length l))).
Proof.
  intros Hk. unfold py_take, py_slice, slice_bound.
  assert (E0 : (0 <? 0) = false) by reflexivity.
  assert (Ek : (k <? 0) = false) by (apply Z.ltb_ge; lia).
  rewrite E0, Ek.
  replace (Z.min 0 (Z.of_nat (length l))) with 0 by lia.
  change (Z.to_nat 0) with 0%nat. rewrite skipn_O, length_firstn. lia.
Qed.

Lemma clamp_k_min (n : nat) (k : Z) : clamp_k n k = Z.min k (Z.of_nat n).
Proof.
  unfold clamp_k. destruct (Z.ltb_spec (Z.of_nat n) k); lia.
Qed.

Lemma mapM_cons {A B} (f : A -> result B) (x : A) (l : list A) :
  mapM f (x :: l) = (y ← f x; k ← mapM f l; mret (y :: k)).
Proof. reflexivity. Qed.

Lemma py_index_some {A} (l : list A) (i : nat) (y : A) :
  nth_error l i = Some y -> py_index l i = Ok y.
Proof. intros E. unfold py_index. now rewrite E. Qed.

Lemma py_index_none {A} (l : list A) (i : nat) :
  (length l <= i)%nat -> py_index l i = Raise IndexError.
Proof.
  intros Hi. unfold py_index.
  now rewrite (proj2 (nth_error_None l i) Hi).
Qed.

Lemma mapM_py_index {A} (l : list A) (idxs : list nat) :
  Forall (fun i => (i < length l)%nat) idxs ->
  exists ys, mapM (py_index l) idxs = Ok ys /\
             Forall2 (fun i y => nth_error l i = Some y) idxs ys.
Proof.
  induction 1 as [|i idxs Hi Hrest (ys & Hys & Hall)].
  - exists []. split; [reflexivity | constructor].
  - destruct (nth_error l i) as [y|] eqn:Ey.
    + exists (y :: ys). split.
      * rewrite mapM_cons, (py_index_some _ _ _ Ey), result_bind_ok, Hys.
        reflexivity.
      * constructor; assumption.
    + apply nth_error_None in Ey. lia.
Qed.

Lemma fold_py_min_In (l : list Q) (x : Q) : In (fold_left py_min l x) (x :: l).
Proof.
  revert x. induction l as [|y l IH]; intros x; simpl; [auto|].
  destruct (IH (py_min x y)) as [E | Hin]; [|auto].
  rewrite <- E. unfold py_min. destruct (Qltb y x); auto.
Qed.

Lemma argmin_from_spec (l : list Q) :
  forall (best : Q) (best_idx i : nat) (full : list Q),
    nth_error full best_idx = Some best ->
    (forall j x, nth_error l j = Some x -> nth_error full (i + j) = Some x) ->
    nth_error full (argmin_from best best_idx i l)
      = Some (fold_left py_min l best).
Proof.
  induction l as [|y l IH]; intros best best_idx i full Hbest Hrest; simpl.
  - exact Hbest.
  - assert (Hy : nth_error full i = Some y).
    { rewrite <- (Nat.add_0_r i). apply Hrest. reflexivity. }
    assert (Htail : forall j x, nth_error l j = Some x ->
                                nth_error full (S i + j) = Some x).
    { intros j x Hj. replace (S i + j)%nat with (i + S j)%nat by lia.
      apply Hrest. exact Hj. }
    unfold py_min at 2. destruct (Qltb y best); apply IH; assumption.
Qed.

Lemma np_argmin_spec (x : Q) (rest : list Q) :
  nth_error (x :: rest) (np_argmin (x :: rest))
    = Some (fold_left py_min rest x).
Proof.
  unfold np_argmin. apply argmin_from_spec; [reflexivity|].
  intros j y Hj. exact Hj.
Qed.

Lemma py_slice_nil {A} (a b : Z) : py_slice (@nil A) a b = [].
Proof. unfold py_slice. now rewrite skipn_nil, firstn_nil. Qed.

Lemma Forall2_nth_error_map {A B} (f : A -> B) (l : list A) (idxs : list nat)
    (ys : list A) (zs : list B) :
  Forall2 (fun i y => nth_error l i = Some y) idxs ys ->
  Forall2 (fun i z => nth_error (map f l) i = Some z) idxs zs ->
  zs = map f ys.
Proof.
  intros Hys. revert zs.
  induction Hys as [|i y idxs ys Hy Hrest IH]; intros zs Hzs;
    inversion Hzs as [|i' z idxs' zs' Hz Hzrest]; subst; simpl.
  - reflexivity.
  - rewrite nth_error_map, Hy in Hz. injection Hz as <-.
    f_equal. apply IH. assumption.
Qed.

Lemma Forall2_nth_error_Forall {A} (P : A -> Prop) (l : list A)
    (idxs : list nat) (ys : list A) :
  Forall P l ->
  Forall2 (fun i y => nth_error l i = Some y) idxs ys ->
  Forall P ys.
Proof.
  intros Hl. induction 1 as [|i y idxs ys Hy Hrest IH]; constructor.
  - apply nth_error_In in Hy. exact (proj1 (List.Forall_forall P l) Hl y Hy).
  - exact IH.
Qed.

Section SpatialProperties.
Context `{numerics}.

(** The selection never fails: the indices [np.argsort] returns are
    positions of [station_data]. *)
Lemma select_nearest_ok (target_lat target_lon : Q) (station_data : list station)
    (k_nearest : Z) :
  exists nearest_stations nearest_distances,
    select_nearest target_lat target_lon station_data k_nearest
      = Ok (nearest_stations, nearest_distances) /\
    length nearest_stations
      = length (py_take k_nearest
                  (np_argsort (station_distances target_lat target_lon station_data))) /\
    nearest_distances = station_distances target_lat target_lon nearest_stations /\
    (forall P, Forall P station_data -> Forall P nearest_stations).
Proof.
  set (distances := station_distances target_lat target_lon station_data).
  set (idxs := py_take k_nearest (np_argsort distances)).
  assert (Hlen : length distances = length station_data)
    by (unfold distances, station_distances; apply length_map).
  assert (Hidx : Forall (fun i => (i < length distances)%nat) idxs)
    by (apply py_slice_Forall, np_argsort_bounds).
  destruct (mapM_py_index station_data idxs) as (ns & Hns & Hns2).
  { now rewrite <- Hlen. }
  destruct (mapM_py_index distances idxs Hidx) as (nd & Hnd & Hnd2).
  exists ns, nd. split.
  - unfold select_nearest. fold distances. fold idxs.
    rewrite Hns, result_bind_ok, Hnd, result_bind_ok. reflexivity.
  - split; [symmetry; exact (Forall2_length _ _ _ Hns2)|]. split.
    + unfold station_distances at 1.
      apply (Forall2_nth_error_map _ station_data idxs); assumption.
    + intros P HP. exact (Forall2_nth_error_Forall P _ _ _ HP Hns2).
Qed.

Lemma select_nearest_count (target_lat target_lon : Q)
    (station_data : list station) (k_nearest : Z) :
  1 <= k_nearest ->
  length (py_take (clamp_k (length station_data) k_nearest)
            (np_argsort (station_distances target_lat target_lon station_data)))
  = Z.to_nat (Z.min k_nearest (Z.of_nat (length station_data))).
Proof.
  intros Hk. rewrite clamp_k_min, py_take_length by lia.
  rewrite np_argsort_length. unfold station_distances. rewrite length_map. lia.
Qed.

Lemma predict_spatial_interpolation_selected (target_lat target_lon : Q)
    (station_data : list station) (k_nearest idw_power : Z)
    (nearest_stations : list station) (nearest_distances : list Q) :
  select_nearest target_lat target_lon station_data
    (clamp_k (length station_data) k_nearest)
    = Ok (nearest_stations, nearest_distances) ->
  predict_spatial_interpolation target_lat target_lon station_data k_nearest
    idw_power
  = (first ← py_index nearest_stations 0;
     r ← idw_branch nearest_stations nearest_distances
           (length (items_of (features first))) idw_power;
     feats_list ← tolist (snd (fst r));
     mret {| ir_latitude := target_lat;
             ir_longitude := target_lon;
             ir_interpolated_aqi := fst (fst r);
             ir_interpolated_features := feats_list;
             ir_method := "IDW";
             ir_k_nearest := clamp_k (length station_data) k_nearest;
             ir_nearest_stations :=
               contributors nearest_distances nearest_stations (snd r) |}).
Proof.
  intros Hsel. unfold predict_spatial_interpolation.
  rewrite Hsel, result_bind_ok. reflexivity.
Qed.

(** *** Sums *)

Lemma fold_left_Qplus_acc (l : list Q) (a : Q) :
  (fold_left Qplus l a == a + fold_left Qplus l 0)%Q.
Proof.
  revert a. induction l as [|x l IH]; intros a; simpl.
  - ring.
  - rewrite (IH (a + x)%Q), (IH (0 + x)%Q). ring.
Qed.

Lemma py_sum_cons (x : Q) (l : list Q) : (py_sum (x :: l) == x + py_sum l)%Q.
Proof.
  unfold py_sum. simpl. rewrite fold_left_Qplus_acc. ring.
Qed.

Lemma py_sum_map_div (l : list Q) (total : Q) :
  (py_sum (map (fun w => w / total) l) == py_sum l / total)%Q.
Proof.
  induction l as [|x l IH].
  - unfold py_sum, Qdiv. simpl. ring.
  - cbn [map]. rewrite !py_sum_cons, IH. unfold Qdiv. ring.
Qed.

Lemma py_sum_positive (l : list Q) :
  l <> [] -> Forall (fun w => 0 < w)%Q l -> (0 < py_sum l)%Q.
Proof.
  intros Hne Hall. induction Hall as [|x l Hx Hl IH]; [congruence|].
  rewrite py_sum_cons. destruct l as [|y l].
  - unfold py_sum. simpl. lra.
  - assert (0 < py_sum (y :: l))%Q by (apply IH; discriminate). lra.
Qed.

(** *** The contributors list *)

Lemma contributors_length (nd : list Q) (ns : list station) (ws : list Q) :
  length nd = length ns -> length ws = length ns ->
  length (contributors nd ns ws) = length ns.
Proof.
  intros Hnd Hws. unfold contributors.
  rewrite length_map, !length_combine. lia.
Qed.

Lemma contributors_fields (ns : list station) :
  forall (nd ws : list Q),
    length nd = length ns -> length ws = length ns ->
    map distance_km (contributors nd ns ws) = nd /\
    map contributor_aqi (contributors nd ns ws) = map aqi ns /\
    map weight (contributors nd ns ws) = ws /\
    map (fun c => (weight c * contributor_aqi c)%Q) (contributors nd ns ws)
      = map (fun p => (fst p * aqi (snd p))%Q) (combine ws ns).
Proof.
  induction ns as [|s ns IH]; intros [|d nd] [|w ws] Hnd Hws;
    try discriminate; [repeat split|].
  injection Hnd as Hnd. injection Hws as Hws.
  destruct (IH nd ws Hnd Hws) as (Hd & Ha & Hw & Hwa).
  unfold contributors in *. cbn [combine map fst snd distance_km contributor_aqi weight].
  rewrite Hd, Ha, Hw, Hwa. repeat split.
Qed.

Lemma contributors_nth (ns : list station) :
  forall (nd ws : list Q) (i : nat) (c : contributor),
    nth_error (contributors nd ns ws) i = Some c ->
    exists d s w, nth_error nd i = Some d /\ nth_error ns i = Some s /\
                  nth_error ws i = Some w /\ c = mk_contributor d (aqi s) w.
Proof.
  intros nd ws i c. unfold contributors.
  rewrite nth_error_map, !nth_error_combine.
  destruct (nth_error nd i) as [d|]; [|discriminate].
  destruct (nth_error ns i) as [s|]; [|discriminate].
  destruct (nth_error ws i) as [w|]; [|discriminate].
  cbn. intros [= <-]. eauto 10.
Qed.

(** *** Accumulating the features *)

Lemma np_iadd_same_length (acc v : list Q) :
  length v = length acc ->
  exists out, np_iadd acc v = Ok out /\ length out = length acc.
Proof.
  intros Hlen. unfold np_iadd. rewrite (proj2 (Nat.eqb_eq _ _) Hlen).
  eexists. split; [reflexivity|].
  rewrite length_map, length_combine. lia.
Qed.

Lemma np_iadd_outcome (acc v : list Q) :
  (exists out, np_iadd acc v = Ok out) \/ raises (np_iadd acc v) "ValueError".
Proof.
  unfold np_iadd. destruct (length v =? length acc)%nat; [eauto|].
  destruct v as [|x [|y v]]; simpl; eauto.
Qed.

Lemma accumulate_features_ok (weighted : list (Q * station)) :
  forall acc,
    Forall (fun ws => length (items_of (features (snd ws))) = length acc) weighted ->
    exists out, accumulate_features acc weighted = Ok out.
Proof.
  induction weighted as [|[w s] rest IH]; intros acc Hall; simpl.
  - eauto.
  - inversion Hall as [|x l Hs Hrest]; subst. cbn [snd] in Hs.
    destruct (np_iadd_same_length acc (map (Qmult w) (items_of (features s))))
      as (out & Hout & Hlen).
    { now rewrite length_map. }
    rewrite Hout, result_bind_ok. apply IH.
    rewrite Hlen. exact Hrest.
Qed.

Lemma accumulate_features_outcome (weighted : list (Q * station)) :
  forall acc,
    (exists out, accumulate_features acc weighted = Ok out) \/
    raises (accumulate_features acc weighted) "ValueError".
Proof.
  induction weighted as [|[w s] rest IH]; intros acc; simpl.
  - eauto.
  - destruct (np_iadd_outcome acc (map (Qmult w) (items_of (features s))))
      as [(out & Hout) | Hraise].
    + rewrite Hout, result_bind_ok. apply IH.
    + destruct (np_iadd acc (map (Qmult w) (items_of (features s))));
        [contradiction | right; exact Hraise].
Qed.

(** *** The weights *)

Lemma py_sum_ext (l l' : list Q) :
  Forall2 Qeq l l' -> (py_sum l == py_sum l')%Q.
Proof.
  induction 1 as [|x y l l' Hxy Hrest IH].
  - reflexivity.
  - rewrite !py_sum_cons, Hxy, IH. reflexivity.
Qed.

Lemma idw_weights_length (nd : list Q) (p : Z) :
  length (idw_weights nd p) = length nd.
Proof. unfold idw_weights. now rewrite !length_map. Qed.

Lemma raw_weights_positive (nd : list Q) (p : Z) :
  Forall (fun d => 0.1 <= d)%Q nd ->
  Forall (fun w => 0 < w)%Q (map (fun d => 1.0 / d ^ p)%Q nd).
Proof.
  intros Hnd. apply Forall_map.
  apply (List.Forall_impl _ (P := fun d => (0.1 <= d)%Q)); [|exact Hnd].
  intros d Hd. cbn beta.
  assert (Hpos : (0 < d ^ p)%Q) by (apply Qpower_0_lt; lra).
  apply Qlt_shift_div_l; [exact Hpos | lra].
Qed.

Lemma total_weight_positive (nd : list Q) (p : Z) :
  nd <> [] -> Forall (fun d => 0.1 <= d)%Q nd ->
  (0 < py_sum (map (fun d => 1.0 / d ^ p) nd))%Q.
Proof.
  intros Hne Hnd. apply py_sum_positive.
  - destruct nd; [congruence | discriminate].
  - now apply raw_weights_positive.
Qed.

(** The weights sum to 1. *)
Lemma idw_weights_sum (nd : list Q) (p : Z) :
  nd <> [] -> Forall (fun d => 0.1 <= d)%Q nd ->
  (py_sum (idw_weights nd p) == 1)%Q.
Proof.
  intros Hne Hnd. unfold idw_weights. cbv zeta.
  rewrite py_sum_map_div.
  pose proof (total_weight_positive nd p Hne Hnd) as Hpos.
  apply Qmult_inv_r. lra.
Qed.

Lemma one_point_zero : (1.0 == 1)%Q.
Proof. reflexivity. Qed.

Lemma raw_weights_total (nd : list Q) (p : Z) :
  (py_sum (map (fun d => 1.0 / d ^ p) nd)
   == py_sum (map (fun d => 1 / d ^ p) nd))%Q.
Proof.
  apply py_sum_ext. induction nd as [|d nd IH]; constructor; [|exact IH].
  cbn beta. rewrite one_point_zero. reflexivity.
Qed.

(** Each weight is the inverse distance power over the sum of all of them. *)
Lemma idw_weights_nth (nd : list Q) (p : Z) (i : nat) (w : Q) :
  nth_error (idw_weights nd p) i = Some w ->
  exists d, nth_error nd i = Some d /\
    (w == (1 / d ^ p) / py_sum (map (fun d' => 1 / d' ^ p) nd))%Q.
Proof.
  unfold idw_weights. cbv zeta. rewrite !nth_error_map.
  destruct (nth_error nd i) as [d|]; [|discriminate].
  cbn. intros [= <-]. exists d. split; [reflexivity|].
  rewrite raw_weights_total, one_point_zero. reflexivity.
Qed.

(** *** The two branches *)

Lemma py_min_list_bound (nd : list Q) (m : Q) :
  py_min_list nd = Ok m -> In m nd.
Proof.
  destruct nd as [|x rest]; [discriminate|].
  unfold py_min_list. intros [= <-]. apply fold_py_min_In.
Qed.

Lemma idw_branch_short_circuit (ns : list station) (nd : list Q)
    (feature_dim : nat) (p : Z) (m : Q) :
  length nd = length ns ->
  py_min_list nd = Ok m ->
  Qltb m 0.1 = true ->
  exists closest,
    nth_error ns (np_argmin nd) = Some closest /\
    nth_error nd (np_argmin nd) = Some m /\
    idw_branch ns nd feature_dim p
    = Ok (aqi closest, features closest,
          map (fun i => if (i =? np_argmin nd)%nat then 1.0%Q else 0.0%Q)
              (seq 0 (length ns))).
Proof.
  intros Hlen Hmin Hnear.
  assert (Hm : nth_error nd (np_argmin nd) = Some m).
  { destruct nd as [|x rest]; [discriminate|].
    injection Hmin as <-. apply np_argmin_spec. }
  assert (Hidx : (np_argmin nd < length ns)%nat).
  { rewrite <- Hlen. apply nth_error_Some. congruence. }
  destruct (nth_error ns (np_argmin nd)) as [closest|] eqn:Ec;
    [|apply nth_error_None in Ec; lia].
  exists closest. split; [reflexivity|]. split; [exact Hm|].
  unfold idw_branch. rewrite Hmin, result_bind_ok, Hnear.
  cbv zeta. rewrite (py_index_some _ _ _ Ec), result_bind_ok. reflexivity.
Qed.

Lemma idw_branch_weighted (ns : list station) (nd : list Q)
    (feature_dim : nat) (p : Z) (m : Q) :
  py_min_list nd = Ok m ->
  Qltb m 0.1 = false ->
  idw_branch ns nd feature_dim p
  = (interpolated_features ←
       accumulate_features (repeat 0%Q feature_dim)
         (combine (idw_weights nd p) ns);
     mret (py_sum (map (fun q => (fst q * aqi (snd q))%Q)
                       (combine (idw_weights nd p) ns)),
           NdArray interpolated_features, idw_weights nd p)).
Proof.
  intros Hmin Hfar. unfold idw_branch.
  rewrite Hmin, result_bind_ok, Hfar. reflexivity.
Qed.

(** What the interpolation computes once the selection is known and not
    empty: the near-colocation branch or the weighted branch, followed by
    the conversion of the features. *)
Lemma predict_spatial_interpolation_cases (target_lat target_lon : Q)
    (station_data : list station) (k_nearest idw_power : Z)
    (ns : list station) (nd : list Q) :
  select_nearest target_lat target_lon station_data
    (clamp_k (length station_data) k_nearest) = Ok (ns, nd) ->
  ns <> [] ->
  exists first m,
    nth_error ns 0 = Some first /\
    length nd = length ns /\
    py_min_list nd = Ok m /\
    ((Qltb m 0.1 = true /\
      exists closest,
        nth_error ns (np_argmin nd) = Some closest /\
        nth_error nd (np_argmin nd) = Some m /\
        predict_spatial_interpolation target_lat target_lon station_data
          k_nearest idw_power
        = (feats_list ← tolist (features closest);
           mret (mk_interpolation target_lat target_lon (aqi closest)
                   feats_list "IDW" (clamp_k (length station_data) k_nearest)
                   (contributors nd ns
                      (map (fun i => if (i =? np_argmin nd)%nat
                                     then 1.0%Q else 0.0%Q)
                           (seq 0 (length ns))))))) \/
     (Qltb m 0.1 = false /\
      predict_spatial_interpolation target_lat target_lon station_data
        k_nearest idw_power
      = (feats ← accumulate_features
                   (repeat 0%Q (length (items_of (features first))))
                   (combine (idw_weights nd idw_power) ns);
         mret (mk_interpolation target_lat target_lon
                 (py_sum (map (fun q => (fst q * aqi (snd q))%Q)
                              (combine (idw_weights nd idw_power) ns)))
                 feats "IDW" (clamp_k (length station_data) k_nearest)
                 (contributors nd ns (idw_weights nd idw_power)))))).
Proof.
  intros Hsel Hne.
  destruct (select_nearest_ok target_lat target_lon station_data
              (clamp_k (length station_data) k_nearest))
    as (ns' & nd' & Hsel' & _ & Hnd & _).
  rewrite Hsel in Hsel'. injection Hsel' as <- <-.
  assert (Hlen : length nd = length ns)
    by (rewrite Hnd; unfold station_distances; apply length_map).
  destruct ns as [|first ns']; [congruence|].
  destruct nd as [|d0 nd']; [discriminate|].
  set (ns := first :: ns') in *. set (nd := d0 :: nd') in *.
  exists first, (fold_left py_min nd' d0).
  split; [reflexivity|]. split; [exact Hlen|]. split; [reflexivity|].
  pose proof (predict_spatial_interpolation_selected target_lat target_lon
                station_data k_nearest idw_power ns nd Hsel) as Hpsi.
  change (py_index ns 0) with (Ok (A := station) first) in Hpsi.
  rewrite result_bind_ok in Hpsi.
  destruct (Qltb (fold_left py_min nd' d0) 0.1) eqn:Hnear; [left | right];
    (split; [reflexivity|]).
  - destruct (idw_branch_short_circuit ns nd
                (length (items_of (features first))) idw_power
                (fold_left py_min nd' d0) Hlen eq_refl Hnear)
      as (closest & Hc & Hm & Hbranch).
    exists closest. split; [exact Hc|]. split; [exact Hm|].
    rewrite Hpsi, Hbranch, result_bind_ok. reflexivity.
  - rewrite Hpsi.
    rewrite (idw_branch_weighted ns nd _ idw_power
               (fold_left py_min nd' d0) eq_refl Hnear).
    destruct (accumulate_features
                (repeat 0%Q (length (items_of (features first))))
                (combine (idw_weights nd idw_power) ns)) as [feats|e];
      reflexivity.
Qed.

Lemma py_min_le (a b : Q) : (py_min a b <= a /\ py_min a b <= b)%Q.
Proof.
  unfold py_min. destruct (Qltb b a) eqn:E.
  - apply Qltb_lt in E. split; lra.
  - apply Qltb_ge in E. split; lra.
Qed.

Lemma fold_py_min_le (l : list Q) :
  forall x y, In y (x :: l) -> (fold_left py_min l x <= y)%Q.
Proof.
  induction l as [|z l IH]; intros x y Hin; simpl.
  - destruct Hin as [<- | []]. lra.
  - destruct (py_min_le x z) as [Hx Hz].
    assert (Hacc : (fold_left py_min l (py_min x z) <= py_min x z)%Q)
      by (apply IH; left; reflexivity).
    destruct Hin as [<- | [<- | Hin]]; [lra | lra |].
    apply IH. right. exact Hin.
Qed.

Lemma py_min_list_le (nd : list Q) (m : Q) :
  py_min_list nd = Ok m -> forall d, In d nd -> (m <= d)%Q.
Proof.
  destruct nd as [|x rest]; [discriminate|].
  unfold py_min_list. intros [= <-] d Hd. now apply fold_py_min_le.
Qed.

Lemma near_colocated_selected (target_lat target_lon : Q)
    (station_data : list station) (k_nearest : Z) :
  near_colocated target_lat target_lon station_data k_nearest = true ->
  exists ns nd m,
    select_nearest target_lat target_lon station_data
      (clamp_k (length station_data) k_nearest) = Ok (ns, nd) /\
    ns <> [] /\ py_min_list nd = Ok m /\ Qltb m 0.1 = true /\
    (forall P, Forall P station_data -> Forall P ns).
Proof.
  unfold near_colocated. intros Hnear.
  destruct (select_nearest_ok target_lat target_lon station_data
              (clamp_k (length station_data) k_nearest))
    as (ns & nd & Hsel & _ & Hnd & Hsub).
  rewrite Hsel in Hnear.
  destruct (py_min_list nd) as [m|] eqn:Hmin; [|discriminate].
  exists ns, nd, m. split; [exact Hsel|]. split; [|auto].
  intros ->. rewrite Hnd in Hmin. discriminate.
Qed.

(** The near-colocation branch on NumPy feature arrays.  When the nearest
    selected station is closer than 0.1 km the interpolated AQI is that station's AQI, its
    weight is 1.0 and every other contributor has weight 0.0. *)
Lemma short_circuit_returns_nearest (target_lat target_lon : Q)
    (station_data : list station) (k_nearest idw_power : Z) :
  near_colocated target_lat target_lon station_data k_nearest = true ->
  Forall (fun s => exists items, features s = NdArray items) station_data ->
  exists r i c,
    predict_spatial_interpolation target_lat target_lon station_data
      k_nearest idw_power = Ok r /\
    nth_error (ir_nearest_stations r) i = Some c /\
    ir_interpolated_aqi r = contributor_aqi c /\
    weight c = 1.0%Q /\
    (distance_km c < 0.1)%Q /\
    forall j c', nth_error (ir_nearest_stations r) j = Some c' ->
      (distance_km c <= distance_km c')%Q /\ (j <> i -> weight c' = 0.0%Q).
Proof.
  intros Hnear Harr.
  destruct (near_colocated_selected _ _ _ _ Hnear)
    as (ns & nd & m & Hsel & Hne & Hmin & Hlt & Hsub).
  destruct (predict_spatial_interpolation_cases target_lat target_lon
              station_data k_nearest idw_power ns nd Hsel Hne)
    as (first & m' & _ & Hlen & Hmin' & Hcases).
  rewrite Hmin in Hmin'. injection Hmin' as <-.
  destruct Hcases as [(_ & closest & Hc & Hm & Hpsi) | (Hfar & _)];
    [|congruence].
  assert (Hfeat : exists items, features closest = NdArray items).
  { apply nth_error_In in Hc.
    exact (proj1 (List.Forall_forall _ ns) (Hsub _ Harr) closest Hc). }
  destruct Hfeat as (items & Hitems).
  rewrite Hitems in Hpsi. cbn [tolist] in Hpsi. rewrite result_bind_ok in Hpsi.
  set (idx := np_argmin nd) in *.
  assert (Hidx : (idx < length ns)%nat) by (apply nth_error_Some; congruence).
  eexists _, idx, (mk_contributor m (aqi closest) 1.0).
  split; [exact Hpsi|]. cbn [ir_nearest_stations ir_interpolated_aqi].
  split.
  { unfold contributors.
    rewrite nth_error_map, !nth_error_combine, Hm, Hc, nth_error_map,
      nth_error_seq.
    destruct (Nat.ltb_spec idx (length ns)); [|lia]. cbn.
    now rewrite Nat.eqb_refl. }
  split; [reflexivity|]. split; [reflexivity|].
  split; [cbn; now apply Qltb_lt|].
  intros j c' Hj.
  destruct (contributors_nth _ _ _ _ _ Hj) as (d & s & w & Hd & Hs & Hw & ->).
  cbn [distance_km weight]. split.
  - apply (py_min_list_le nd m Hmin). eapply nth_error_In. exact Hd.
  - intros Hji. rewrite nth_error_map, nth_error_seq in Hw.
    destruct (Nat.ltb_spec j (length ns)); [|discriminate].
    cbn in Hw. injection Hw as <-.
    now rewrite (proj2 (Nat.eqb_neq j idx) Hji).
Qed.

(** C7, on Python lists.  When the nearest selected station is closer than
    0.1 km and the stations carry their features as Python lists (as the
    module's own demonstration builds them), the near-colocation branch
    keeps the list and the returned dict calls [.tolist()] on it: the call
    raises AttributeError and returns nothing. *)
Theorem short_circuit_python_list_raises (target_lat target_lon : Q)
    (station_data : list station) (k_nearest idw_power : Z) :
  near_colocated target_lat target_lon station_data k_nearest = true ->
  Forall (fun s => exists items, features s = PyList items) station_data ->
  raises (predict_spatial_interpolation target_lat target_lon station_data
            k_nearest idw_power) "AttributeError".
Proof.
  intros Hnear Hlist.
  destruct (near_colocated_selected _ _ _ _ Hnear)
    as (ns & nd & m & Hsel & Hne & Hmin & Hlt & Hsub).
  destruct (predict_spatial_interpolation_cases target_lat target_lon
              station_data k_nearest idw_power ns nd Hsel Hne)
    as (first & m' & _ & Hlen & Hmin' & Hcases).
  rewrite Hmin in Hmin'. injection Hmin' as <-.
  destruct Hcases as [(_ & closest & Hc & Hm & Hpsi) | (Hfar & _)];
    [|congruence].
  assert (Hfeat : exists items, features closest = PyList items).
  { apply nth_error_In in Hc.
    exact (proj1 (List.Forall_forall _ ns) (Hsub _ Hlist) closest Hc). }
  destruct Hfeat as (items & Hitems).
  rewrite Hpsi, Hitems. reflexivity.
Qed.

Lemma non_degenerate_selected (target_lat target_lon : Q)
    (station_data : list station) (k_nearest : Z) :
  non_degenerate target_lat target_lon station_data k_nearest = true ->
  exists ns nd,
    select_nearest target_lat target_lon station_data
      (clamp_k (length station_data) k_nearest) = Ok (ns, nd) /\
    ns <> [] /\ Forall (fun d => 0.1 <= d)%Q nd.
Proof.
  unfold non_degenerate. intros Hnd.
  destruct (select_nearest _ _ _ _) as [[ns nd]|]; [|discriminate].
  apply andb_prop in Hnd. destruct Hnd as [Hne Hfar].
  exists ns, nd. split; [reflexivity|]. split.
  - intros ->. discriminate.
  - apply List.Forall_forall. intros d Hd.
    apply Qleb_le. exact (proj1 (forallb_forall _ nd) Hfar d Hd).
Qed.

(** A weighted sum taken position by position. *)
Lemma weighted_sum_pointwise (g : station -> Q) (ns : list station) :
  forall ws,
    length ws = length ns ->
    (forall i w s, nth_error ws i = Some w -> nth_error ns i = Some s ->
       (w == g s)%Q) ->
    (py_sum (map (fun q => (fst q * aqi (snd q))%Q) (combine ws ns))
     == py_sum (map (fun s => (g s * aqi s)%Q) ns))%Q.
Proof.
  induction ns as [|s ns IH]; intros [|w ws] Hlen Hpt; try discriminate.
  - reflexivity.
  - cbn [combine map fst snd]. rewrite !py_sum_cons.
    rewrite (Hpt 0%nat w s eq_refl eq_refl).
    rewrite (IH ws); [reflexivity | now injection Hlen |].
    intros i w' s' Hw Hs. exact (Hpt (S i) w' s' Hw Hs).
Qed.

Lemma result_ok_inj {A} (a b : A) : Ok a = Ok b -> a = b.
Proof. congruence. Qed.

(** C8.  For a non-degenerate query (every selected station at 0.1 km or
    more), the selected stations are stations of the query, min(k, n) of
    them for a positive k; whenever the call returns, it reports one
    contributor per selected station, in order, with that station's
    haversine distance and AQI and the weight
    w_i = (1 / d_i^power) / sum_j (1 / d_j^power) taken over the selected
    stations; the weights sum to 1, and the interpolated AQI is the sum of
    w_i * aqi_i over the selected stations; and the call does return when
    the selected stations have feature vectors of one length. *)
Theorem idw_weights_normalised (target_lat target_lon : Q)
    (station_data : list station) (k_nearest idw_power : Z) :
  non_degenerate target_lat target_lon station_data k_nearest = true ->
  let selected :=
    selected_stations target_lat target_lon station_data k_nearest in
  let d := fun s => _haversine_distance target_lat target_lon (lat s) (lon s) in
  let total := py_sum (map (fun s => 1 / d s ^ idw_power)%Q selected) in
  (1 <= k_nearest ->
   length selected
   = Z.to_nat (Z.min k_nearest (Z.of_nat (length station_data)))) /\
  Forall (fun s => In s station_data /\ (0.1 <= d s)%Q) selected /\
  (forall r,
     predict_spatial_interpolation target_lat target_lon station_data
       k_nearest idw_power = Ok r ->
     length (ir_nearest_stations r) = length selected /\
     (forall i s, nth_error selected i = Some s ->
        exists c, nth_error (ir_nearest_stations r) i = Some c /\
          distance_km c = d s /\ contributor_aqi c = aqi s /\
          (weight c == (1 / d s ^ idw_power) / total)%Q) /\
     (py_sum (map weight (ir_nearest_stations r)) == 1)%Q /\
     (ir_interpolated_aqi r
      == py_sum (map (fun s => (1 / d s ^ idw_power) / total * aqi s)
                     selected))%Q /\
     (ir_interpolated_aqi r
      == py_sum (map (fun c => weight c * contributor_aqi c)
                     (ir_nearest_stations r)))%Q /\
     forall i c, nth_error (ir_nearest_stations r) i = Some c ->
       (0.1 <= distance_km c)%Q /\
       (weight c
        == (1 / distance_km c ^ idw_power)
           / py_sum (map (fun c' => 1 / distance_km c' ^ idw_power)
                         (ir_nearest_stations r)))%Q) /\
  (same_feature_dim selected = true ->
   exists r,
     predict_spatial_interpolation target_lat target_lon station_data
       k_nearest idw_power = Ok r).
Proof.
  intros Hquery.
  destruct (non_degenerate_selected _ _ _ _ Hquery)
    as (ns & nd & Hsel & Hne & Hfar).
  assert (Hselected : selected_stations target_lat target_lon station_data
                        k_nearest = ns)
    by (unfold selected_stations; now rewrite Hsel).
  rewrite Hselected. intros selected d total. subst selected.
  destruct (select_nearest_ok target_lat target_lon station_data
              (clamp_k (length station_data) k_nearest))
    as (ns' & nd' & Hsel' & Hcount & Hdist & Hsub).
  rewrite Hsel in Hsel'. apply result_ok_inj in Hsel'.
  assert (Ens : ns' = ns) by congruence.
  assert (End : nd' = nd) by congruence.
  subst ns'. rewrite End in Hdist. clear Hsel' End nd'.
  change (station_distances target_lat target_lon ns) with (map d ns) in Hdist.
  destruct (predict_spatial_interpolation_cases target_lat target_lon
              station_data k_nearest idw_power ns nd Hsel Hne)
    as (first & m & Hfirst & Hlen & Hmin & Hcases).
  assert (Hm : (0.1 <= m)%Q).
  { exact (proj1 (List.Forall_forall _ nd) Hfar m (py_min_list_bound nd m Hmin)). }
  destruct Hcases as [(Hnear & _) | (_ & Hpsi)].
  { apply Qltb_lt in Hnear. lra. }
  assert (Hnd_ne : nd <> []) by (intros ->; destruct ns; [congruence | discriminate]).
  assert (Htotal : (py_sum (map (fun d' => 1 / d' ^ idw_power) nd) == total)%Q).
  { unfold total. rewrite Hdist, map_map. reflexivity. }
  split; [|split; [|split]].
  - intros Hk. rewrite Hcount. now apply select_nearest_count.
  - apply List.Forall_forall. intros s Hs. split.
    + assert (Hall : Forall (fun s' => In s' station_data) ns)
        by (apply Hsub, List.Forall_forall; auto).
      exact (proj1 (List.Forall_forall _ ns) Hall s Hs).
    + apply (proj1 (List.Forall_forall _ nd) Hfar).
      rewrite Hdist. now apply in_map.
  - intros r Hr. rewrite Hpsi in Hr.
    destruct (accumulate_features _ _) as [feats|e]; [|discriminate].
    rewrite result_bind_ok in Hr. apply result_ok_inj in Hr. subst r.
    cbv beta iota delta [ir_nearest_stations ir_interpolated_aqi].
    assert (Hws : length (idw_weights nd idw_power) = length ns)
      by now rewrite idw_weights_length.
    destruct (contributors_fields ns nd (idw_weights nd idw_power) Hlen Hws)
      as (Hd & _ & Hw & Hwa).
    assert (Hweight : forall i w s,
              nth_error (idw_weights nd idw_power) i = Some w ->
              nth_error ns i = Some s ->
              (w == (1 / d s ^ idw_power) / total)%Q).
    { intros i w s Hwi Hs.
      destruct (idw_weights_nth nd idw_power i w Hwi) as (d' & Hd' & Hformula).
      rewrite Hdist, nth_error_map, Hs in Hd'. cbn [option_map] in Hd'.
      apply (inj Some) in Hd'. subst d'.
      rewrite Hformula, Htotal. reflexivity. }
    split; [now apply contributors_length|].
    split; [|split; [|split; [|split]]].
    + intros i s Hs.
      assert (Hi : (i < length (contributors nd ns (idw_weights nd idw_power)))%nat).
      { rewrite contributors_length by assumption.
        apply nth_error_Some. congruence. }
      destruct (nth_error (contributors nd ns (idw_weights nd idw_power)) i)
        as [c|] eqn:Hc; [|apply nth_error_None in Hc; lia].
      exists c. split; [reflexivity|].
      destruct (contributors_nth _ _ _ _ _ Hc)
        as (d' & s' & w & Hdi & Hsi & Hwi & ->).
      rewrite Hs in Hsi. apply (inj Some) in Hsi. subst s'.
      cbv beta iota delta [distance_km contributor_aqi weight].
      split; [|split; [reflexivity|exact (Hweight i w s Hwi Hs)]].
      rewrite Hdist, nth_error_map, Hs in Hdi. cbn [option_map] in Hdi.
      apply (inj Some) in Hdi. now symmetry.
    + rewrite Hw. now apply idw_weights_sum.
    + apply weighted_sum_pointwise; assumption.
    + rewrite Hwa. reflexivity.
    + intros i c Hc.
      destruct (contributors_nth _ _ _ _ _ Hc) as (d' & s & w & Hdi & _ & Hwi & ->).
      cbv beta iota delta [distance_km weight]. split.
      * apply nth_error_In in Hdi.
        exact (proj1 (List.Forall_forall _ nd) Hfar d' Hdi).
      * destruct (idw_weights_nth nd idw_power i w Hwi) as (d'' & Hd'' & Hformula).
        rewrite Hdi in Hd''. apply (inj Some) in Hd''. subst d''.
        rewrite <- (map_map distance_km (fun x => (1 / x ^ idw_power)%Q)), Hd.
        exact Hformula.
  - intros Hdim.
    destruct (accumulate_features_ok (combine (idw_weights nd idw_power) ns)
                (repeat 0%Q (length (items_of (features first)))))
      as (feats & Hfeats).
    { apply List.Forall_forall. intros [w s] Hin. cbn [snd].
      apply in_combine_r in Hin. rewrite repeat_length.
      destruct ns as [|s0 ns']; [destruct Hin|].
      injection Hfirst as ->. cbn [same_feature_dim] in Hdim.
      apply Nat.eqb_eq. exact (proj1 (forallb_forall _ _) Hdim s Hin). }
    rewrite Hfeats, result_bind_ok in Hpsi. eauto.
Qed.

End SpatialProperties.

Lemma idw_weights_normalised_witness :
  exists r,
    predict_spatial_interpolation (H := Sample.sample_numerics) 28.65 77.25
      (sample_stations PyList) 3 2 = Ok r /\
    length (ir_nearest_stations r) = 3%nat /\
    (py_sum (map weight (ir_nearest_stations r)) == 1)%Q.
Proof.
  assert (Hquery : non_degenerate (H := Sample.sample_numerics) 28.65 77.25
                     (sample_stations PyList) 3 = true)
    by (vm_compute; reflexivity).
  pose proof (idw_weights_normalised (H := Sample.sample_numerics) 28.65 77.25
                (sample_stations PyList) 3 2 Hquery) as Hthm.
  cbv zeta in Hthm. destruct Hthm as (Hcount & _ & Hprops & Hreturns).
  destruct Hreturns as (r & Hr); [vm_compute; reflexivity|].
  exists r. split; [exact Hr|].
  destruct (Hprops r Hr) as (Hlen & _ & Hsum & _).
  split; [|exact Hsum].
  rewrite Hlen, Hcount by lia. reflexivity.
Defined.

Lemma short_circuit_python_list_raises_witness :
  raises (predict_spatial_interpolation (H := Sample.sample_numerics)
            28.61 77.20 (sample_stations PyList) 3 2) "AttributeError".
Proof.
  apply (short_circuit_python_list_raises (H := Sample.sample_numerics)).
  - vm_compute. reflexivity.
  - repeat constructor; eexists; reflexivity.
Defined.

Example short_circuit_on_arrays :
  exists r,
    predict_spatial_interpolation (H := Sample.sample_numerics)
      28.61 77.20 (sample_stations NdArray) 3 2 = Ok r /\
    ir_interpolated_aqi r = 120%Q /\
    map weight (ir_nearest_stations r) = [1.0%Q; 0.0%Q; 0.0%Q].
Proof.
  eexists. split; [vm_compute; reflexivity|]. split; reflexivity.
Qed.

(** ** The number of stations used *)

Section ClampProperties.
Context `{numerics}.

Lemma select_nearest_nil (target_lat target_lon : Q) (k_nearest : Z) :
  select_nearest target_lat target_lon [] k_nearest = Ok ([], []).
Proof.
  unfold select_nearest, station_distances, py_take.
  cbn [map length np_argsort seq combine fold_right].
  rewrite py_slice_nil. reflexivity.
Qed.

Lemma predict_spatial_interpolation_nil (target_lat target_lon : Q)
    (k_nearest idw_power : Z) :
  predict_spatial_interpolation target_lat target_lon [] k_nearest idw_power
  = Raise IndexError.
Proof.
  rewrite (predict_spatial_interpolation_selected _ _ _ _ _ [] []).
  - reflexivity.
  - apply select_nearest_nil.
Qed.

(** C3, amended.  With no station the call fails, and the failure is the
    IndexError of reading [nearest_stations[0]]: the code has no
    InsufficientDataError.  With at least one station and k >= 1 the
    effective k is min(k, number of stations), that many contributors are
    reported, and the call does not raise IndexError; it returns whenever
    the stations carry NumPy feature arrays of one length. *)
Theorem predict_spatial_interpolation_clamps_k (target_lat target_lon : Q)
    (k_nearest idw_power : Z) :
  predict_spatial_interpolation target_lat target_lon [] k_nearest idw_power
    = Raise IndexError /\
  forall station_data,
    station_data <> [] -> 1 <= k_nearest ->
    let outcome :=
      predict_spatial_interpolation target_lat target_lon station_data
        k_nearest idw_power in
    let k := Z.min k_nearest (Z.of_nat (length station_data)) in
    ~ raises outcome "IndexError" /\
    (forall r, outcome = Ok r ->
       ir_k_nearest r = k /\
       length (ir_nearest_stations r) = Z.to_nat k) /\
    ((exists n, Forall (fun s => exists items,
                          features s = NdArray items /\ length items = n)
                       station_data) ->
     exists r, outcome = Ok r).
Proof.
  split; [apply predict_spatial_interpolation_nil|].
  intros station_data Hne Hk outcome k.
  destruct (select_nearest_ok target_lat target_lon station_data
              (clamp_k (length station_data) k_nearest))
    as (ns & nd & Hsel & Hcount & Hnd & Hsub).
  rewrite select_nearest_count in Hcount by exact Hk. fold k in Hcount.
  assert (Hlen_sd : (0 < length station_data)%nat)
    by (destruct station_data; [congruence | simpl; lia]).
  assert (Hns : ns <> []) by (intros ->; simpl in Hcount; lia).
  destruct (predict_spatial_interpolation_cases target_lat target_lon
              station_data k_nearest idw_power ns nd Hsel Hns)
    as (first & m & Hfirst & Hlen & Hmin & Hcases).
  fold outcome in Hcases. rewrite clamp_k_min in Hcases. fold k in Hcases.
  destruct Hcases as [(_ & closest & Hc & _ & Hpsi) | (_ & Hpsi)].
  - destruct (features closest) as [items | items] eqn:Hfeat;
      cbn [tolist] in Hpsi.
    + rewrite result_bind_raise in Hpsi. rewrite Hpsi.
      split; [intros [=]|]. split; [intros r [=]|].
      intros (n & Hall). apply nth_error_In in Hc.
      destruct (proj1 (List.Forall_forall _ ns) (Hsub _ Hall) closest Hc)
        as (items' & Hitems' & _).
      congruence.
    + rewrite result_bind_ok in Hpsi. rewrite Hpsi.
      split; [intros []|]. split; [|eauto].
      intros r [= <-]. cbn [ir_k_nearest ir_nearest_stations].
      split; [reflexivity|].
      rewrite contributors_length; [exact Hcount | exact Hlen |].
      now rewrite length_map, length_seq.
  - destruct (accumulate_features_outcome
                (combine (idw_weights nd idw_power) ns)
                (repeat 0%Q (length (items_of (features first)))))
      as [(feats & Hfeats) | Hraise].
    + rewrite Hfeats, result_bind_ok in Hpsi. rewrite Hpsi.
      split; [intros []|]. split; [|eauto].
      intros r [= <-]. cbn [ir_k_nearest ir_nearest_stations].
      split; [reflexivity|].
      rewrite contributors_length; [exact Hcount | exact Hlen |].
      now rewrite idw_weights_length.
    + destruct (accumulate_features _ _) as [feats | [cls detail]] eqn:Hacc;
        [contradiction|].
      rewrite result_bind_raise in Hpsi. rewrite Hpsi.
      cbn [raises] in Hraise. subst cls.
      split; [intros [=]|]. split; [intros r [=]|].
      intros (n & Hall).
      destruct (accumulate_features_ok (combine (idw_weights nd idw_power) ns)
                  (repeat 0%Q (length (items_of (features first)))))
        as (feats & Hfeats); [|congruence].
      pose proof (Hsub _ Hall) as Hns_all.
      assert (Hdim : forall s, In s ns -> length (items_of (features s)) = n).
      { intros s Hs.
        destruct (proj1 (List.Forall_forall _ ns) Hns_all s Hs)
          as (items & -> & Hitems). exact Hitems. }
      apply List.Forall_forall. intros [w s] Hin. cbn [snd].
      apply in_combine_r in Hin. rewrite repeat_length.
      rewrite (Hdim s Hin). symmetry. apply Hdim.
      eapply nth_error_In. exact Hfirst.
Qed.

End ClampProperties.

Lemma predict_spatial_interpolation_clamps_k_witness :
  exists r,
    predict_spatial_interpolation (H := Sample.sample_numerics) 28.65 77.25
      (sample_stations NdArray) 5 2 = Ok r /\
    ir_k_nearest r = 3 /\ length (ir_nearest_stations r) = 3%nat.
Proof.
  destruct (proj2 (predict_spatial_interpolation_clamps_k
                     (H := Sample.sample_numerics) 28.65 77.25 5 2)
              (sample_stations NdArray))
    as (_ & Hk & Hreturns).
  - discriminate.
  - lia.
  - destruct Hreturns as (r & Hr).
    + exists 2%nat. repeat constructor; eexists; split; reflexivity.
    + exists r. split; [exact Hr|]. exact (Hk r Hr).
Defined.

(** The claim of C3 as stated fails: with no station the exception is an
    IndexError, not an InsufficientDataError. *)
Lemma predict_spatial_interpolation_empty_counterexample :
  predict_spatial_interpolation (H := Sample.sample_numerics) 28.65 77.25
    [] 3 2 = Raise IndexError /\
  ~ raises (predict_spatial_interpolation (H := Sample.sample_numerics)
              28.65 77.25 [] 3 2) "InsufficientDataError".
Proof.
  split; [reflexivity|]. intros [=].
Qed.

(** * Further properties of the modelled code *)

(** ** The category bins *)

Lemma category_names_distinct :
  Good <> Satisfactory /\ Good <> Moderate /\ Good <> Poor /\
  Good <> Very_Poor /\ Good <> Severe /\ Satisfactory <> Moderate /\
  Satisfactory <> Poor /\ Satisfactory <> Very_Poor /\
  Satisfactory <> Severe /\ Moderate <> Poor /\ Moderate <> Very_Poor /\
  Moderate <> Severe /\ Poor <> Very_Poor /\ Poor <> Severe /\
  Very_Poor <> Severe.
Proof. repeat split; discriminate. Qed.

(** The six bins partition the number line at 50, 100, 200, 300 and 400,
    each bound belonging to the bin below it. *)
Theorem get_aqi_category_bins (aqi : Q) :
  (get_aqi_category aqi = Ok Good <-> (aqi <= 50)%Q) /\
  (get_aqi_category aqi = Ok Satisfactory <-> (50 < aqi <= 100)%Q) /\
  (get_aqi_category aqi = Ok Moderate <-> (100 < aqi <= 200)%Q) /\
  (get_aqi_category aqi = Ok Poor <-> (200 < aqi <= 300)%Q) /\
  (get_aqi_category aqi = Ok Very_Poor <-> (300 < aqi <= 400)%Q) /\
  (get_aqi_category aqi = Ok Severe <-> (400 < aqi)%Q).
Proof.
  pose proof category_names_distinct as D.
  unfold get_aqi_category.
  destruct (Qleb aqi 50) eqn:E50;
    [apply Qleb_le in E50 | apply Qleb_gt in E50];
  (destruct (Qleb aqi 100) eqn:E100;
    [apply Qleb_le in E100 | apply Qleb_gt in E100]);
  (destruct (Qleb aqi 200) eqn:E200;
    [apply Qleb_le in E200 | apply Qleb_gt in E200]);
  (destruct (Qleb aqi 300) eqn:E300;
    [apply Qleb_le in E300 | apply Qleb_gt in E300]);
  (destruct (Qleb aqi 400) eqn:E400;
    [apply Qleb_le in E400 | apply Qleb_gt in E400]);
  try lra;
  repeat split; intros;
    try reflexivity; try lra;
    try (exfalso;
         match goal with
         | Hx : Ok _ = Ok _ |- _ => injection Hx as Hx; intuition congruence
         end).
Qed.

(** ** The seasonal factor *)

Lemma get_season_cases (date : datetime) :
  (get_season date = "winter" /\
   (dt_month date = 12 \/ dt_month date = 1 \/ dt_month date = 2)) \/
  (get_season date = "spring" /\ 3 <= dt_month date <= 5) \/
  (get_season date = "monsoon" /\ 6 <= dt_month date <= 9) \/
  (get_season date = "autumn" /\
   (dt_month date <= 0 \/ 10 <= dt_month date <= 11 \/ 13 <= dt_month date)).
Proof.
  unfold get_season.
  destruct (Z.eqb_spec (dt_month date) 12); [left; split; [reflexivity | lia]|].
  destruct (Z.eqb_spec (dt_month date) 1); [left; split; [reflexivity | lia]|].
  destruct (Z.eqb_spec (dt_month date) 2); [left; split; [reflexivity | lia]|].
  destruct (Z.eqb_spec (dt_month date) 3);
    [right; left; split; [reflexivity | lia]|].
  destruct (Z.eqb_spec (dt_month date) 4);
    [right; left; split; [reflexivity | lia]|].
  destruct (Z.eqb_spec (dt_month date) 5);
    [right; left; split; [reflexivity | lia]|].
  destruct (Z.eqb_spec (dt_month date) 6);
    [right; right; left; split; [reflexivity | lia]|].
  destruct (Z.eqb_spec (dt_month date) 7);
    [right; right; left; split; [reflexivity | lia]|].
  destruct (Z.eqb_spec (dt_month date) 8);
    [right; right; left; split; [reflexivity | lia]|].
  destruct (Z.eqb_spec (dt_month date) 9);
    [right; right; left; split; [reflexivity | lia]|].
  right; right; right. split; [reflexivity | lia].
Qed.

(** Every season [get_season] returns has an entry in [SEASONAL_FACTORS],
    so the fallback factor never applies: the value is multiplied by 1.3 in
    December to February, 1.0 in March to May, 0.7 in June to September and
    1.1 otherwise, and a value that is not negative stays between 0.7 and
    1.3 times itself. *)
Theorem add_seasonal_factor_by_month (base_aqi : Q) (date : datetime) :
  is_Some (SEASONAL_FACTORS !! get_season date) /\
  (dt_month date = 12 \/ dt_month date = 1 \/ dt_month date = 2 ->
   (add_seasonal_factor base_aqi date == 1.3 * base_aqi)%Q) /\
  (3 <= dt_month date <= 5 ->
   (add_seasonal_factor base_aqi date == base_aqi)%Q) /\
  (6 <= dt_month date <= 9 ->
   (add_seasonal_factor base_aqi date == 0.7 * base_aqi)%Q) /\
  (10 <= dt_month date <= 11 ->
   (add_seasonal_factor base_aqi date == 1.1 * base_aqi)%Q) /\
  ((0 <= base_aqi)%Q ->
   (0.7 * base_aqi <= add_seasonal_factor base_aqi date <= 1.3 * base_aqi)%Q).
Proof.
  unfold add_seasonal_factor.
  destruct (get_season_cases date) as [[-> Hm] | [[-> Hm] | [[-> Hm] | [-> Hm]]]].
  - change (SEASONAL_FACTORS !! "winter") with (Some 1.3%Q). cbn [default from_option]; unfold id.
    split; [eauto|]. repeat split; intros; try lia; try lra.
  - change (SEASONAL_FACTORS !! "spring") with (Some 1.0%Q). cbn [default from_option]; unfold id.
    split; [eauto|]. repeat split; intros; try lia; try lra.
  - change (SEASONAL_FACTORS !! "monsoon") with (Some 0.7%Q). cbn [default from_option]; unfold id.
    split; [eauto|]. repeat split; intros; try lia; try lra.
  - change (SEASONAL_FACTORS !! "autumn") with (Some 1.1%Q). cbn [default from_option]; unfold id.
    split; [eauto|]. repeat split; intros; try lia; try lra.
Qed.

Lemma add_seasonal_factor_by_month_witness :
  (add_seasonal_factor 100 (mk_datetime 2025 7 15 12) == 70)%Q.
Proof.
  destruct (add_seasonal_factor_by_month 100 (mk_datetime 2025 7 15 12))
    as (_ & _ & _ & Hmonsoon & _).
  rewrite Hmonsoon; [reflexivity | simpl; lia].
Defined.

(** ** The rush-hour boost *)

Lemma add_rush_hour_peaks_weekday (base_aqi : Q) (hour : Z) :
  exists boost,
    (add_rush_hour_peaks base_aqi hour true == base_aqi + boost)%Q /\
    (((7 <= hour <= 9 \/ 19 <= hour <= 21) /\ (12.5 <= boost <= 30)%Q) \/
     (~ (7 <= hour <= 9 \/ 19 <= hour <= 21) /\ boost = 0%Q)).
Proof.
  destruct (Z_le_dec 7 hour) as [H7|H7];
    [destruct (Z_le_dec hour 9) as [H9|H9] |].
  - assert (Hh : hour = 7 \/ hour = 8 \/ hour = 9) by lia.
    destruct Hh as [-> | [-> | ->]].
    + exists (25 * (1 - inject_Z 1 / 2))%Q. split; [reflexivity|].
      left. split; [lia|]. split; vm_compute; discriminate.
    + exists (25 * (1 - inject_Z 0 / 2))%Q. split; [reflexivity|].
      left. split; [lia|]. split; vm_compute; discriminate.
    + exists (25 * (1 - inject_Z 1 / 2))%Q. split; [reflexivity|].
      left. split; [lia|]. split; vm_compute; discriminate.
  - destruct (Z_le_dec 19 hour) as [H19|H19];
      [destruct (Z_le_dec hour 21) as [H21|H21] |].
    + assert (Hh : hour = 19 \/ hour = 20 \/ hour = 21) by lia.
      destruct Hh as [-> | [-> | ->]].
      * exists (30 * (1 - inject_Z 1 / 2))%Q. split; [reflexivity|].
        left. split; [lia|]. split; vm_compute; discriminate.
      * exists (30 * (1 - inject_Z 0 / 2))%Q. split; [reflexivity|].
        left. split; [lia|]. split; vm_compute; discriminate.
      * exists (30 * (1 - inject_Z 1 / 2))%Q. split; [reflexivity|].
        left. split; [lia|]. split; vm_compute; discriminate.
    + exists 0%Q. split; [|right; split; [lia | reflexivity]].
      unfold add_rush_hour_peaks. cbn [negb].
      rewrite (proj2 (Z.leb_gt hour 9)) by lia.
      rewrite (proj2 (Z.leb_gt hour 21)) by lia.
      rewrite !andb_false_r. reflexivity.
    + exists 0%Q. split; [|right; split; [lia | reflexivity]].
      unfold add_rush_hour_peaks. cbn [negb].
      rewrite (proj2 (Z.leb_gt hour 9)) by lia.
      rewrite (proj2 (Z.leb_gt 19 hour)) by lia.
      rewrite andb_false_r. reflexivity.
  - exists 0%Q. split; [|right; split; [lia | reflexivity]].
    unfold add_rush_hour_peaks. cbn [negb].
    rewrite (proj2 (Z.leb_gt 7 hour)) by lia.
    rewrite (proj2 (Z.leb_gt 19 hour)) by lia. reflexivity.
Qed.

(** The rush-hour adjustment never lowers the value and never adds more
    than 30; it adds something exactly on a weekday inside one of the two
    windows, and there it adds at least 12.5 (the boost does not taper to
    zero at the window edges). *)
Theorem add_rush_hour_peaks_bounds (base_aqi : Q) (hour : Z) (is_weekday : bool) :
  (base_aqi <= add_rush_hour_peaks base_aqi hour is_weekday <= base_aqi + 30)%Q /\
  ((base_aqi < add_rush_hour_peaks base_aqi hour is_weekday)%Q <->
   is_weekday = true /\ (7 <= hour <= 9 \/ 19 <= hour <= 21)) /\
  ((base_aqi < add_rush_hour_peaks base_aqi hour is_weekday)%Q ->
   (base_aqi + 12.5 <= add_rush_hour_peaks base_aqi hour is_weekday)%Q).
Proof.
  destruct is_weekday.
  - destruct (add_rush_hour_peaks_weekday base_aqi hour)
      as (boost & Hr & [[Hwin Hb] | [Hout ->]]); rewrite Hr.
    + split; [lra|]. split; [|intros; lra].
      split; [intros; split; [reflexivity | exact Hwin] | intros; lra].
    + split; [lra|]. split; [|intros; lra].
      split; [intros; lra | intros [_ Hwin]; contradiction].
  - change (add_rush_hour_peaks base_aqi hour false) with base_aqi.
    split; [lra|]. split; [|intros; lra].
    split; [intros; lra | intros [[=] _]].
Qed.

(** ** The diurnal factor *)

Section DiurnalProperties.
Context `{numerics}.

Lemma scale_between (base_aqi factor lo hi : Q) :
  (0 <= base_aqi)%Q -> (lo <= factor <= hi)%Q ->
  (lo * base_aqi <= base_aqi * factor <= hi * base_aqi)%Q.
Proof.
  intros Hb [Hlo Hhi]. rewrite (Qmult_comm base_aqi factor).
  split; apply Qmult_le_compat_r; assumption.
Qed.

(** The angle [add_diurnal_pattern] passes to [np.cos]. *)
Lemma add_diurnal_pattern_factor (base_aqi : Q) (hour : Z) :
  add_diurnal_pattern base_aqi hour
  = (base_aqi
     * (1.0 + 0.3 * np_cos (inject_Z (hour - 14) * (2 * np_pi / 24))))%Q.
Proof. reflexivity. Qed.

(** When the cosine at the hour's angle lies in [-1, 1], the diurnal
    pattern keeps a value that is not negative between 0.7 and 1.3 times
    itself. *)
Theorem add_diurnal_pattern_bounds (base_aqi : Q) (hour : Z) :
  (-1 <= np_cos (inject_Z (hour - 14) * (2 * np_pi / 24)) <= 1)%Q ->
  (0 <= base_aqi)%Q ->
  (0.7 * base_aqi <= add_diurnal_pattern base_aqi hour <= 1.3 * base_aqi)%Q.
Proof.
  intros Hcos Hbase. rewrite add_diurnal_pattern_factor.
  apply scale_between; [exact Hbase | lra].
Qed.

End DiurnalProperties.

Lemma add_diurnal_pattern_bounds_witness :
  (0.7 * 100 <= add_diurnal_pattern (H := Sample.sample_numerics) 100 8
   <= 1.3 * 100)%Q.
Proof.
  apply (add_diurnal_pattern_bounds (H := Sample.sample_numerics) 100 8).
  - split; vm_compute; discriminate.
  - vm_compute. discriminate.
Defined.

(** ** Every point of a forecast *)

Lemma dt_hour_add_hours (t : datetime) (n : Z) :
  0 <= dt_hour (add_hours t n) < 24.
Proof.
  unfold add_hours, of_epoch_hours.
  destruct (civil_from_days ((epoch_hours t + n) / 24)) as [[y m] d].
  cbn [dt_hour]. apply Z.mod_pos_bound. lia.
Qed.

(** ** The range of datetimes

    Python's [datetime] holds the years 1 to 9999 and an addition that
    leaves them raises OverflowError.  From a datetime up to the year 9998
    the 72 hours of the longest horizon stay inside that range. *)

Lemma days_from_civil_bounds (y m d : Z) :
  1 <= y <= 9998 -> 1 <= m <= 12 -> 1 <= d <= 31 ->
  -719162 <= days_from_civil y m d <= 2932531.
Proof.
  intros Hy Hm Hd. unfold days_from_civil.
  destruct (Z.leb_spec m 2); destruct (Z.ltb_spec 2 m); try lia; cbv zeta;
    split; Z.to_euclidean_division_equations; lia.
Qed.

Lemma civil_from_days_year (z : Z) :
  -719162 <= z <= 2932896 -> 1 <= fst (fst (civil_from_days z)) <= 9999.
Proof.
  intros Hz. unfold civil_from_days. cbv zeta. cbn [fst].
  set (z' := z + 719468).
  set (era := z' / 146097).
  set (doe := z' - era * 146097).
  set (yoe := (doe - doe / 1460 + doe / 36524 - doe / 146096) / 365).
  set (doy := doe - (365 * yoe + yoe / 4 - yoe / 100)).
  set (mp := (5 * doy + 2) / 153).
  assert (Hera : 0 <= era <= 24)
    by (unfold era, z'; Z.to_euclidean_division_equations; lia).
  assert (Hdoe : 0 <= doe <= 146096)
    by (unfold doe, era; Z.to_euclidean_division_equations; lia).
  assert (Hb : doe / 36524 = 0 \/ doe / 36524 = 1 \/ doe / 36524 = 2 \/
               doe / 36524 = 3 \/ doe / 36524 = 4)
    by (Z.to_euclidean_division_equations; lia).
  assert (Hc : doe / 146096 = 0 \/ doe / 146096 = 1)
    by (Z.to_euclidean_division_equations; lia).
  assert (Hyoe : 0 <= yoe <= 399).
  { unfold yoe.
    destruct Hb as [Hb|[Hb|[Hb|[Hb|Hb]]]]; destruct Hc as [Hc|Hc];
      Z.to_euclidean_division_equations; lia. }
  assert (Hdoy : 0 <= doy <= 365).
  { unfold doy, yoe.
    destruct Hb as [Hb|[Hb|[Hb|[Hb|Hb]]]]; destruct Hc as [Hc|Hc];
      Z.to_euclidean_division_equations; lia. }
  assert (Hmp : 0 <= mp <= 11)
    by (unfold mp; Z.to_euclidean_division_equations; lia).
  destruct (Z.ltb_spec mp 10) as [Hlt|Hge].
  - destruct (Z.leb_spec (mp + 3) 2); [lia|].
    split; [|lia].
    assert (Hfirst : 1 <= era \/ (era = 0 /\ 1 <= yoe)); [|lia].
    destruct (Z.eq_dec era 0) as [E|E]; [right; split; [exact E|] | left; lia].
    assert (Hdoe' : 306 <= doe) by (unfold doe, z'; lia).
    assert (Hdoy' : doy <= 305)
      by (unfold mp in Hlt; Z.to_euclidean_division_equations; lia).
    unfold doy in Hdoy'. unfold yoe in *.
    destruct Hb as [Hb|[Hb|[Hb|[Hb|Hb]]]]; destruct Hc as [Hc|Hc];
      Z.to_euclidean_division_equations; lia.
  - destruct (Z.leb_spec (mp - 9) 2); [|lia].
    split; [lia|].
    assert (Hlast : era <= 23 \/ (era = 24 /\ yoe <= 398)); [|lia].
    destruct (Z.eq_dec era 24) as [E|E]; [right; split; [exact E|] | left; lia].
    assert (Hdoe' : doe <= 146036) by (unfold doe, z'; lia).
    assert (Hdoy' : 306 <= doy)
      by (unfold mp in Hge; Z.to_euclidean_division_equations; lia).
    unfold doy in Hdoy'. unfold yoe in *.
    destruct Hb as [Hb|[Hb|[Hb|[Hb|Hb]]]]; destruct Hc as [Hc|Hc];
      Z.to_euclidean_division_equations; lia.
Qed.

Lemma add_hours_year_range (t : datetime) (n : Z) :
  1 <= dt_year t <= 9998 -> 1 <= dt_month t <= 12 ->
  1 <= dt_day t <= 31 -> 0 <= dt_hour t <= 23 ->
  0 <= n <= 72 ->
  1 <= dt_year (add_hours t n) <= 9999.
Proof.
  intros Hy Hm Hd Hh Hn.
  pose proof (days_from_civil_bounds _ _ _ Hy Hm Hd) as Hdays.
  unfold add_hours, of_epoch_hours, epoch_hours.
  set (days := days_from_civil (dt_year t) (dt_month t) (dt_day t)) in *.
  set (z := (days * 24 + dt_hour t + n) / 24).
  assert (Hz : days <= z <= days + 3)
    by (unfold z; Z.to_euclidean_division_equations; lia).
  assert (Hyear : 1 <= fst (fst (civil_from_days z)) <= 9999)
    by (apply civil_from_days_year; lia).
  destruct (civil_from_days z) as [[y m] d]. exact Hyear.
Qed.

Section PointProperties.
Context `{numerics}.

(** A property of each pass of the loop body holds of each point of the
    table, offset by offset. *)
Lemma forecast_loop_Forall2
    (step : locals -> Z -> result (locals * ForecastPoint))
    (P : Z -> ForecastPoint -> Prop) :
  (forall vars o vars' pt, step vars o = Ok (vars', pt) -> P o pt) ->
  forall offsets vars acc out,
    forecast_loop step vars offsets acc = Ok out ->
    exists pts, out = acc ++ pts /\ Forall2 P offsets pts.
Proof.
  intros Hstep. induction offsets as [|o rest IH]; intros vars acc out Hloop.
  - injection Hloop as <-. exists []. split; [now rewrite app_nil_r | constructor].
  - cbn [forecast_loop] in Hloop.
    destruct (step vars o) as [[vars' pt]|e] eqn:Es; [|discriminate].
    rewrite result_bind_ok in Hloop. cbn [fst snd] in Hloop.
    destruct (IH _ _ _ Hloop) as (pts & -> & Hall).
    exists (pt :: pts). split; [now rewrite <- app_assoc|].
    constructor; [exact (Hstep _ _ _ _ Es) | exact Hall].
Qed.

(** What one pass of the loop body returns, patterns on. *)
Lemma forecast_step_patterns_eq (predict : list Q -> Q)
    (metrics : gmap string Q) (features : list Q) (start_time : datetime)
    (vars : locals) (hour_offset : Z) :
  forecast_step predict metrics features start_time true vars hour_offset
  = Ok (mk_locals
          (Some (dt_hour (add_hours start_time hour_offset)))
          (Some (weekday (add_hours start_time hour_offset) <? 5))
          (Some (negb (weekday (add_hours start_time hour_offset) <? 5))),
        pattern_point predict metrics features start_time hour_offset).
Proof.
  unfold forecast_step, pattern_point, composed_patterns.
  cbv beta iota zeta
    delta [read_local l_is_weekend l_hour mbind mret result_bind result_ret].
  reflexivity.
Qed.

Lemma forecast_step_point (predict : list Q -> Q) (metrics : gmap string Q)
    (features : list Q) (start_time : datetime) (vars vars' : locals)
    (hour_offset : Z) (pt : ForecastPoint) :
  forecast_step predict metrics features start_time true vars hour_offset
    = Ok (vars', pt) ->
  pt = pattern_point predict metrics features start_time hour_offset.
Proof.
  rewrite forecast_step_patterns_eq. intros Hstep.
  congruence.
Qed.

(** The table of a forecast with the patterns on, and the engine after the
    call. *)
Lemma generate_forecast_table (self : ForecastingEngine)
    (predict : list Q -> Q) (features : list Q) (start_time : datetime)
    (forecast_hours : Z) :
  model self = Some predict ->
  generate_forecast self features start_time forecast_hours true
  = Ok (map (pattern_point predict (model_metrics self) features start_time)
            (range (clamp_hours forecast_hours)),
        mk_engine (model self) (model_metrics self)
          (forecast_history self
           ++ [mk_history start_time (clamp_hours forecast_hours)
                 (map (pattern_point predict (model_metrics self) features
                         start_time)
                      (range (clamp_hours forecast_hours)))])).
Proof.
  intros Hmodel.
  destruct (forecast_loop_with_patterns predict (model_metrics self) features
              start_time (range (clamp_hours forecast_hours)) no_locals [])
    as (pts & Hloop & _).
  destruct (forecast_loop_Forall2
              (forecast_step predict (model_metrics self) features start_time
                 true)
              (fun o pt => pt = pattern_point predict (model_metrics self)
                                  features start_time o)
              (fun vars o vars' pt E =>
                 forecast_step_point predict (model_metrics self) features
                   start_time vars vars' o pt E)
              _ _ _ _ Hloop) as (pts' & Hpts & Hall).
  cbn [app] in Hpts. subst pts'.
  assert (Hmap : pts = map (pattern_point predict (model_metrics self)
                              features start_time)
                           (range (clamp_hours forecast_hours))).
  { clear Hloop. induction Hall as [|o pt os pts' Hpt Hrest IH]; cbn [map].
    - reflexivity.
    - now rewrite Hpt, IH. }
  unfold generate_forecast. rewrite Hmodel, Hloop, result_bind_ok.
  cbn [app]. rewrite Hmap. reflexivity.
Qed.

Lemma range_map_nth {A} (f : Z -> A) (n : Z) (i : nat) (x : A) :
  nth_error (map f (range n)) i = Some x ->
  (i < Z.to_nat n)%nat /\ x = f (Z.of_nat i).
Proof.
  intros Hx.
  assert (Hi : (i < Z.to_nat n)%nat).
  { rewrite <- (range_length n), <- (length_map f).
    apply nth_error_Some. congruence. }
  split; [exact Hi|].
  rewrite nth_error_map, (range_nth n i Hi) in Hx. cbn in Hx. congruence.
Qed.

(** The horizon of a forecast: without a model the call raises ValueError
    whatever the other arguments; with one (patterns on) and a start up to
    the year 9998 it returns between 1 and 72 points, [forecast_hours] of
    them when that lies in 1..72, one per hour from [start_time], numbered
    from 0, every timestamp inside the years 1 to 9999 (so that no addition
    overflows), and it appends exactly one entry to the engine's history,
    leaving the model and metrics as they were. *)
Theorem generate_forecast_horizon (self : ForecastingEngine)
    (features : list Q) (start_time : datetime) (forecast_hours : Z) :
  (model self = None ->
   forall include_patterns,
     raises (generate_forecast self features start_time forecast_hours
               include_patterns) "ValueError") /\
  (forall predict, model self = Some predict ->
   1 <= dt_year start_time <= 9998 -> 1 <= dt_month start_time <= 12 ->
   1 <= dt_day start_time <= 31 -> 0 <= dt_hour start_time <= 23 ->
   exists forecast_df self',
     generate_forecast self features start_time forecast_hours true
       = Ok (forecast_df, self') /\
     (1 <= length forecast_df <= 72)%nat /\
     (1 <= forecast_hours <= 72 ->
      length forecast_df = Z.to_nat forecast_hours) /\
     (forall i pt, nth_error forecast_df i = Some pt ->
        fp_hour_offset pt = Z.of_nat i /\
        fp_timestamp pt = add_hours start_time (Z.of_nat i) /\
        1 <= dt_year (fp_timestamp pt) <= 9999 /\
        fp_season pt = get_season (fp_timestamp pt)) /\
     model self' = model self /\
     model_metrics self' = model_metrics self /\
     forecast_history self'
       = forecast_history self
         ++ [mk_history start_time (Z.of_nat (length forecast_df)) forecast_df]).
Proof.
  split.
  - intros Hnone include_patterns. unfold generate_forecast.
    rewrite Hnone. reflexivity.
  - intros predict Hmodel Hyear Hmonth Hday Hhour.
    pose proof (generate_forecast_table self predict features start_time
                  forecast_hours Hmodel) as Htable.
    pose proof (clamp_hours_bounds forecast_hours) as Hclamp.
    eexists _, _. split; [exact Htable|].
    rewrite length_map, range_length.
    split; [lia|]. split.
    { intros Hin. unfold clamp_hours.
      rewrite (proj2 (Z.ltb_ge forecast_hours 1)) by lia.
      rewrite (proj2 (Z.ltb_ge 72 forecast_hours)) by lia. reflexivity. }
    split.
    { intros i pt Hpt. apply range_map_nth in Hpt. destruct Hpt as [Hi ->].
      split; [reflexivity|]. split; [reflexivity|]. split; [|reflexivity].
      change (fp_timestamp (pattern_point predict (model_metrics self) features
                              start_time (Z.of_nat i)))
        with (add_hours start_time (Z.of_nat i)).
      apply add_hours_year_range; try assumption. lia. }
    cbn [model model_metrics forecast_history].
    split; [reflexivity|]. split; [reflexivity|].
    rewrite Z2Nat.id by lia. reflexivity.
Qed.

(** The bounds of every forecast point (patterns on): the lower bound is
    never negative, the width is the difference of the bounds and at most
    2 * 1.96 * RMSE; when the RMSE is not negative the forecast lies at or
    below the upper bound, and a forecast that is not negative lies at or
    above the lower bound. *)
Theorem forecast_point_bounds (self : ForecastingEngine)
    (predict : list Q -> Q) (features : list Q) (start_time : datetime)
    (forecast_hours : Z) :
  model self = Some predict ->
  exists forecast_df self',
    generate_forecast self features start_time forecast_hours true
      = Ok (forecast_df, self') /\
    forall i pt, nth_error forecast_df i = Some pt ->
      (0 <= fp_aqi_lower pt)%Q /\
      fp_confidence_interval_width pt
        = (fp_aqi_upper pt - fp_aqi_lower pt)%Q /\
      (fp_confidence_interval_width pt
       <= 2 * 1.96 * default 4.57 (model_metrics self !! "test_rmse"))%Q /\
      ((0 <= default 4.57 (model_metrics self !! "test_rmse"))%Q ->
       (fp_aqi_forecast pt <= fp_aqi_upper pt)%Q /\
       ((0 <= fp_aqi_forecast pt)%Q ->
        (fp_aqi_lower pt <= fp_aqi_forecast pt)%Q /\
        (fp_aqi_lower pt <= fp_aqi_upper pt)%Q)).
Proof.
  intros Hmodel.
  eexists _, _. split; [exact (generate_forecast_table _ _ _ _ _ Hmodel)|].
  intros i pt Hpt. apply range_map_nth in Hpt. destruct Hpt as [_ ->].
  cbv beta iota zeta
    delta [pattern_point fp_aqi_lower fp_aqi_upper fp_aqi_forecast
           fp_confidence_interval_width].
  set (aqi := composed_patterns _ _).
  set (rmse := default 4.57%Q (model_metrics self !! "test_rmse")).
  destruct (py_max_spec 0 (aqi - 1.96 * rmse)%Q) as [H0 Hlow].
  split; [exact H0|]. split; [reflexivity|].
  destruct (py_max_cases 0 (aqi - 1.96 * rmse)%Q) as [E | E]; rewrite E in *;
    repeat split; intros; lra.
Qed.

End PointProperties.

Lemma generate_forecast_horizon_witness :
  exists forecast_df self',
    generate_forecast (H := Sample.sample_numerics)
      (mk_engine (Some (fun _ => 100%Q)) ∅ []) [] (mk_datetime 2025 11 3 6)
      48 true = Ok (forecast_df, self') /\
    length forecast_df = 48%nat /\
    length (forecast_history self') = 1%nat.
Proof.
  destruct (proj2 (generate_forecast_horizon (H := Sample.sample_numerics)
                     (mk_engine (Some (fun _ => 100%Q)) ∅ []) []
                     (mk_datetime 2025 11 3 6) 48)
              (fun _ => 100%Q) eq_refl
              ltac:(cbn; lia) ltac:(cbn; lia) ltac:(cbn; lia) ltac:(cbn; lia))
    as (df & self' & Hrun & _ & Hlen & _ & _ & _ & Hhist).
  exists df, self'. split; [exact Hrun|].
  split; [apply Hlen; lia|]. rewrite Hhist. reflexivity.
Defined.

Lemma forecast_point_bounds_witness :
  exists forecast_df self',
    generate_forecast (H := Sample.sample_numerics)
      (mk_engine (Some (fun _ => 100%Q)) ∅ []) [] (mk_datetime 2025 11 3 6)
      3 true = Ok (forecast_df, self') /\
    forall i pt, nth_error forecast_df i = Some pt -> (0 <= fp_aqi_lower pt)%Q.
Proof.
  destruct (forecast_point_bounds (H := Sample.sample_numerics)
              (mk_engine (Some (fun _ => 100%Q)) ∅ []) (fun _ => 100%Q) []
              (mk_datetime 2025 11 3 6) 3 eq_refl)
    as (df & self' & Hrun & Hall).
  exists df, self'. split; [exact Hrun|].
  intros i pt Hpt. exact (proj1 (Hall i pt Hpt)).
Defined.

(** ** Weekends and the sign of the forecast *)

Section WeekendProperties.
Context `{numerics}.

Lemma add_seasonal_factor_nonneg (base_aqi : Q) (date : datetime) :
  (0 <= base_aqi)%Q -> (0 <= add_seasonal_factor base_aqi date)%Q.
Proof.
  intros Hb. unfold add_seasonal_factor.
  destruct (get_season_cases date) as [[-> _] | [[-> _] | [[-> _] | [-> _]]]].
  - change (SEASONAL_FACTORS !! "winter") with (Some 1.3%Q).
    cbn [default from_option]; unfold id. apply Qmult_le_0_compat; lra.
  - change (SEASONAL_FACTORS !! "spring") with (Some 1.0%Q).
    cbn [default from_option]; unfold id. apply Qmult_le_0_compat; lra.
  - change (SEASONAL_FACTORS !! "monsoon") with (Some 0.7%Q).
    cbn [default from_option]; unfold id. apply Qmult_le_0_compat; lra.
  - change (SEASONAL_FACTORS !! "autumn") with (Some 1.1%Q).
    cbn [default from_option]; unfold id. apply Qmult_le_0_compat; lra.
Qed.

Lemma add_weekly_variation_nonneg (base_aqi : Q) (is_weekend : bool) :
  (0 <= base_aqi)%Q -> (0 <= add_weekly_variation base_aqi is_weekend)%Q.
Proof.
  intros Hb. unfold add_weekly_variation, WEEKEND_REDUCTION.
  destruct is_weekend; [apply Qmult_le_0_compat; lra | exact Hb].
Qed.

Lemma add_rush_hour_peaks_ge (base_aqi : Q) (hour : Z) (is_weekday : bool) :
  (base_aqi <= add_rush_hour_peaks base_aqi hour is_weekday)%Q.
Proof.
  destruct is_weekday.
  - destruct (add_rush_hour_peaks_weekday base_aqi hour)
      as (boost & -> & [[_ Hb] | [_ ->]]); lra.
  - change (add_rush_hour_peaks base_aqi hour false) with base_aqi. lra.
Qed.

(** On a weekend point the weekend reduction is applied and the rush-hour
    boost is not, also when the point is flagged [is_rush_hour]: the flag
    depends on the hour alone (7, 8, 9, 19, 20 or 21), the boost on the
    weekday as well. *)
Theorem weekend_points_carry_no_rush_boost (self : ForecastingEngine)
    (predict : list Q -> Q) (features : list Q) (start_time : datetime)
    (forecast_hours : Z) :
  model self = Some predict ->
  exists forecast_df self',
    generate_forecast self features start_time forecast_hours true
      = Ok (forecast_df, self') /\
    forall i pt, nth_error forecast_df i = Some pt ->
      let t := fp_timestamp pt in
      (fp_is_weekend pt = true <-> 5 <= weekday t) /\
      (fp_is_rush_hour pt = true <->
       7 <= dt_hour t <= 9 \/ 19 <= dt_hour t <= 21) /\
      (fp_is_weekend pt = true ->
       fp_aqi_forecast pt
       = add_diurnal_pattern
           (add_seasonal_factor (fp_base_aqi pt) t * WEEKEND_REDUCTION)%Q
           (dt_hour t)) /\
      (fp_is_weekend pt = false ->
       fp_aqi_forecast pt
       = add_rush_hour_peaks
           (add_diurnal_pattern (add_seasonal_factor (fp_base_aqi pt) t)
              (dt_hour t))
           (dt_hour t) true).
Proof.
  intros Hmodel.
  eexists _, _. split; [exact (generate_forecast_table _ _ _ _ _ Hmodel)|].
  intros i pt Hpt. apply range_map_nth in Hpt. destruct Hpt as [_ ->].
  cbv beta iota zeta
    delta [pattern_point composed_patterns fp_timestamp fp_is_weekend
           fp_is_rush_hour fp_aqi_forecast fp_base_aqi].
  set (t := add_hours start_time (Z.of_nat i)).
  split.
  { rewrite negb_true_iff, Z.ltb_ge. reflexivity. }
  split.
  { cbn [existsb]. rewrite !orb_true_iff, !Z.eqb_eq. lia. }
  split.
  - intros Hwe. apply negb_true_iff in Hwe. rewrite Hwe. reflexivity.
  - intros Hwd. apply negb_false_iff in Hwd. rewrite Hwd. reflexivity.
Qed.

(** A forecast from a base prediction that is not negative is never
    negative, provided the cosine is at least -1 at the angles of the hours
    of the horizon; with an RMSE that is not negative every point then
    satisfies 0 <= lower <= forecast <= upper. *)
Theorem forecast_nonnegative (self : ForecastingEngine)
    (predict : list Q -> Q) (features : list Q) (start_time : datetime)
    (forecast_hours : Z) :
  model self = Some predict ->
  (0 <= predict features)%Q ->
  (forall i, (i < Z.to_nat (clamp_hours forecast_hours))%nat ->
     (-1 <= np_cos (inject_Z (dt_hour (add_hours start_time (Z.of_nat i)) - 14)
                    * (2 * np_pi / 24)))%Q) ->
  (0 <= default 4.57 (model_metrics self !! "test_rmse"))%Q ->
  exists forecast_df self',
    generate_forecast self features start_time forecast_hours true
      = Ok (forecast_df, self') /\
    forall i pt, nth_error forecast_df i = Some pt ->
      (0 <= fp_aqi_lower pt)%Q /\
      (fp_aqi_lower pt <= fp_aqi_forecast pt)%Q /\
      (fp_aqi_forecast pt <= fp_aqi_upper pt)%Q.
Proof.
  intros Hmodel Hbase Hcos Hrmse.
  eexists _, _. split; [exact (generate_forecast_table _ _ _ _ _ Hmodel)|].
  intros i pt Hpt. apply range_map_nth in Hpt. destruct Hpt as [Hi ->].
  cbv beta iota zeta
    delta [pattern_point fp_aqi_lower fp_aqi_upper fp_aqi_forecast].
  specialize (Hcos i Hi).
  set (t := add_hours start_time (Z.of_nat i)) in *.
  set (rmse := default 4.57%Q (model_metrics self !! "test_rmse")) in *.
  assert (Haqi : (0 <= composed_patterns (predict features) t)%Q).
  { unfold composed_patterns. cbv zeta.
    eapply Qle_trans; [|apply add_rush_hour_peaks_ge].
    rewrite add_diurnal_pattern_factor.
    apply Qmult_le_0_compat.
    - apply add_weekly_variation_nonneg, add_seasonal_factor_nonneg, Hbase.
    - lra. }
  set (aqi := composed_patterns (predict features) t) in *.
  destruct (py_max_spec 0 (aqi - 1.96 * rmse)%Q) as [H0 _].
  split; [exact H0|].
  destruct (py_max_cases 0 (aqi - 1.96 * rmse)%Q) as [E | E]; rewrite E;
    split; lra.
Qed.

End WeekendProperties.

Lemma weekend_points_carry_no_rush_boost_witness :
  exists forecast_df self',
    generate_forecast (H := Sample.sample_numerics)
      (mk_engine (Some (fun _ => 100%Q)) ∅ []) [] (mk_datetime 2025 11 8 7)
      2 true = Ok (forecast_df, self') /\
    length forecast_df = 2%nat.
Proof.
  destruct (weekend_points_carry_no_rush_boost (H := Sample.sample_numerics)
              (mk_engine (Some (fun _ => 100%Q)) ∅ []) (fun _ => 100%Q) []
              (mk_datetime 2025 11 8 7) 2 eq_refl)
    as (df & self' & Hrun & _).
  exists df, self'. split; [exact Hrun|].
  rewrite (generate_forecast_table (H := Sample.sample_numerics)
             (mk_engine (Some (fun _ => 100%Q)) ∅ []) (fun _ => 100%Q)
             [] (mk_datetime 2025 11 8 7) 2 eq_refl) in Hrun.
  injection Hrun as <- _. reflexivity.
Defined.

Lemma forecast_nonnegative_witness :
  exists forecast_df self',
    generate_forecast (H := Sample.sample_numerics)
      (mk_engine (Some (fun _ => 100%Q)) ∅ []) [] (mk_datetime 2025 11 3 6)
      3 true = Ok (forecast_df, self') /\
    forall i pt, nth_error forecast_df i = Some pt ->
      (0 <= fp_aqi_lower pt)%Q /\
      (fp_aqi_lower pt <= fp_aqi_forecast pt)%Q /\
      (fp_aqi_forecast pt <= fp_aqi_upper pt)%Q.
Proof.
  apply (forecast_nonnegative (H := Sample.sample_numerics)
           (mk_engine (Some (fun _ => 100%Q)) ∅ []) (fun _ => 100%Q) []
           (mk_datetime 2025 11 3 6) 3 eq_refl).
  - vm_compute. discriminate.
  - intros i Hi. change (Z.to_nat (clamp_hours 3)) with 3%nat in Hi.
    destruct i as [|[|[|i]]]; [| | |lia]; vm_compute; discriminate.
  - vm_compute. discriminate.
Defined.

(** ** The LSTM windows *)

Lemma py_slice_inside {A} (l : list A) (a b : Z) :
  0 <= a <= b -> b <= Z.of_nat (length l) ->
  py_slice l a b = firstn (Z.to_nat (b - a)) (skipn (Z.to_nat a) l).
Proof.
  intros Hab Hb. unfold py_slice, slice_bound.
  rewrite (proj2 (Z.ltb_ge a 0)) by lia.
  rewrite (proj2 (Z.ltb_ge b 0)) by lia.
  now rewrite !Z.min_l by lia.
Qed.

(** [_create_sequences] returns one window per row from position
    [lookback] on, none when the batch has at most [lookback] rows; window
    [j] holds exactly the [lookback] rows [X[j]], ..., [X[j+lookback-1]]
    that precede row [lookback + j]. *)
Theorem create_sequences_windows (X : list (list Q)) (lookback : Z) :
  0 <= lookback ->
  length (_create_sequences X lookback)
    = Z.to_nat (Z.of_nat (length X) - lookback) /\
  forall j window, nth_error (_create_sequences X lookback) j = Some window ->
    length window = Z.to_nat lookback /\
    forall i, (i < Z.to_nat lookback)%nat ->
      nth_error window i = nth_error X (j + i).
Proof.
  intros Hlb. unfold _create_sequences. split.
  - now rewrite length_map, range2_length.
  - intros j window Hw.
    assert (Hj : (j < Z.to_nat (Z.of_nat (length X) - lookback))%nat).
    { rewrite <- range2_length, <- (length_map (fun i => py_slice X (i - lookback) i)).
      apply nth_error_Some. congruence. }
    rewrite nth_error_map, (range2_nth _ _ _ Hj) in Hw. cbn in Hw.
    injection Hw as <-.
    rewrite py_slice_inside by lia.
    replace (lookback + Z.of_nat j - (lookback + Z.of_nat j - lookback))
      with lookback by lia.
    replace (Z.to_nat (lookback + Z.of_nat j - lookback)) with j by lia.
    split.
    + rewrite length_firstn, length_skipn. lia.
    + intros i Hi. rewrite nth_error_firstn, nth_error_skipn.
      destruct (Nat.ltb_spec i (Z.to_nat lookback)); [reflexivity | lia].
Qed.

Lemma create_sequences_windows_witness :
  length (_create_sequences [[1%Q]; [2%Q]; [3%Q]; [4%Q]; [5%Q]] 2) = 3%nat.
Proof.
  exact (proj1 (create_sequences_windows
                  [[1%Q]; [2%Q]; [3%Q]; [4%Q]; [5%Q]] 2 ltac:(lia))).
Defined.

Example create_sequences_sample :
  _create_sequences [[1%Q]; [2%Q]; [3%Q]; [4%Q]] 2
  = [[[1%Q]; [2%Q]]; [[2%Q]; [3%Q]]].
Proof. reflexivity. Qed.

Example create_sequences_short_batch :
  _create_sequences [[1%Q]; [2%Q]] 24 = [].
Proof. reflexivity. Qed.

(** ** More on the spatial interpolation *)

Section InterpolationShape.
Context `{numerics}.

(** The parts of a returned interpolation result. *)
Lemma predict_spatial_interpolation_shape (target_lat target_lon : Q)
    (station_data : list station) (k_nearest idw_power : Z)
    (ns : list station) (nd : list Q) (r : interpolation_result) :
  select_nearest target_lat target_lon station_data
    (clamp_k (length station_data) k_nearest) = Ok (ns, nd) ->
  ns <> [] ->
  predict_spatial_interpolation target_lat target_lon station_data k_nearest
    idw_power = Ok r ->
  exists ws m,
    py_min_list nd = Ok m /\
    length nd = length ns /\
    length ws = length ns /\
    ir_nearest_stations r = contributors nd ns ws /\
    ir_k_nearest r = clamp_k (length station_data) k_nearest /\
    ((Qltb m 0.1 = true /\
      exists closest, In closest ns /\ ir_interpolated_aqi r = aqi closest) \/
     (Qltb m 0.1 = false /\
      ws = idw_weights nd idw_power /\
      ir_interpolated_aqi r
      = py_sum (map (fun q => (fst q * aqi (snd q))%Q) (combine ws ns)))).
Proof.
  intros Hsel Hne Hr.
  destruct (predict_spatial_interpolation_cases target_lat target_lon
              station_data k_nearest idw_power ns nd Hsel Hne)
    as (first & m & _ & Hlen & Hmin & Hcases).
  destruct Hcases as [(Hnear & closest & Hc & _ & Hpsi) | (Hfar & Hpsi)];
    rewrite Hpsi in Hr.
  - destruct (tolist (features closest)) as [feats|e]; [|discriminate].
    rewrite result_bind_ok in Hr. injection Hr as <-.
    eexists _, m. split; [exact Hmin|]. split; [exact Hlen|].
    split; [|split; [reflexivity|split; [reflexivity|]]].
    + now rewrite length_map, length_seq.
    + left. split; [exact Hnear|]. exists closest.
      split; [eapply nth_error_In; exact Hc | reflexivity].
  - destruct (accumulate_features _ _) as [feats|e]; [|discriminate].
    rewrite result_bind_ok in Hr. injection Hr as <-.
    eexists _, m. split; [exact Hmin|]. split; [exact Hlen|].
    split; [|split; [reflexivity|split; [reflexivity|]]].
    + now rewrite idw_weights_length.
    + right. split; [exact Hfar|]. split; reflexivity.
Qed.

Lemma py_take_length_any {A} (l : list A) (k : Z) :
  length (py_take k l)
  = Z.to_nat (if k <? 0 then Z.max (k + Z.of_nat (length l)) 0
              else Z.min k (Z.of_nat (length l))).
Proof.
  unfold py_take, py_slice, slice_bound.
  change (0 <? 0) with false. cbv iota.
  rewrite (Z.min_l 0 (Z.of_nat (length l))) by lia.
  change (Z.to_nat 0) with 0%nat.
  rewrite skipn_O, length_firstn.
  destruct (Z.ltb_spec k 0); lia.
Qed.

(** A [k_nearest] that is not positive: 0 selects nothing and the call
    raises IndexError also when stations are given; a negative k is not
    clamped, drops the |k| farthest stations (raising IndexError when none
    is left) and is reported as it was passed. *)
Theorem predict_spatial_interpolation_nonpositive_k
    (target_lat target_lon : Q) (station_data : list station)
    (k_nearest idw_power : Z) :
  k_nearest <= 0 ->
  (Z.of_nat (length station_data) + k_nearest <= 0 \/ k_nearest = 0 ->
   predict_spatial_interpolation target_lat target_lon station_data
     k_nearest idw_power = Raise IndexError) /\
  (k_nearest < 0 -> 0 < Z.of_nat (length station_data) + k_nearest ->
   forall r,
     predict_spatial_interpolation target_lat target_lon station_data
       k_nearest idw_power = Ok r ->
     ir_k_nearest r = k_nearest /\
     length (ir_nearest_stations r)
       = Z.to_nat (Z.of_nat (length station_data) + k_nearest)).
Proof.
  intros Hk.
  assert (Hclamp : clamp_k (length station_data) k_nearest = k_nearest).
  { unfold clamp_k. rewrite (proj2 (Z.ltb_ge _ _)) by lia. reflexivity. }
  destruct (select_nearest_ok target_lat target_lon station_data
              (clamp_k (length station_data) k_nearest))
    as (ns & nd & Hsel & Hcount & _ & _).
  rewrite Hclamp, py_take_length_any, np_argsort_length in Hcount.
  unfold station_distances in Hcount. rewrite length_map in Hcount.
  split.
  - intros Hnone.
    assert (Hns : ns = []).
    { destruct ns; [reflexivity|]. cbn [length] in Hcount.
      destruct (Z.ltb_spec k_nearest 0); lia. }
    subst ns.
    rewrite (predict_spatial_interpolation_selected _ _ _ _ _ _ _ Hsel).
    reflexivity.
  - intros Hneg Hleft r Hr.
    rewrite (proj2 (Z.ltb_lt k_nearest 0) Hneg) in Hcount.
    assert (Hns : ns <> []) by (intros ->; cbn [length] in Hcount; lia).
    destruct (predict_spatial_interpolation_shape _ _ _ _ _ _ _ _ Hsel Hns Hr)
      as (ws & m & _ & Hlen & Hws & Hcs & Hkr & _).
    split; [now rewrite Hkr|].
    rewrite Hcs, contributors_length by assumption. lia.
Qed.

End InterpolationShape.

Lemma predict_spatial_interpolation_nonpositive_k_witness :
  predict_spatial_interpolation (H := Sample.sample_numerics) 28.65 77.25
    (sample_stations PyList) 0 2 = Raise IndexError.
Proof.
  apply (predict_spatial_interpolation_nonpositive_k
           (H := Sample.sample_numerics) 28.65 77.25 (sample_stations PyList)
           0 2); [lia | right; reflexivity].
Defined.

Example negative_k_drops_the_farthest :
  exists r,
    predict_spatial_interpolation (H := Sample.sample_numerics) 28.65 77.25
      (sample_stations PyList) (-1) 2 = Ok r /\
    ir_k_nearest r = -1 /\
    map contributor_aqi (ir_nearest_stations r) = [120%Q; 95%Q].
Proof.
  eexists. split; [vm_compute; reflexivity|]. split; reflexivity.
Qed.

(** *** The interpolated value lies among the contributing values *)

Lemma weighted_sum_between (lo hi : Q) (ns : list station) :
  forall ws,
    length ws = length ns ->
    Forall (fun w => 0 <= w)%Q ws ->
    Forall (fun s => lo <= aqi s <= hi)%Q ns ->
    (lo * py_sum ws
     <= py_sum (map (fun q => (fst q * aqi (snd q))%Q) (combine ws ns))
     <= hi * py_sum ws)%Q.
Proof.
  induction ns as [|s ns IH]; intros [|w ws] Hlen Hws Hns; try discriminate.
  - unfold py_sum. cbn. lra.
  - injection Hlen as Hlen.
    inversion Hws as [|? ? Hw Hws']; subst.
    inversion Hns as [|? ? [Hlo Hhi] Hns']; subst.
    specialize (IH ws Hlen Hws' Hns').
    cbn [combine map fst snd]. rewrite !py_sum_cons.
    assert (H1 : (lo * w <= w * aqi s)%Q).
    { rewrite (Qmult_comm w). apply Qmult_le_compat_r; assumption. }
    assert (H2 : (w * aqi s <= hi * w)%Q).
    { rewrite (Qmult_comm w). apply Qmult_le_compat_r; assumption. }
    split.
    + rewrite Qmult_plus_distr_r.
      apply Qplus_le_compat; [exact H1 | exact (proj1 IH)].
    + rewrite Qmult_plus_distr_r.
      apply Qplus_le_compat; [exact H2 | exact (proj2 IH)].
Qed.

Lemma idw_weights_positive (nd : list Q) (p : Z) :
  nd <> [] -> Forall (fun d => 0.1 <= d)%Q nd ->
  Forall (fun w => 0 < w)%Q (idw_weights nd p).
Proof.
  intros Hne Hnd. unfold idw_weights. cbv zeta.
  pose proof (total_weight_positive nd p Hne Hnd) as Htotal.
  apply Forall_map.
  apply (List.Forall_impl _ (P := fun w => (0 < w)%Q));
    [|apply raw_weights_positive; exact Hnd].
  intros w Hw. cbn beta. apply Qlt_shift_div_l; [exact Htotal | lra].
Qed.

Lemma far_selection (nd : list Q) (m : Q) :
  py_min_list nd = Ok m -> Qltb m 0.1 = false ->
  nd <> [] /\ Forall (fun d => 0.1 <= d)%Q nd.
Proof.
  intros Hmin Hfar. apply Qltb_ge in Hfar. split.
  - intros ->. discriminate.
  - apply List.Forall_forall. intros d Hd.
    pose proof (py_min_list_le nd m Hmin d Hd). lra.
Qed.

Section InterpolationValue.
Context `{numerics}.

Lemma returned_selection (target_lat target_lon : Q)
    (station_data : list station) (k_nearest idw_power : Z)
    (r : interpolation_result) :
  predict_spatial_interpolation target_lat target_lon station_data k_nearest
    idw_power = Ok r ->
  exists ns nd,
    select_nearest target_lat target_lon station_data
      (clamp_k (length station_data) k_nearest) = Ok (ns, nd) /\
    ns <> [].
Proof.
  intros Hr.
  destruct (select_nearest_ok target_lat target_lon station_data
              (clamp_k (length station_data) k_nearest))
    as (ns & nd & Hsel & _).
  exists ns, nd. split; [exact Hsel|]. intros ->.
  rewrite (predict_spatial_interpolation_selected _ _ _ _ _ _ _ Hsel) in Hr.
  discriminate.
Qed.

(** Whenever the interpolation returns, the interpolated AQI lies between
    any two bounds that enclose the AQI values of the contributors it
    reports: it is one of those values, or a weighted mean of them with
    positive weights. *)
Theorem interpolated_aqi_between (target_lat target_lon : Q)
    (station_data : list station) (k_nearest idw_power : Z)
    (r : interpolation_result) (lo hi : Q) :
  predict_spatial_interpolation target_lat target_lon station_data k_nearest
    idw_power = Ok r ->
  (forall c, In c (ir_nearest_stations r) ->
     (lo <= contributor_aqi c <= hi)%Q) ->
  (lo <= ir_interpolated_aqi r <= hi)%Q.
Proof.
  intros Hr Hbounds.
  destruct (returned_selection _ _ _ _ _ _ Hr) as (ns & nd & Hsel & Hne).
  destruct (predict_spatial_interpolation_shape _ _ _ _ _ _ _ _ Hsel Hne Hr)
    as (ws & m & Hmin & Hlen & Hws & Hcs & _ & Hcases).
  destruct (contributors_fields ns nd ws Hlen Hws) as (_ & Haqi & _ & _).
  assert (Hns : Forall (fun s => lo <= aqi s <= hi)%Q ns).
  { apply List.Forall_forall. intros s Hs.
    assert (Hin : In (aqi s) (map contributor_aqi (ir_nearest_stations r))).
    { rewrite Hcs, Haqi. now apply in_map. }
    apply in_map_iff in Hin. destruct Hin as (c & <- & Hc). now apply Hbounds. }
  destruct Hcases as [(_ & closest & Hin & ->) | (Hfar & -> & ->)].
  - exact (proj1 (List.Forall_forall _ ns) Hns closest Hin).
  - destruct (far_selection nd m Hmin Hfar) as [Hnd_ne Hnd].
    pose proof (idw_weights_positive nd idw_power Hnd_ne Hnd) as Hpos.
    pose proof (idw_weights_sum nd idw_power Hnd_ne Hnd) as Hsum.
    assert (Hnonneg : Forall (fun w => 0 <= w)%Q (idw_weights nd idw_power)).
    { apply (List.Forall_impl _ (P := fun w => (0 < w)%Q)); [|exact Hpos].
      intros w Hw. lra. }
    pose proof (weighted_sum_between lo hi ns _ Hws Hnonneg Hns) as Hbetween.
    rewrite Hsum in Hbetween. lra.
Qed.

End InterpolationValue.

Lemma interpolated_aqi_between_witness :
  exists r,
    predict_spatial_interpolation (H := Sample.sample_numerics) 28.65 77.25
      (sample_stations PyList) 3 2 = Ok r /\
    (95 <= ir_interpolated_aqi r <= 140)%Q.
Proof.
  eexists. split; [vm_compute; reflexivity|].
  eapply (interpolated_aqi_between (H := Sample.sample_numerics) 28.65 77.25
            (sample_stations PyList) 3 2).
  - vm_compute. reflexivity.
  - intros c Hc. cbn [ir_nearest_stations] in Hc.
    destruct Hc as [<- | [<- | [<- | []]]]; split; vm_compute; discriminate.
Defined.

(** *** The stations selected are the nearest ones *)

Lemma insert_by_key_Permutation (p : Q * nat) (l : list (Q * nat)) :
  Permutation (insert_by_key p l) (p :: l).
Proof.
  induction l as [|q l IH]; simpl; [reflexivity|].
  destruct (Qleb (fst p) (fst q)); [reflexivity|].
  rewrite IH. apply perm_swap.
Qed.

Lemma insert_by_key_sorted (p : Q * nat) (l : list (Q * nat)) :
  StronglySorted by_key l -> StronglySorted by_key (insert_by_key p l).
Proof.
  induction 1 as [|q l Hl IH Hq]; simpl.
  - constructor; constructor.
  - destruct (Qleb (fst p) (fst q)) eqn:E.
    + apply Qleb_le in E. constructor; [constructor; assumption|].
      constructor; [exact E|].
      apply (List.Forall_impl _ (P := by_key q)); [|exact Hq].
      intros x Hx. unfold by_key in *. lra.
    + apply Qleb_gt in E. constructor; [exact IH|].
      apply insert_by_key_Forall; [unfold by_key; lra | exact Hq].
Qed.

Lemma sort_pairs_sorted (l : list (Q * nat)) :
  StronglySorted by_key (fold_right insert_by_key [] l).
Proof.
  induction l as [|p l IH]; simpl; [constructor|].
  now apply insert_by_key_sorted.
Qed.

Lemma sort_pairs_Permutation (l : list (Q * nat)) :
  Permutation (fold_right insert_by_key [] l) l.
Proof.
  induction l as [|p l IH]; simpl; [reflexivity|].
  rewrite insert_by_key_Permutation. now constructor.
Qed.

Lemma combine_seq_lookup (values : list Q) :
  forall start,
    Forall (fun p => nth_error values (snd p - start) = Some (fst p)
                     /\ (start <= snd p)%nat)
           (combine values (seq start (length values))).
Proof.
  induction values as [|v values IH]; intros start; simpl; constructor.
  - cbn. rewrite Nat.sub_diag. split; [reflexivity | lia].
  - apply (List.Forall_impl _ (P := fun p =>
              nth_error values (snd p - S start) = Some (fst p)
              /\ (S start <= snd p)%nat)); [|apply IH].
    intros [d i] [Hd Hi]. cbn [fst snd] in *. split; [|lia].
    replace (i - start)%nat with (S (i - S start)) by lia. exact Hd.
Qed.

Lemma map_fst_combine_seq (values : list Q) (start : nat) :
  map fst (combine values (seq start (length values))) = values.
Proof.
  revert start. induction values as [|v values IH]; intros start; simpl;
    [reflexivity | now rewrite IH].
Qed.

Lemma lookups_of_pairs (values : list Q) (pairs : list (Q * nat)) :
  Forall (fun p => nth_error values (snd p) = Some (fst p)) pairs ->
  forall ys,
    Forall2 (fun i y => nth_error values i = Some y) (map snd pairs) ys ->
    ys = map fst pairs.
Proof.
  induction 1 as [|p pairs Hp Hrest IH]; intros ys Hys;
    inversion Hys; subst; simpl.
  - reflexivity.
  - f_equal; [congruence | now apply IH].
Qed.

Lemma StronglySorted_app_le {A} (R : A -> A -> Prop) (l1 l2 : list A) :
  StronglySorted R (l1 ++ l2) ->
  StronglySorted R l1 /\
  forall x y, In x l1 -> In y l2 -> R x y.
Proof.
  induction l1 as [|a l1 IH]; simpl; intros Hs.
  - split; [constructor | intros x y []].
  - apply StronglySorted_inv in Hs. destruct Hs as [Hs Ha].
    destruct (IH Hs) as [Hs1 Hcross]. split.
    + constructor; [exact Hs1|].
      apply Forall_app in Ha. exact (proj1 Ha).
    + intros x y [<- | Hx] Hy; [|now apply Hcross].
      apply Forall_app in Ha.
      exact (proj1 (List.Forall_forall _ _) (proj2 Ha) y Hy).
Qed.

Lemma py_take_is_prefix {A} (l : list A) (k : Z) :
  py_take k l = firstn (length (py_take k l)) l.
Proof.
  unfold py_take, py_slice, slice_bound.
  change (0 <? 0) with false. cbv iota.
  rewrite (Z.min_l 0 (Z.of_nat (length l))) by lia.
  change (Z.to_nat 0) with 0%nat. rewrite skipn_O.
  rewrite length_firstn.
  set (n := Z.to_nat _).
  destruct (Nat.le_ge_cases n (length l)) as [Hn | Hn].
  - now rewrite Nat.min_l.
  - rewrite Nat.min_r by exact Hn. now rewrite !firstn_all2 by lia.
Qed.

Section NearestProperties.
Context `{numerics}.

(** The distances reported for the contributors are in ascending order
    and are the smallest of all station distances: together with the
    distances of the stations left out they make up the distances of all
    stations, and none of those left out is smaller than one reported. *)
Theorem contributors_are_the_nearest (target_lat target_lon : Q)
    (station_data : list station) (k_nearest idw_power : Z)
    (r : interpolation_result) :
  predict_spatial_interpolation target_lat target_lon station_data k_nearest
    idw_power = Ok r ->
  StronglySorted Qle (map distance_km (ir_nearest_stations r)) /\
  exists left_out,
    Permutation (map distance_km (ir_nearest_stations r) ++ left_out)
      (station_distances target_lat target_lon station_data) /\
    forall d d', In d (map distance_km (ir_nearest_stations r)) ->
                 In d' left_out -> (d <= d')%Q.
Proof.
  intros Hr.
  destruct (returned_selection _ _ _ _ _ _ Hr) as (ns & nd & Hsel & Hne).
  destruct (predict_spatial_interpolation_shape _ _ _ _ _ _ _ _ Hsel Hne Hr)
    as (ws & m & _ & Hlen & Hws & Hcs & _ & _).
  destruct (contributors_fields ns nd ws Hlen Hws) as (Hd & _ & _ & _).
  rewrite Hcs, Hd. clear Hr Hcs Hd Hws ws r.
  set (distances := station_distances target_lat target_lon station_data) in *.
  set (k := clamp_k (length station_data) k_nearest) in *.
  set (pairs := fold_right insert_by_key []
                  (combine distances (seq 0 (length distances)))).
  assert (Hlook : Forall (fun p => nth_error distances (snd p) = Some (fst p))
                         pairs).
  { apply sort_pairs_Forall.
    eapply List.Forall_impl; [|exact (combine_seq_lookup distances 0%nat)].
    intros [d i] [Hd _]. cbn [fst snd] in *.
    now rewrite Nat.sub_0_r in Hd. }
  assert (Hnd : nd = map fst (firstn (length (py_take k (np_argsort distances)))
                                pairs)).
  { unfold select_nearest in Hsel. fold distances in Hsel.
    destruct (mapM_py_index distances (py_take k (np_argsort distances)))
      as (nd' & Hnd' & Hall).
    { apply py_slice_Forall, np_argsort_bounds. }
    destruct (mapM (py_index station_data) _) as [ns'|]; [|discriminate].
    rewrite result_bind_ok, Hnd', result_bind_ok in Hsel.
    injection Hsel as _ <-.
    rewrite py_take_is_prefix in Hall.
    set (n := length (py_take k (np_argsort distances))) in *.
    unfold np_argsort in Hall. fold pairs in Hall.
    rewrite firstn_map in Hall.
    apply (lookups_of_pairs distances); [|exact Hall].
    apply Forall_take. exact Hlook. }
  set (n := length (py_take k (np_argsort distances))) in *.
  pose proof (sort_pairs_sorted (combine distances (seq 0 (length distances))))
    as Hsorted.
  fold pairs in Hsorted. rewrite <- (firstn_skipn n pairs) in Hsorted.
  destruct (StronglySorted_app_le _ _ _ Hsorted) as [Hprefix Hcross].
  split.
  - rewrite Hnd. clear -Hprefix.
    induction Hprefix as [|p l Hl IH Hp]; simpl; constructor; [exact IH|].
    apply Forall_map.
    eapply List.Forall_impl; [|exact Hp]. intros q Hq. exact Hq.
  - exists (map fst (skipn n pairs)). split.
    + rewrite Hnd, <- map_app, firstn_skipn. unfold pairs.
      rewrite sort_pairs_Permutation, map_fst_combine_seq. reflexivity.
    + intros d d' Hin Hin'. rewrite Hnd in Hin.
      apply in_map_iff in Hin. destruct Hin as (p & <- & Hp).
      apply in_map_iff in Hin'. destruct Hin' as (q & <- & Hq).
      exact (Hcross p q Hp Hq).
Qed.

End NearestProperties.

Lemma contributors_are_the_nearest_witness :
  exists r,
    predict_spatial_interpolation (H := Sample.sample_numerics) 28.65 77.25
      (sample_stations PyList) 2 2 = Ok r /\
    StronglySorted Qle (map distance_km (ir_nearest_stations r)).
Proof.
  eexists. split; [vm_compute; reflexivity|].
  eapply (proj1 (contributors_are_the_nearest (H := Sample.sample_numerics)
                   28.65 77.25 (sample_stations PyList) 2 2 _ _)).
  Unshelve. vm_compute. reflexivity.
Defined.

(** *** Distance decay of the weights *)

Lemma Qpower_positive_le_base (a b : Q) (n : positive) :
  (0 <= a <= b)%Q -> (Qpower_positive a n <= Qpower_positive b n)%Q.
Proof.
  intros [Ha Hab]. induction n as [|n IH] using Pos.peano_ind.
  - exact Hab.
  - rewrite <- !Pos.add_1_l, !Qpower_plus_positive.
    apply Qmult_le_compat_nonneg.
    + split; [exact Ha | exact Hab].
    + split; [apply Qpower_pos_positive; exact Ha | exact IH].
Qed.

Lemma Qpower_le_base (a b : Q) (p : Z) :
  0 <= p -> (0 <= a <= b)%Q -> (a ^ p <= b ^ p)%Q.
Proof.
  intros Hp Hab. destruct p as [|n|n]; [cbn; lra | | lia].
  now apply Qpower_positive_le_base.
Qed.

Lemma inverse_power_decreasing (d1 d2 : Q) (p : Z) :
  0 <= p -> (0 < d1 <= d2)%Q -> (1 / d2 ^ p <= 1 / d1 ^ p)%Q.
Proof.
  intros Hp [Hd1 Hd12].
  assert (H1 : (0 < d1 ^ p)%Q) by (apply Qpower_0_lt; exact Hd1).
  assert (H2 : (0 < d2 ^ p)%Q) by (apply Qpower_0_lt; lra).
  assert (Hle : (d1 ^ p <= d2 ^ p)%Q) by (apply Qpower_le_base; [lia | lra]).
  apply Qle_shift_div_l; [exact H1|].
  unfold Qdiv. rewrite Qmult_1_l, Qmult_comm.
  apply Qle_shift_div_r; [exact H2 | lra].
Qed.

Lemma py_sum_ge_member (l : list Q) (x : Q) :
  Forall (fun w => 0 <= w)%Q l -> In x l -> (x <= py_sum l)%Q.
Proof.
  induction 1 as [|w l Hw Hl IH]; intros Hin; [destruct Hin|].
  rewrite py_sum_cons.
  assert (Hsum : (0 <= py_sum l)%Q).
  { clear -Hl. induction Hl as [|y l Hy Hl IH]; [unfold py_sum; cbn; lra|].
    rewrite py_sum_cons. lra. }
  destruct Hin as [<- | Hin]; [lra|]. specialize (IH Hin). lra.
Qed.

Section DecayProperties.
Context `{numerics}.

(** On the weighted path (every selected station at 0.1 km or more) with a
    power that is not negative, every reported weight lies in (0, 1] and a
    contributor that is no farther than another has a weight that is no
    smaller. *)
Theorem idw_weights_decay (target_lat target_lon : Q)
    (station_data : list station) (k_nearest idw_power : Z)
    (r : interpolation_result) :
  non_degenerate target_lat target_lon station_data k_nearest = true ->
  0 <= idw_power ->
  predict_spatial_interpolation target_lat target_lon station_data k_nearest
    idw_power = Ok r ->
  forall c1 c2, In c1 (ir_nearest_stations r) -> In c2 (ir_nearest_stations r) ->
    (0 < weight c1 <= 1)%Q /\
    ((distance_km c1 <= distance_km c2)%Q -> (weight c2 <= weight c1)%Q).
Proof.
  intros Hquery Hp Hr c1 c2 Hc1 Hc2.
  destruct (non_degenerate_selected _ _ _ _ Hquery)
    as (ns & nd & Hsel & Hne & Hfar).
  destruct (predict_spatial_interpolation_shape _ _ _ _ _ _ _ _ Hsel Hne Hr)
    as (ws & m & Hmin & Hlen & Hws & Hcs & _ & Hcases).
  assert (Hm : (0.1 <= m)%Q).
  { exact (proj1 (List.Forall_forall _ nd) Hfar m (py_min_list_bound nd m Hmin)). }
  destruct Hcases as [(Hnear & _) | (_ & -> & _)];
    [apply Qltb_lt in Hnear; lra|].
  assert (Hnd_ne : nd <> []) by (intros ->; destruct ns; [congruence | discriminate]).
  pose proof (idw_weights_positive nd idw_power Hnd_ne Hfar) as Hpos.
  pose proof (idw_weights_sum nd idw_power Hnd_ne Hfar) as Hsum.
  rewrite Hcs in Hc1, Hc2.
  apply In_nth_error in Hc1. destruct Hc1 as (i1 & Hc1).
  apply In_nth_error in Hc2. destruct Hc2 as (i2 & Hc2).
  destruct (contributors_nth _ _ _ _ _ Hc1) as (d1 & s1 & w1 & Hd1 & _ & Hw1 & ->).
  destruct (contributors_nth _ _ _ _ _ Hc2) as (d2 & s2 & w2 & Hd2 & _ & Hw2 & ->).
  cbn [weight distance_km].
  assert (Hw1pos : (0 < w1)%Q).
  { apply nth_error_In in Hw1.
    exact (proj1 (List.Forall_forall _ _) Hpos w1 Hw1). }
  split.
  - split; [exact Hw1pos|]. rewrite <- Hsum.
    apply py_sum_ge_member; [|eapply nth_error_In; exact Hw1].
    eapply List.Forall_impl; [|exact Hpos]. intros w Hw. cbn beta in Hw. lra.
  - intros Hd.
    destruct (idw_weights_nth nd idw_power i1 w1 Hw1) as (d1' & Hd1' & ->).
    destruct (idw_weights_nth nd idw_power i2 w2 Hw2) as (d2' & Hd2' & ->).
    rewrite Hd1 in Hd1'. injection Hd1' as <-.
    rewrite Hd2 in Hd2'. injection Hd2' as <-.
    assert (Hd1pos : (0.1 <= d1)%Q).
    { apply nth_error_In in Hd1.
      exact (proj1 (List.Forall_forall _ _) Hfar d1 Hd1). }
    pose proof (total_weight_positive nd idw_power Hnd_ne Hfar) as Htotal.
    rewrite raw_weights_total in Htotal.
    apply Qmult_le_compat_r.
    + apply inverse_power_decreasing; [exact Hp | lra].
    + apply Qinv_le_0_compat. lra.
Qed.

End DecayProperties.

Lemma idw_weights_decay_witness :
  exists r,
    predict_spatial_interpolation (H := Sample.sample_numerics) 28.65 77.25
      (sample_stations PyList) 3 2 = Ok r /\
    forall c, In c (ir_nearest_stations r) -> (0 < weight c <= 1)%Q.
Proof.
  eexists. split; [vm_compute; reflexivity|].
  intros c Hc.
  eapply (proj1 (idw_weights_decay (H := Sample.sample_numerics) 28.65 77.25
                   (sample_stations PyList) 3 2 _ _ _ _ c c Hc Hc)).
  Unshelve.
  - vm_compute. reflexivity.
  - lia.
  - vm_compute. reflexivity.
Defined.

(** ** The ground-fusion path of the hyperlocal prediction *)

Lemma fusion_weights_lookup :
  (<["aod" := 0.4%Q]> (<["ground" := 0.6%Q]> (∅ : gmap string Q))) !! "aod"
    = Some 0.4%Q /\
  (<["aod" := 0.4%Q]> (<["ground" := 0.6%Q]> (∅ : gmap string Q))) !! "ground"
    = Some 0.6%Q.
Proof. split; reflexivity. Qed.

Section GroundFusion.
Context `{numerics}.

(** With stations given, the hyperlocal prediction fails exactly as the
    interpolation does, and otherwise returns the fused record. *)
Lemma predict_hyperlocal_ground_path (latitude longitude aod_value : Q)
    (temporal_features : gmap string Z) (s : station) (l : list station)
    (season : option string) :
  (forall e,
     predict_spatial_interpolation latitude longitude (s :: l) 3 2 = Raise e ->
     predict_hyperlocal latitude longitude aod_value temporal_features
       (Some (s :: l)) season = Raise e) /\
  (forall sr,
     predict_spatial_interpolation latitude longitude (s :: l) 3 2 = Ok sr ->
     exists aod_aqi temporal_factor latitude_factor season_used,
       predict_hyperlocal latitude longitude aod_value temporal_features
         (Some (s :: l)) season
       = Ok (mk_hyperlocal latitude longitude
               (py_round2
                  (np_clip ((0.4 * aod_aqi + 0.6 * ir_interpolated_aqi sr)
                            * temporal_factor) 0 500))
               aod_value (py_round2 aod_aqi) season_used "high"
               "Satellite-Ground Fusion" temporal_factor latitude_factor
               (mk_components 0.4 0.6) (length (s :: l)))).
Proof.
  destruct fusion_weights_lookup as [Haod Hground].
  split.
  - intros e He. unfold predict_hyperlocal.
    cbv beta iota zeta
      delta [truthy default from_option id andb length Nat.ltb Nat.leb mbind
             mret result_bind result_ret].
    rewrite He. reflexivity.
  - intros sr Hsr. unfold predict_hyperlocal.
    cbv beta iota zeta
      delta [truthy default from_option id andb length Nat.ltb Nat.leb mbind
             mret result_bind result_ret].
    rewrite Hsr, Haod, Hground.
    cbv beta iota zeta delta [read_local id].
    rewrite Haod, Hground.
    eexists _, _, _, _. reflexivity.
Qed.

End GroundFusion.

Lemma np_clip_bounds (x lo hi : Q) :
  (lo <= hi)%Q -> (lo <= np_clip x lo hi <= hi)%Q.
Proof.
  intros Hlh. unfold np_clip, py_min, py_max.
  destruct (Qltb x lo) eqn:E1.
  - destruct (Qltb hi lo) eqn:E2.
    + apply Qltb_lt in E2. lra.
    + lra.
  - apply Qltb_ge in E1. destruct (Qltb hi x) eqn:E2.
    + lra.
    + apply Qltb_ge in E2. lra.
Qed.

(** Rounding to two places keeps a value inside [0, 500]. *)
Lemma py_round2_bounds (x : Q) :
  (0 <= x <= 500)%Q -> (0 <= py_round2 x <= 500)%Q.
Proof.
  intros [H0 H5]. unfold py_round2.
  set (n := (x * 100)%Q). set (f := Qfloor n).
  assert (Hn : (0 <= n <= 50000)%Q) by (unfold n; lra).
  assert (Hf1 : (inject_Z f <= n)%Q) by apply Qfloor_le.
  assert (Hf2 : (n < inject_Z (f + 1))%Q) by apply Qlt_floor.
  assert (Hlo : 0 <= f).
  { assert (Hq : (0 < inject_Z (f + 1))%Q) by lra.
    assert (Hlt : 0 < f + 1) by (rewrite Zlt_Qlt; exact Hq). lia. }
  assert (Hhi : f <= 50000).
  { assert (Hq : (inject_Z f <= 50000)%Q) by lra.
    rewrite Zle_Qle. exact Hq. }
  assert (Hup : Qltb (n - inject_Z f) 0.5 = false -> f + 1 <= 50000).
  { intros Hrest. apply Qltb_ge in Hrest.
    assert (Hq : (inject_Z f < 50000)%Q) by lra.
    assert (Hlt : f < 50000) by (rewrite Zlt_Qlt; exact Hq). lia. }
  assert (Hr : forall r, 0 <= r <= 50000 ->
            (0 <= inject_Z r / 100 <= 500)%Q).
  { intros r [Hr0 Hr5].
    rewrite Zle_Qle in Hr0, Hr5.
    assert (Hq0 : (0 <= inject_Z r)%Q) by exact Hr0.
    assert (Hq5 : (inject_Z r <= 50000)%Q) by exact Hr5.
    split.
    - apply Qle_shift_div_l; lra.
    - apply Qle_shift_div_r; lra. }
  apply Hr.
  destruct (Qltb (n - inject_Z f) 0.5) eqn:E1; [lia|].
  specialize (Hup eq_refl).
  destruct (Qltb 0.5 (n - inject_Z f)); [lia|].
  destruct (Z.even f); lia.
Qed.

Section FusionPath.
Context `{numerics}.

(** The number of contributors of a returned interpolation with a
    positive [k_nearest]. *)
Lemma predict_spatial_interpolation_count (target_lat target_lon : Q)
    (station_data : list station) (k_nearest idw_power : Z)
    (r : interpolation_result) :
  1 <= k_nearest ->
  station_data <> [] ->
  predict_spatial_interpolation target_lat target_lon station_data k_nearest
    idw_power = Ok r ->
  length (ir_nearest_stations r)
  = Z.to_nat (Z.min k_nearest (Z.of_nat (length station_data))).
Proof.
  intros Hk Hne Hr.
  destruct (select_nearest_ok target_lat target_lon station_data
              (clamp_k (length station_data) k_nearest))
    as (ns & nd & Hsel & Hcount & _ & _).
  rewrite select_nearest_count in Hcount by exact Hk.
  assert (Hlen : (0 < length station_data)%nat)
    by (destruct station_data; [congruence | cbn [length]; lia]).
  assert (Hns : ns <> []) by (intros ->; cbn [length] in Hcount; lia).
  destruct (predict_spatial_interpolation_shape _ _ _ _ _ _ _ _ Hsel Hns Hr)
    as (ws & m & _ & Hnd & Hws & Hcs & _).
  rewrite Hcs, contributors_length by assumption. exact Hcount.
Qed.

(** The outcomes of the hyperlocal prediction.  Without stations ([None]
    or an empty list) it raises UnboundLocalError.  With stations it does
    what their interpolation (3 nearest, power 2) does: an exception of
    the interpolation is passed on unchanged, and when the interpolation
    returns so does the prediction.  So it returns exactly when stations
    are given and their interpolation returns. *)
Theorem predict_hyperlocal_outcomes (latitude longitude aod_value : Q)
    (temporal_features : gmap string Z)
    (nearby_stations : option (list station)) (season : option string) :
  (nearby_stations = None \/ nearby_stations = Some [] ->
   predict_hyperlocal latitude longitude aod_value temporal_features
     nearby_stations season = Raise (UnboundLocalError "fusion_weights")) /\
  (forall l, nearby_stations = Some l -> l <> [] ->
     (forall e,
        predict_spatial_interpolation latitude longitude l 3 2 = Raise e ->
        predict_hyperlocal latitude longitude aod_value temporal_features
          nearby_stations season = Raise e) /\
     (forall sr,
        predict_spatial_interpolation latitude longitude l 3 2 = Ok sr ->
        exists r,
          predict_hyperlocal latitude longitude aod_value temporal_features
            nearby_stations season = Ok r)) /\
  ((exists r,
      predict_hyperlocal latitude longitude aod_value temporal_features
        nearby_stations season = Ok r)
   <->
   (exists l sr,
      nearby_stations = Some l /\ l <> [] /\
      predict_spatial_interpolation latitude longitude l 3 2 = Ok sr)).
Proof.
  assert (Hground : forall l, nearby_stations = Some l -> l <> [] ->
     (forall e,
        predict_spatial_interpolation latitude longitude l 3 2 = Raise e ->
        predict_hyperlocal latitude longitude aod_value temporal_features
          nearby_stations season = Raise e) /\
     (forall sr,
        predict_spatial_interpolation latitude longitude l 3 2 = Ok sr ->
        exists r,
          predict_hyperlocal latitude longitude aod_value temporal_features
            nearby_stations season = Ok r)).
  { intros l -> Hne. destruct l as [|s l]; [congruence|].
    destruct (predict_hyperlocal_ground_path latitude longitude aod_value
                temporal_features s l season) as [Hraise Hok].
    split; [exact Hraise|].
    intros sr Hpsi. destruct (Hok sr Hpsi) as (a & t & f & u & Hr).
    eexists. exact Hr. }
  split; [|split; [exact Hground|split]].
  - intros [-> | ->]; reflexivity.
  - intros (r & Hr).
    destruct nearby_stations as [[|s l]|]; [discriminate Hr| |discriminate Hr].
    destruct (predict_spatial_interpolation latitude longitude (s :: l) 3 2)
      as [sr|e] eqn:Hpsi.
    + exists (s :: l), sr. split; [reflexivity|]. split; [discriminate|exact Hpsi].
    + assert (Hne : s :: l <> []) by discriminate.
      destruct (Hground (s :: l) eq_refl Hne) as [Hraise _].
      rewrite (Hraise e Hpsi) in Hr. discriminate Hr.
  - intros (l & sr & Hl & Hne & Hpsi).
    destruct (Hground l Hl Hne) as [_ Hok]. exact (Hok sr Hpsi).
Qed.

(** Whatever the hyperlocal prediction returns is a fused result: confidence
    'high', weights 0.4 and 0.6, an AQI inside [0, 500]; it reports all the
    stations passed in as used, while the interpolation behind it used at
    most three of them. *)
Theorem predict_hyperlocal_result_invariants
    (latitude longitude aod_value : Q) (temporal_features : gmap string Z)
    (nearby_stations : option (list station)) (season : option string)
    (r : hyperlocal_result) :
  predict_hyperlocal latitude longitude aod_value temporal_features
    nearby_stations season = Ok r ->
  confidence r = "high" /\
  method r = "Satellite-Ground Fusion" /\
  hl_components r = mk_components 0.4 0.6 /\
  (0 <= hyperlocal_aqi r <= 500)%Q /\
  exists l sr,
    nearby_stations = Some l /\
    predict_spatial_interpolation latitude longitude l 3 2 = Ok sr /\
    nearest_stations_used r = length l /\
    length (ir_nearest_stations sr) = Nat.min 3 (length l).
Proof.
  intros Hr.
  destruct nearby_stations as [[|s l]|]; [discriminate Hr| |discriminate Hr].
  destruct (predict_hyperlocal_ground_path latitude longitude aod_value
              temporal_features s l season) as [Hraise Hok].
  destruct (predict_spatial_interpolation latitude longitude (s :: l) 3 2)
    as [sr|e] eqn:Hpsi.
  - destruct (Hok sr eq_refl) as (a & t & f & u & Hr').
    rewrite Hr' in Hr. injection Hr as <-.
    split; [reflexivity|]. split; [reflexivity|]. split; [reflexivity|].
    split.
    + cbn [hyperlocal_aqi]. apply py_round2_bounds, np_clip_bounds.
      discriminate.
    + exists (s :: l), sr. split; [reflexivity|]. split; [exact Hpsi|].
      split; [reflexivity|].
      assert (H3 : 1 <= 3) by lia.
      assert (Hne : s :: l <> []) by discriminate.
      rewrite (predict_spatial_interpolation_count latitude longitude
                 (s :: l) 3 2 sr H3 Hne Hpsi).
      lia.
  - rewrite (Hraise e eq_refl) in Hr. discriminate Hr.
Qed.

End FusionPath.

Lemma predict_hyperlocal_result_invariants_witness :
  exists r,
    predict_hyperlocal (H := Sample.sample_numerics) 28.65 77.25 0.5
      (<["hour" := 18]> (<["month" := 10]> ∅))
      (Some (sample_stations PyList)) (Some "autumn") = Ok r /\
    (confidence r = "high" /\
     method r = "Satellite-Ground Fusion" /\
     hl_components r = mk_components 0.4 0.6 /\
     (0 <= hyperlocal_aqi r <= 500)%Q /\
     exists l sr,
       Some (sample_stations PyList) = Some l /\
       predict_spatial_interpolation (H := Sample.sample_numerics) 28.65 77.25
         l 3 2 = Ok sr /\
       nearest_stations_used r = length l /\
       length (ir_nearest_stations sr) = Nat.min 3 (length l)).
Proof.
  eexists. split; [vm_compute; reflexivity|].
  eapply (predict_hyperlocal_result_invariants (H := Sample.sample_numerics)
            28.65 77.25 0.5 (<["hour" := 18]> (<["month" := 10]> ∅))
            (Some (sample_stations PyList)) (Some "autumn")).
  vm_compute. reflexivity.
Defined.

Lemma predict_hyperlocal_outcomes_witness :
  raises (predict_hyperlocal (H := Sample.sample_numerics) 28.61 77.20 0.5
            (<["hour" := 18]> (<["month" := 10]> ∅))
            (Some (sample_stations PyList)) (Some "autumn"))
    "AttributeError".
Proof.
  destruct (predict_hyperlocal_outcomes (H := Sample.sample_numerics)
              28.61 77.20 0.5 (<["hour" := 18]> (<["month" := 10]> ∅))
              (Some (sample_stations PyList)) (Some "autumn"))
    as (_ & Hground & _).
  assert (Hne : sample_stations PyList <> []) by discriminate.
  destruct (Hground (sample_stations PyList) eq_refl Hne) as [Hraise _].
  erewrite Hraise; [|vm_compute; reflexivity].
  reflexivity.
Defined.

(** ** Health recommendations *)

Lemma get_aqi_category_cases (aqi : Q) :
  (get_aqi_category aqi = Ok Good /\ (aqi <= 50)%Q) \/
  (get_aqi_category aqi = Ok Satisfactory /\ (50 < aqi <= 100)%Q) \/
  (get_aqi_category aqi = Ok Moderate /\ (100 < aqi <= 200)%Q) \/
  (get_aqi_category aqi = Ok Poor /\ (200 < aqi <= 300)%Q) \/
  (get_aqi_category aqi = Ok Very_Poor /\ (300 < aqi <= 400)%Q) \/
  (get_aqi_category aqi = Ok Severe /\ (400 < aqi)%Q).
Proof.
  unfold get_aqi_category.
  destruct (Qleb aqi 50) eqn:E50;
    [apply Qleb_le in E50; left; split; [reflexivity | lra]
    | apply Qleb_gt in E50; right].
  destruct (Qleb aqi 100) eqn:E100;
    [apply Qleb_le in E100; left; split; [reflexivity | lra]
    | apply Qleb_gt in E100; right].
  destruct (Qleb aqi 200) eqn:E200;
    [apply Qleb_le in E200; left; split; [reflexivity | lra]
    | apply Qleb_gt in E200; right].
  destruct (Qleb aqi 300) eqn:E300;
    [apply Qleb_le in E300; left; split; [reflexivity | lra]
    | apply Qleb_gt in E300; right].
  destruct (Qleb aqi 400) eqn:E400;
    [apply Qleb_le in E400; left; split; [reflexivity | lra]
    | apply Qleb_gt in E400; right].
  split; [reflexivity | lra].
Qed.

(** Every category name is a key of the table, and the mask entry is
    [False] for the first two only. *)
Lemma recommendations_lookup (ci : category_info) :
  In ci [Good; Satisfactory; Moderate; Poor; Very_Poor; Severe] ->
  exists base_rec,
    recommendations !! category ci = Some base_rec /\
    (rec_mask_required base_rec = MaskFalse <->
     ci = Good \/ ci = Satisfactory).
Proof.
  intros Hin. cbn [In] in Hin.
  destruct Hin as [<-|[<-|[<-|[<-|[<-|[<-|[]]]]]]];
    (eexists; split; [vm_compute; reflexivity|]);
    cbn [rec_mask_required]; split;
    try discriminate; try (intros _; auto; fail);
    intros [Hc|Hc]; discriminate Hc.
Qed.

Lemma py_bool_false (f : option Q) : py_bool f = false <-> absent_or_zero f.
Proof.
  destruct f as [x|]; cbn [py_bool absent_or_zero]; [|tauto].
  rewrite Bool.negb_false_iff. apply Qeq_bool_iff.
Qed.

Lemma given_forecasts_nonempty (f24 f48 f72 : option Q) :
  py_bool f24 || py_bool f48 || py_bool f72 = true ->
  exists n, length (omap (fun f => f) [f24; f48; f72]) = S n.
Proof.
  destruct f24, f48, f72; cbn; intros Hb; try discriminate Hb; eauto.
Qed.

(** The call written out: it always reaches the returned dict. *)
Lemma get_health_recommendations_returns (aqi : Q)
    (forecast_24h forecast_48h forecast_72h : option Q) :
  exists category_info base_rec,
    get_aqi_category aqi = Ok category_info /\
    In category_info [Good; Satisfactory; Moderate; Poor; Very_Poor; Severe] /\
    recommendations !! category category_info = Some base_rec /\
    let forecasts :=
      omap (fun f => f) [forecast_24h; forecast_48h; forecast_72h] in
    let avg_forecast :=
      (py_sum forecasts / inject_Z (Z.of_nat (length forecasts)))%Q in
    let rounded (f : option Q) :=
      if py_bool f then option_map py_round1 f else None in
    get_health_recommendations aqi forecast_24h forecast_48h forecast_72h
    = Ok {| hr_current_aqi := py_round1 aqi;
            hr_category := category category_info;
            hr_color := color category_info;
            hr_color_name := color_name category_info;
            hr_risk_level := risk_level category_info;
            hr_general_advice := rec_general base_rec;
            hr_sensitive_groups := rec_sensitive_groups base_rec;
            hr_outdoor_activities := rec_outdoor_activities base_rec;
            hr_mask_required := rec_mask_required base_rec;
            hr_windows := rec_windows base_rec;
            hr_exercise := rec_exercise base_rec;
            hr_children_elderly := rec_children_elderly base_rec;
            hr_forecast_trend :=
              if py_bool forecast_24h || py_bool forecast_48h
                 || py_bool forecast_72h
              then Some (if Qltb avg_forecast (aqi * 0.9) then trend_improve
                         else if Qltb (aqi * 1.1) avg_forecast
                              then trend_worsen
                         else trend_similar)
              else None;
            hr_forecast_24h := rounded forecast_24h;
            hr_forecast_48h := rounded forecast_48h;
            hr_forecast_72h := rounded forecast_72h |}.
Proof.
  assert (Hci : exists ci, get_aqi_category aqi = Ok ci /\
            In ci [Good; Satisfactory; Moderate; Poor; Very_Poor; Severe]).
  { destruct (get_aqi_category_cases aqi)
      as [[-> _]|[[-> _]|[[-> _]|[[-> _]|[[-> _]|[-> _]]]]]];
      eexists; (split; [reflexivity|]); cbn [In]; tauto. }
  destruct Hci as (ci & Hci & Hin).
  destruct (recommendations_lookup ci Hin) as (br & Hbr & _).
  exists ci, br. split; [exact Hci|]. split; [exact Hin|]. split; [exact Hbr|].
  intros forecasts avg_forecast rounded.
  unfold get_health_recommendations.
  rewrite Hci, result_bind_ok.
  cbv zeta. rewrite Hbr. cbn [from_option]. rewrite result_bind_ok.
  fold forecasts.
  destruct (py_bool forecast_24h || py_bool forecast_48h
            || py_bool forecast_72h) eqn:Hgiven.
  - destruct (given_forecasts_nonempty _ _ _ Hgiven) as (n & Hn).
    fold forecasts in Hn. unfold py_truediv.
    unfold avg_forecast. rewrite Hn.
    cbn [Nat.eqb]. rewrite result_bind_ok.
    destruct (Qltb _ (aqi * 0.9));
      [reflexivity|].
    destruct (Qltb (aqi * 1.1) _); reflexivity.
  - reflexivity.
Qed.

(** The call never raises: the category is always a key of the table and
    the average is only taken over a non-empty list.  The result carries
    the category of [get_aqi_category], and its mask entry is [False]
    exactly up to an AQI of 100. *)
Theorem get_health_recommendations_total (aqi : Q)
    (forecast_24h forecast_48h forecast_72h : option Q) :
  exists category_info r,
    get_aqi_category aqi = Ok category_info /\
    get_health_recommendations aqi forecast_24h forecast_48h forecast_72h
      = Ok r /\
    hr_category r = category category_info /\
    hr_color r = color category_info /\
    hr_risk_level r = risk_level category_info /\
    (hr_mask_required r = MaskFalse <-> (aqi <= 100)%Q).
Proof.
  destruct (get_health_recommendations_returns aqi forecast_24h forecast_48h
              forecast_72h) as (ci & br & Hci & Hin & Hbr & Hr).
  cbv zeta in Hr.
  exists ci. eexists. split; [exact Hci|]. split; [exact Hr|].
  split; [reflexivity|]. split; [reflexivity|]. split; [reflexivity|].
  cbn [hr_mask_required].
  destruct (recommendations_lookup ci Hin) as (br' & Hbr' & Hmask).
  rewrite Hbr in Hbr'. injection Hbr' as <-.
  rewrite Hmask.
  pose proof category_names_distinct as D.
  destruct (get_aqi_category_cases aqi)
    as [[Hc Hb]|[[Hc Hb]|[[Hc Hb]|[[Hc Hb]|[[Hc Hb]|[Hc Hb]]]]]];
    rewrite Hc in Hci; injection Hci as <-;
    (split; [intros [Hx|Hx]; try discriminate Hx; lra | intros Hle]);
    try (left; reflexivity); try (right; reflexivity); lra.
Qed.

(** The trend of a returned recommendation.  It is absent exactly when
    every forecast is absent or zero.  Otherwise the average is taken over
    the forecasts that are not [None], zeros included: below 0.9 times the
    AQI the trend is 'improve', else above 1.1 times the AQI it is
    'worsen', else 'similar'.  Each of the three forecasts is echoed back
    rounded to one place unless it is absent or zero, and then as [None]. *)
Theorem forecast_trend_cases (aqi : Q)
    (forecast_24h forecast_48h forecast_72h : option Q)
    (r : health_recommendations) :
  get_health_recommendations aqi forecast_24h forecast_48h forecast_72h
    = Ok r ->
  let forecasts := omap (fun f => f) [forecast_24h; forecast_48h; forecast_72h] in
  let avg_forecast :=
    (py_sum forecasts / inject_Z (Z.of_nat (length forecasts)))%Q in
  (hr_forecast_trend r = None <->
   absent_or_zero forecast_24h /\ absent_or_zero forecast_48h /\
   absent_or_zero forecast_72h) /\
  (hr_forecast_trend r <> None ->
   ((avg_forecast < aqi * 0.9)%Q -> hr_forecast_trend r = Some trend_improve) /\
   ((aqi * 0.9 <= avg_forecast)%Q -> (aqi * 1.1 < avg_forecast)%Q ->
    hr_forecast_trend r = Some trend_worsen) /\
   ((aqi * 0.9 <= avg_forecast)%Q -> (avg_forecast <= aqi * 1.1)%Q ->
    hr_forecast_trend r = Some trend_similar)) /\
  (hr_forecast_24h r = None <-> absent_or_zero forecast_24h) /\
  (hr_forecast_48h r = None <-> absent_or_zero forecast_48h) /\
  (hr_forecast_72h r = None <-> absent_or_zero forecast_72h) /\
  (forall x, forecast_24h = Some x -> ~ (x == 0)%Q ->
     hr_forecast_24h r = Some (py_round1 x)) /\
  (forall x, forecast_48h = Some x -> ~ (x == 0)%Q ->
     hr_forecast_48h r = Some (py_round1 x)) /\
  (forall x, forecast_72h = Some x -> ~ (x == 0)%Q ->
     hr_forecast_72h r = Some (py_round1 x)).
Proof.
  intros Hr forecasts avg_forecast.
  destruct (get_health_recommendations_returns aqi forecast_24h forecast_48h
              forecast_72h) as (ci & br & _ & _ & _ & Hr').
  cbv zeta in Hr'. rewrite Hr' in Hr. apply result_ok_inj in Hr. subst r.
  subst avg_forecast forecasts.
  cbv beta iota
    delta [hr_forecast_trend hr_forecast_24h hr_forecast_48h hr_forecast_72h].
  assert (Hecho : forall f,
            (if py_bool f then option_map py_round1 f else None) = None
            <-> absent_or_zero f).
  { intros f. rewrite <- py_bool_false.
    destruct (py_bool f) eqn:E; [|tauto].
    destruct f; cbn in *; split; discriminate. }
  assert (Hround : forall f x, f = Some x -> ~ (x == 0)%Q ->
            (if py_bool f then option_map py_round1 f else None)
            = Some (py_round1 x)).
  { intros f x -> Hx. cbn [py_bool option_map].
    destruct (Qeq_bool x 0) eqn:E; [|reflexivity].
    apply Qeq_bool_iff in E. contradiction. }
  split; [|split; [|split; [apply Hecho|split; [apply Hecho|split;
    [apply Hecho|split; [apply Hround|split; apply Hround]]]]]].
  - rewrite <- !py_bool_false.
    destruct (py_bool forecast_24h), (py_bool forecast_48h),
      (py_bool forecast_72h); cbn [orb]; split;
      try discriminate; try tauto;
      intros (H1 & H2 & H3); discriminate.
  - destruct (py_bool forecast_24h || py_bool forecast_48h
              || py_bool forecast_72h); [intros _|congruence].
    split; [|split].
    + intros Hlt. now rewrite (proj2 (Qltb_lt _ _) Hlt).
    + intros Hge Hgt.
      now rewrite (proj2 (Qltb_ge _ _) Hge), (proj2 (Qltb_lt _ _) Hgt).
    + intros Hge Hle.
      now rewrite (proj2 (Qltb_ge _ _) Hge), (proj2 (Qltb_ge _ _) Hle).
Qed.

Lemma forecast_trend_cases_witness :
  exists r,
    get_health_recommendations 100 (Some 0%Q) (Some 100%Q) None = Ok r /\
    hr_forecast_trend r = Some trend_improve /\
    hr_forecast_24h r = None /\
    hr_forecast_48h r = Some (py_round1 100).
Proof.
  eexists. split; [vm_compute; reflexivity|].
  destruct (forecast_trend_cases 100 (Some 0%Q) (Some 100%Q) None _ eq_refl)
    as (_ & Htrend & H24 & _ & _ & _ & H48 & _).
  split; [|split].
  - apply Htrend; [discriminate|]. vm_compute. reflexivity.
  - apply H24. reflexivity.
  - apply H48; [reflexivity | discriminate].
Defined.

(** ** Rush-hour peaks of a forecast *)

(** The appending loop collects the rows that pass the test, in order. *)
Lemma peaks_loop (baseline threshold_increase confidence : Q)
    (rows : list ForecastPoint) (found : list peak) :
  fold_left
    (fun found row =>
       let increase := (fp_aqi_forecast row - baseline)%Q in
       if Qleb threshold_increase increase then
         found ++ [{| pk_timestamp := fp_timestamp row;
                      pk_aqi := fp_aqi_forecast row;
                      pk_increase := increase;
                      pk_confidence := confidence |}]
       else found)
    rows found
  = found
    ++ map (fun row => {| pk_timestamp := fp_timestamp row;
                          pk_aqi := fp_aqi_forecast row;
                          pk_increase := (fp_aqi_forecast row - baseline)%Q;
                          pk_confidence := confidence |})
         (List.filter (fun row =>
                    Qleb threshold_increase (fp_aqi_forecast row - baseline))
            rows).
Proof.
  revert found. induction rows as [|row rows IH]; intros found.
  - cbn. now rewrite app_nil_r.
  - cbn [fold_left List.filter]. cbv zeta.
    destruct (Qleb threshold_increase (fp_aqi_forecast row - baseline)).
    + rewrite IH. cbn [map]. now rewrite <- app_assoc.
    + apply IH.
Qed.

(** The peaks of one window. *)
Lemma detect_rush_hour_peaks_windows (forecast_df : list ForecastPoint)
    (threshold_increase : Q) :
  let baseline := series_mean (map fp_aqi_forecast forecast_df) in
  let found lo hi confidence :=
    map (fun row => {| pk_timestamp := fp_timestamp row;
                       pk_aqi := fp_aqi_forecast row;
                       pk_increase := (fp_aqi_forecast row - baseline)%Q;
                       pk_confidence := confidence |})
      (List.filter (fun row =>
                 Qleb threshold_increase (fp_aqi_forecast row - baseline))
         (List.filter (hour_between lo hi) forecast_df)) in
  morning_peaks (detect_rush_hour_peaks forecast_df threshold_increase)
    = found 7 9 0.94%Q /\
  evening_peaks (detect_rush_hour_peaks forecast_df threshold_increase)
    = found 19 21 0.92%Q.
Proof.
  intros baseline found. unfold detect_rush_hour_peaks.
  cbv beta iota zeta delta [morning_peaks evening_peaks].
  fold baseline. rewrite !peaks_loop. cbn [app].
  subst found. cbv beta.
  split.
  - destruct (List.filter (hour_between 7 9) forecast_df); reflexivity.
  - destruct (List.filter (hour_between 19 21) forecast_df); reflexivity.
Qed.

(** The mean of a non-empty column lies strictly above a strict lower
    bound of its entries. *)
Lemma series_mean_gt (column : list Q) (lo : Q) :
  column <> [] -> Forall (fun x => lo < x)%Q column ->
  (lo < series_mean column)%Q.
Proof.
  intros Hne Hall. unfold series_mean.
  assert (Hsum : (inject_Z (Z.of_nat (length column)) * lo
                  < py_sum column)%Q).
  { induction Hall as [|x l Hx Hl IH]; [congruence|].
    rewrite py_sum_cons. cbn [length].
    rewrite Nat2Z.inj_succ. unfold Z.succ. rewrite inject_Z_plus.
    change (inject_Z 1) with 1%Q.
    destruct l as [|y l].
    - unfold py_sum. cbn [fold_left length].
      change (inject_Z (Z.of_nat 0)) with 0%Q. lra.
    - assert (inject_Z (Z.of_nat (length (y :: l))) * lo
              < py_sum (y :: l))%Q by (apply IH; discriminate).
      lra. }
  assert (Hn : (0 < inject_Z (Z.of_nat (length column)))%Q).
  { change 0%Q with (inject_Z 0). rewrite <- Zlt_Qlt.
    destruct column; [congruence | cbn [length]; lia]. }
  apply Qlt_shift_div_l; [exact Hn|]. rewrite Qmult_comm. exact Hsum.
Qed.

(** What is reported and what is not.  A morning peak is exactly a row of
    the forecast between 7 and 9 o'clock whose AQI exceeds the mean of the
    whole forecast by the threshold or more; an evening peak the same
    between 19 and 21 o'clock.  The weekend flag of a row plays no part. *)
Theorem detect_rush_hour_peaks_reports (forecast_df : list ForecastPoint)
    (threshold_increase : Q) (pk : peak) :
  let baseline := series_mean (map fp_aqi_forecast forecast_df) in
  let found := detect_rush_hour_peaks forecast_df threshold_increase in
  (In pk (morning_peaks found) <->
   exists row, In row forecast_df /\
     7 <= dt_hour (fp_timestamp row) <= 9 /\
     (threshold_increase <= fp_aqi_forecast row - baseline)%Q /\
     pk = mk_peak (fp_timestamp row) (fp_aqi_forecast row)
            (fp_aqi_forecast row - baseline) 0.94) /\
  (In pk (evening_peaks found) <->
   exists row, In row forecast_df /\
     19 <= dt_hour (fp_timestamp row) <= 21 /\
     (threshold_increase <= fp_aqi_forecast row - baseline)%Q /\
     pk = mk_peak (fp_timestamp row) (fp_aqi_forecast row)
            (fp_aqi_forecast row - baseline) 0.92).
Proof.
  intros baseline found.
  destruct (detect_rush_hour_peaks_windows forecast_df threshold_increase)
    as [Hm He].
  cbv zeta in Hm, He. fold baseline in Hm, He. fold found in Hm, He.
  rewrite Hm, He.
  assert (Hwin : forall lo hi confidence,
    In pk (map (fun row => mk_peak (fp_timestamp row) (fp_aqi_forecast row)
                             (fp_aqi_forecast row - baseline) confidence)
             (List.filter (fun row =>
                        Qleb threshold_increase
                          (fp_aqi_forecast row - baseline))
                (List.filter (hour_between lo hi) forecast_df)))
    <-> exists row, In row forecast_df /\
          lo <= dt_hour (fp_timestamp row) <= hi /\
          (threshold_increase <= fp_aqi_forecast row - baseline)%Q /\
          pk = mk_peak (fp_timestamp row) (fp_aqi_forecast row)
                 (fp_aqi_forecast row - baseline) confidence).
  { intros lo hi confidence. rewrite in_map_iff. split.
    - intros (row & <- & Hin).
      apply filter_In in Hin. destruct Hin as [Hin Hthr].
      apply filter_In in Hin. destruct Hin as [Hin Hhour].
      unfold hour_between in Hhour. apply andb_true_iff in Hhour.
      exists row. split; [exact Hin|]. split; [lia|].
      split; [now apply Qleb_le | reflexivity].
    - intros (row & Hin & Hhour & Hthr & ->).
      exists row. split; [reflexivity|].
      apply filter_In. split; [|now apply Qleb_le].
      apply filter_In. split; [exact Hin|].
      unfold hour_between. apply andb_true_iff. lia. }
  split; apply Hwin.
Qed.

(** A forecast whose values differ by less than the threshold has no
    peaks: in particular a flat forecast has none for a positive
    threshold. *)
Theorem no_peaks_below_threshold_spread (forecast_df : list ForecastPoint)
    (threshold_increase : Q) :
  (forall p q, In p forecast_df -> In q forecast_df ->
     (fp_aqi_forecast p - fp_aqi_forecast q < threshold_increase)%Q) ->
  morning_peaks (detect_rush_hour_peaks forecast_df threshold_increase) = [] /\
  evening_peaks (detect_rush_hour_peaks forecast_df threshold_increase) = [].
Proof.
  intros Hspread.
  assert (Hnone : forall lo hi,
    List.filter (fun row =>
              Qleb threshold_increase
                (fp_aqi_forecast row
                 - series_mean (map fp_aqi_forecast forecast_df)))
      (List.filter (hour_between lo hi) forecast_df) = []).
  { intros lo hi.
    destruct (List.filter _ (List.filter _ _)) as [|row rest] eqn:E; [reflexivity|].
    exfalso.
    assert (Hin : In row (row :: rest)) by (left; reflexivity).
    rewrite <- E in Hin.
    apply filter_In in Hin. destruct Hin as [Hin Hthr].
    apply filter_In in Hin. destruct Hin as [Hin _].
    apply Qleb_le in Hthr.
    assert (Hmean : (fp_aqi_forecast row - threshold_increase
                     < series_mean (map fp_aqi_forecast forecast_df))%Q).
    { apply series_mean_gt.
      - destruct forecast_df; [destruct Hin | discriminate].
      - apply List.Forall_forall. intros x Hx.
        apply in_map_iff in Hx. destruct Hx as (q & <- & Hq).
        specialize (Hspread row q Hin Hq). lra. }
    lra. }
  destruct (detect_rush_hour_peaks_windows forecast_df threshold_increase)
    as [Hm He].
  cbv zeta in Hm, He. rewrite Hm, He.
  rewrite !Hnone. split; reflexivity.
Qed.

Section GeneratedPeaks.
Context `{numerics}.

(** On a forecast made by [generate_forecast] with the patterns on, every
    reported peak is a row that the forecast flagged as rush hour; the
    row may be a weekend one, whose value carries no rush-hour boost. *)
Theorem peaks_are_flagged_rush_hours (self : ForecastingEngine)
    (predict : list Q -> Q) (features : list Q) (start_time : datetime)
    (forecast_hours : Z) (threshold_increase : Q)
    (forecast_df : list ForecastPoint) (self' : ForecastingEngine) (pk : peak) :
  model self = Some predict ->
  generate_forecast self features start_time forecast_hours true
    = Ok (forecast_df, self') ->
  In pk (morning_peaks (detect_rush_hour_peaks forecast_df threshold_increase)
         ++ evening_peaks
              (detect_rush_hour_peaks forecast_df threshold_increase)) ->
  exists row, In row forecast_df /\
    fp_is_rush_hour row = true /\
    pk_timestamp pk = fp_timestamp row /\
    pk_aqi pk = fp_aqi_forecast row /\
    (threshold_increase
     <= fp_aqi_forecast row - series_mean (map fp_aqi_forecast forecast_df))%Q.
Proof.
  intros Hmodel Hgen Hpk.
  rewrite (generate_forecast_table self predict features start_time
             forecast_hours Hmodel) in Hgen.
  apply result_ok_inj in Hgen.
  assert (Hdf : forecast_df
                = map (pattern_point predict (model_metrics self) features
                         start_time) (range (clamp_hours forecast_hours)))
    by congruence.
  clear Hgen.
  destruct (detect_rush_hour_peaks_windows forecast_df threshold_increase)
    as [Hm He].
  cbv zeta in Hm, He. rewrite Hm, He in Hpk. clear Hm He.
  assert (Hflag : forall row lo hi, In row forecast_df ->
            hour_between lo hi row = true ->
            (lo = 7 /\ hi = 9) \/ (lo = 19 /\ hi = 21) ->
            fp_is_rush_hour row = true).
  { intros row lo hi Hin Hhour Hwin. rewrite Hdf in Hin.
    apply in_map_iff in Hin. destruct Hin as (o & <- & _).
    unfold hour_between in Hhour. apply andb_true_iff in Hhour.
    unfold pattern_point in *. cbv zeta in *.
    cbn [fp_is_rush_hour fp_timestamp] in *.
    set (h := dt_hour (add_hours start_time o)) in *.
    cbn [existsb].
    destruct Hwin as [[Hlo Hhi]|[Hlo Hhi]]; subst lo hi.
    - assert (Hh : h = 7 \/ h = 8 \/ h = 9) by lia.
      destruct Hh as [Hh | [Hh | Hh]]; rewrite Hh; reflexivity.
    - assert (Hh : h = 19 \/ h = 20 \/ h = 21) by lia.
      destruct Hh as [Hh | [Hh | Hh]]; rewrite Hh; reflexivity. }
  apply in_app_or in Hpk.
  destruct Hpk as [Hpk|Hpk];
    apply in_map_iff in Hpk; destruct Hpk as (row & <- & Hin);
    apply filter_In in Hin; destruct Hin as [Hin Hthr];
    apply filter_In in Hin; destruct Hin as [Hin Hhour];
    exists row; (split; [exact Hin|]);
    (split; [eapply Hflag; [exact Hin | exact Hhour | tauto]|]);
    (split; [reflexivity|]); (split; [reflexivity|]);
    now apply Qleb_le.
Qed.

End GeneratedPeaks.

Lemma no_peaks_below_threshold_spread_witness :
  morning_peaks
    (detect_rush_hour_peaks
       [mk_point (mk_datetime 2025 11 3 8) 0 110 101 119 100 18 "autumn"
          false true;
        mk_point (mk_datetime 2025 11 3 9) 1 100 91 109 100 18 "autumn"
          false true] default_threshold_increase) = [] /\
  evening_peaks
    (detect_rush_hour_peaks
       [mk_point (mk_datetime 2025 11 3 8) 0 110 101 119 100 18 "autumn"
          false true;
        mk_point (mk_datetime 2025 11 3 9) 1 100 91 109 100 18 "autumn"
          false true] default_threshold_increase) = [].
Proof.
  apply no_peaks_below_threshold_spread.
  intros p q [<-|[<-|[]]] [<-|[<-|[]]]; vm_compute; reflexivity.
Defined.

Lemma peaks_are_flagged_rush_hours_witness :
  exists forecast_df self' pk,
    generate_forecast (H := Sample.sample_numerics)
      (mk_engine (Some (fun _ => 100%Q)) ∅ []) [] (mk_datetime 2025 11 3 6)
      3 true = Ok (forecast_df, self') /\
    In pk (morning_peaks
             (detect_rush_hour_peaks forecast_df default_threshold_increase)
           ++ evening_peaks
                (detect_rush_hour_peaks forecast_df
                   default_threshold_increase)) /\
    exists row, In row forecast_df /\
      fp_is_rush_hour row = true /\
      pk_timestamp pk = fp_timestamp row /\
      pk_aqi pk = fp_aqi_forecast row /\
      (default_threshold_increase
       <= fp_aqi_forecast row
          - series_mean (map fp_aqi_forecast forecast_df))%Q.
Proof.
  eexists _, _, _. split; [vm_compute; reflexivity|].
  split; [vm_compute; left; reflexivity|].
  eapply (peaks_are_flagged_rush_hours (H := Sample.sample_numerics)
            (mk_engine (Some (fun _ => 100%Q)) ∅ []) (fun _ => 100%Q) []
            (mk_datetime 2025 11 3 6) 3 default_threshold_increase).
  - reflexivity.
  - vm_compute. reflexivity.
  - vm_compute. left. reflexivity.
Defined.

(** A zero forecast is counted in the average but echoed back as absent. *)
Example zero_forecast_counts_in_the_average :
  exists r,
    get_health_recommendations 100 (Some 0%Q) (Some 100%Q) None = Ok r /\
    hr_forecast_trend r = Some trend_improve /\
    hr_forecast_24h r = None /\
    get_health_recommendations 100 None (Some 100%Q) None
      = Ok {| hr_current_aqi := hr_current_aqi r;
              hr_category := hr_category r;
              hr_color := hr_color r;
              hr_color_name := hr_color_name r;
              hr_risk_level := hr_risk_level r;
              hr_general_advice := hr_general_advice r;
              hr_sensitive_groups := hr_sensitive_groups r;
              hr_outdoor_activities := hr_outdoor_activities r;
              hr_mask_required := hr_mask_required r;
              hr_windows := hr_windows r;
              hr_exercise := hr_exercise r;
              hr_children_elderly := hr_children_elderly r;
              hr_forecast_trend := Some trend_similar;
              hr_forecast_24h := None;
              hr_forecast_48h := hr_forecast_48h r;
              hr_forecast_72h := None |}.
Proof.
  eexists. split; [vm_compute; reflexivity|].
  repeat split.
Qed.

(** ** The two confidence intervals of a forecast *)

Lemma py_max_monotone (a b b' : Q) :
  (b <= b')%Q -> (py_max a b <= py_max a b')%Q.
Proof.
  intros Hb. unfold py_max.
  destruct (Qltb a b) eqn:E1; destruct (Qltb a b') eqn:E2;
    try apply Qltb_lt in E1; try apply Qltb_ge in E1;
    try apply Qltb_lt in E2; try apply Qltb_ge in E2; lra.
Qed.

Section IntervalsAgree.
Context `{numerics}.

(** The bounds that [generate_forecast] stores with each row use the
    constant 1.96, [calculate_confidence_intervals] the quantile of SciPy.
    When that quantile is at most 1.96 and the RMSE is not negative, the
    95% interval computed afterwards for the forecast values, from the
    engine the forecast left behind, lies row by row inside the stored
    one. *)
Theorem forecast_bounds_enclose_confidence_intervals
    (self : ForecastingEngine) (predict : list Q -> Q) (features : list Q)
    (start_time : datetime) (forecast_hours : Z)
    (forecast_df : list ForecastPoint) (self' : ForecastingEngine) :
  model self = Some predict ->
  generate_forecast self features start_time forecast_hours true
    = Ok (forecast_df, self') ->
  (0 <= default 4.57 (model_metrics self !! "test_rmse"))%Q ->
  (norm_ppf ((1 + 0.95) / 2) <= 1.96)%Q ->
  forall i pt, nth_error forecast_df i = Some pt ->
    exists lower upper,
      nth_error (fst (calculate_confidence_intervals self'
                        (map fp_aqi_forecast forecast_df) 0.95)) i
        = Some lower /\
      nth_error (snd (calculate_confidence_intervals self'
                        (map fp_aqi_forecast forecast_df) 0.95)) i
        = Some upper /\
      (fp_aqi_lower pt <= lower)%Q /\ (upper <= fp_aqi_upper pt)%Q.
Proof.
  intros Hmodel Hgen Hrmse Hz i pt Hpt.
  rewrite (generate_forecast_table self predict features start_time
             forecast_hours Hmodel) in Hgen.
  apply result_ok_inj in Hgen.
  assert (Hdf : forecast_df
                = map (pattern_point predict (model_metrics self) features
                         start_time) (range (clamp_hours forecast_hours)))
    by congruence.
  assert (Hmetrics : model_metrics self' = model_metrics self)
    by (replace self' with (snd (forecast_df, self')) by reflexivity;
        rewrite <- Hgen; reflexivity).
  clear Hgen.
  assert (Hpoint : nth_error (map fp_aqi_forecast forecast_df) i
                   = Some (fp_aqi_forecast pt))
    by (rewrite nth_error_map, Hpt; reflexivity).
  destruct (calculate_confidence_intervals_nth self'
              (map fp_aqi_forecast forecast_df) 0.95 i _ Hpoint)
    as [Hlo Hup].
  rewrite Hmetrics in Hlo, Hup.
  eexists _, _. split; [exact Hlo|]. split; [exact Hup|].
  rewrite Hdf in Hpt. rewrite nth_error_map in Hpt.
  destruct (nth_error (range (clamp_hours forecast_hours)) i) as [o|];
    [|discriminate].
  cbn [option_map] in Hpt. apply (inj Some) in Hpt. subst pt.
  unfold pattern_point. cbv zeta.
  cbv beta iota delta [fp_aqi_lower fp_aqi_upper fp_aqi_forecast].
  set (rmse := default 4.57%Q (model_metrics self !! "test_rmse")) in *.
  set (z := norm_ppf ((1 + 0.95) / 2)%Q) in *.
  set (aqi := composed_patterns (predict features)
                (add_hours start_time o)).
  assert (Hmargin : (z * rmse <= 1.96 * rmse)%Q)
    by (apply Qmult_le_compat_r; assumption).
  split.
  - apply py_max_monotone. lra.
  - lra.
Qed.

End IntervalsAgree.

Lemma forecast_bounds_enclose_confidence_intervals_witness :
  exists forecast_df self',
    generate_forecast (H := Sample.sample_numerics)
      (mk_engine (Some (fun _ => 100%Q)) ∅ []) [] (mk_datetime 2025 11 3 6)
      3 true = Ok (forecast_df, self') /\
    forall i pt, nth_error forecast_df i = Some pt ->
      exists lower upper,
        nth_error (fst (calculate_confidence_intervals
                          (H := Sample.sample_numerics) self'
                          (map fp_aqi_forecast forecast_df) 0.95)) i
          = Some lower /\
        nth_error (snd (calculate_confidence_intervals
                          (H := Sample.sample_numerics) self'
                          (map fp_aqi_forecast forecast_df) 0.95)) i
          = Some upper /\
        (fp_aqi_lower pt <= lower)%Q /\ (upper <= fp_aqi_upper pt)%Q.
Proof.
  eexists _, _. split; [vm_compute; reflexivity|].
  apply (forecast_bounds_enclose_confidence_intervals
           (H := Sample.sample_numerics)
           (mk_engine (Some (fun _ => 100%Q)) ∅ []) (fun _ => 100%Q) []
           (mk_datetime 2025 11 3 6) 3).
  - reflexivity.
  - vm_compute. reflexivity.
  - vm_compute. discriminate.
  - vm_compute. discriminate.
Defined.
